(** * pdf-ai: the chat endpoint's retrieval cascade and the ingestion routine

    A shallow embedding of [src/app/api/chat/route.ts] (the [POST] handler)
    and of [src/lib/vectorStore.ts] ([embedAndStoreDocs]), with the
    properties of the retrieval cascade, the relevance gate and re-ingestion
    proved or refuted on it.

    Conventions of the embedding.
    - A JavaScript string is a [string]: one [ascii] per code unit, so the
      model covers text whose code units are below 256; [length] is the
      number of code units, as [String.prototype.length].
    - Every call that leaves the process (MongoDB driver, embedding service)
      is an [Event]; a handler is a computation that yields a value or throws
      and records, in order, the events it performed.
    - [console.log] and [console.error] are not modelled. *)

From Stdlib Require Import List String Ascii Bool Arith ZArith Lia Sorted.
From Stdlib Require Import Floats.PrimFloat.
Import ListNotations.

Local Open Scope string_scope.
Local Open Scope list_scope.
Local Open Scope nat_scope.

(** ** JavaScript string primitives *)

Module JsString.

(** [c.toLowerCase()] on one code unit: A-Z, and the Latin-1 capitals
    U+00C0-U+00DE other than the multiplication sign U+00D7. *)
Definition lowerChar (c : ascii) : ascii :=
  let n := nat_of_ascii c in
  if ((65 <=? n) && (n <=? 90))
     || ((192 <=? n) && (n <=? 222) && negb (n =? 215))
  then ascii_of_nat (n + 32) else c.

(** [s.toLowerCase()] *)
Fixpoint toLowerCase (s : string) : string :=
  match s with
  | EmptyString => EmptyString
  | String c s' => String (lowerChar c) (toLowerCase s')
  end.

(** [s.startsWith(t)] *)
Fixpoint startsWith (s t : string) : bool :=
  match t, s with
  | EmptyString, _ => true
  | String _ _, EmptyString => false
  | String b t', String a s' => Ascii.eqb a b && startsWith s' t'
  end.

(** [s.includes(t)]: [t] occurs in [s] at some position. *)
Fixpoint includes (s t : string) : bool :=
  startsWith s t
  || match s with
     | EmptyString => false
     | String _ s' => includes s' t
     end.

(** [s.split(' ')]: the pieces between single spaces; never empty, and the
    empty string gives one empty piece. *)
Fixpoint splitSpace (s : string) : list string :=
  match s with
  | EmptyString => [EmptyString]
  | String c s' =>
      if Ascii.eqb c " "%char then EmptyString :: splitSpace s'
      else match splitSpace s' with
           | w :: ws => String c w :: ws
           | [] => [String c EmptyString]
           end
  end.

(** [xs.join(sep)] *)
Fixpoint join (sep : string) (xs : list string) : string :=
  match xs with
  | [] => EmptyString
  | [x] => x
  | x :: rest => String.append x (String.append sep (join sep rest))
  end.

(** JavaScript truthiness of a string: non-empty. *)
Definition truthy (s : string) : bool :=
  match s with EmptyString => false | _ => true end.

(** [a || b] on possibly missing strings: the first one present and
    non-empty. *)
Definition orElse (a : option string) (b : string) : string :=
  match a with
  | Some s => if truthy s then s else b
  | None => b
  end.

(** A text of [n] copies of the code unit [c]. *)
Fixpoint replicate (n : nat) (c : ascii) : string :=
  match n with
  | O => EmptyString
  | S k => String c (replicate k c)
  end.

End JsString.

(** ** Regular expressions of the handler's pattern table

    The eleven [unrelatedPatterns] are alternations of literal words, two of
    them with a [\s*] inside, all with the [i] flag. *)

Module Regex.

Inductive regex : Type :=
| Eps                       (* the empty word *)
| Chr (c : ascii)           (* one literal character *)
| Space                     (* the class \s *)
| Cat (r1 r2 : regex)
| Alt (r1 r2 : regex)
| Star (r : regex)
| Never.                    (* matches nothing; arises in derivatives *)

(** The code units below 256 that [\s] accepts: tab, line feed, vertical
    tab, form feed, carriage return, space and the no-break space. *)
Definition isSpace (c : ascii) : bool :=
  let n := nat_of_ascii c in
  ((9 <=? n) && (n <=? 13)) || (n =? 32) || (n =? 160).

Fixpoint nullable (r : regex) : bool :=
  match r with
  | Eps => true
  | Chr _ => false
  | Space => false
  | Cat r1 r2 => nullable r1 && nullable r2
  | Alt r1 r2 => nullable r1 || nullable r2
  | Star _ => true
  | Never => false
  end.

(** The derivative of [r] by the character [a], under the [i] flag (letters
    compare by their lower-case form). *)
Fixpoint deriv (a : ascii) (r : regex) : regex :=
  match r with
  | Eps => Never
  | Chr c =>
      if Ascii.eqb (JsString.lowerChar a) (JsString.lowerChar c)
      then Eps else Never
  | Space => if isSpace a then Eps else Never
  | Cat r1 r2 =>
      if nullable r1
      then Alt (Cat (deriv a r1) r2) (deriv a r2)
      else Cat (deriv a r1) r2
  | Alt r1 r2 => Alt (deriv a r1) (deriv a r2)
  | Star r1 => Cat (deriv a r1) (Star r1)
  | Never => Never
  end.

(** Some prefix of [s] matches [r]. *)
Fixpoint matchesPrefix (r : regex) (s : string) : bool :=
  nullable r
  || match s with
     | EmptyString => false
     | String a s' => matchesPrefix (deriv a r) s'
     end.

(** [pattern.test(s)] for a pattern without anchors: a match starts at some
    position of [s]. *)
Fixpoint test (r : regex) (s : string) : bool :=
  matchesPrefix r s
  || match s with
     | EmptyString => false
     | String _ s' => test r s'
     end.

(** The literal word [w] as a pattern. *)
Fixpoint lit (w : string) : regex :=
  match w with
  | EmptyString => Eps
  | String c w' => Cat (Chr c) (lit w')
  end.

(** [w1|w2|...] *)
Fixpoint alts (rs : list regex) : regex :=
  match rs with
  | [] => Never
  | [r] => r
  | r :: rest => Alt r (alts rest)
  end.

End Regex.

(** ** The chunk store and the embedding service, as the handler sees them *)

(** [interface MongoDocument] of route.ts. [loc.lines] and [pdf] are read
    only by the answer templates and are left out; [_id] is opaque. *)
Module MongoDocument.
Record t : Type := mk {
  text : option string;
  pageContent : option string;
  content : option string;
  source : option string;
  fileName : option string;
  pageNumber : option nat;          (* loc?.pageNumber *)
  fileId : option string;
  score : option float;
  embedding : option (list float)
}.
End MongoDocument.

(** Query documents, as far as the repository writes them. *)
#[warnings="-register-all"]
Inductive Filter : Type :=
| FEmpty                                      (* {} *)
| FFileId (id : string)                       (* { fileId: id } *)
| FTextRegex (pattern options : string)       (* { text: { $regex, $options } } *)
| FTextNotRegex (pattern options : string)    (* { text: { $not: { $regex, $options } } } *)
| FWhere (js : string)                        (* { $where: js } *)
| FAnd (fs : list Filter)                     (* { $and: fs } *)
| FOr (fs : list Filter).                     (* { $or: fs } *)

(** Aggregation pipeline stages. The [filter] of a [$vectorSearch] is
    absent or [{ fileId: { $eq: id } }], written [Some id]. *)
Inductive PipelineStage : Type :=
| VectorSearch (index path : string) (queryVector : list float)
               (numCandidates limit : nat) (filter : option string)
| Project (fields : list string)
| Match (f : Filter)
| Sample (size : nat).

(** One call that leaves the process. *)
Inductive Event : Type :=
| Connect                                     (* client.connect() *)
| Close                                       (* client.close() *)
| CountDocuments (f : Filter)                 (* collection.countDocuments(f) *)
| EmbedQuery (q : string)                     (* embeddings.embedQuery(q) *)
| Aggregate (pipeline : list PipelineStage)   (* collection.aggregate(p).toArray() *)
| FindOne (f : Filter)                        (* collection.findOne(f) *)
| Find (f : Filter) (limit : nat).            (* collection.find(f).limit(n).toArray() *)

(** A call returns or throws. *)
Inductive result (A : Type) : Type :=
| Ok (a : A)
| Throw (e : string).
Arguments Ok {A} a.
Arguments Throw {A} e.

(** What the outside world answers to each call during one request. *)
Record Backend : Type := {
  connect : result unit;
  close : result unit;
  countDocuments : Filter -> result nat;
  embedQuery : string -> result (list float);
  aggregate : list PipelineStage -> result (list MongoDocument.t);
  findOne : Filter -> result (option MongoDocument.t);
  find : Filter -> nat -> result (list MongoDocument.t)
}.

(** ** Computations: a value or an exception, with the calls made so far *)

Definition M (A : Type) : Type := (result A * list Event)%type.

Definition ret {A : Type} (a : A) : M A := (Ok a, []).

Definition bind {A B : Type} (m : M A) (k : A -> M B) : M B :=
  match m with
  | (Ok a, t) => (fst (k a), t ++ snd (k a))
  | (Throw e, t) => (Throw e, t)
  end.

(** [try { m } catch (e) { h e }] *)
Definition tryCatch {A : Type} (m : M A) (h : string -> M A) : M A :=
  match m with
  | (Ok a, t) => (Ok a, t)
  | (Throw e, t) => (fst (h e), t ++ snd (h e))
  end.

(** The call [e], answered by [r]. *)
Definition perform {A : Type} (e : Event) (r : result A) : M A := (r, [e]).

Declare Scope route_scope.
Delimit Scope route_scope with route.
Notation "x <- m ;; k" := (bind m (fun x => k))
  (at level 61, m at next level, right associativity) : route_scope.
Notation "m ;;; k" := (bind m (fun _ => k))
  (at level 61, right associativity) : route_scope.

(** ** Array helpers *)

(** [xs[xs.length - 1]] *)
Fixpoint lastElement {A : Type} (xs : list A) : option A :=
  match xs with
  | [] => None
  | [x] => Some x
  | _ :: rest => lastElement rest
  end.

Definition isEmpty {A : Type} (xs : list A) : bool :=
  match xs with [] => true | _ => false end.

(** [Array.prototype.sort(cmp)]: ECMAScript requires a stable sort, and the
    comparators of the handler are consistent (each is a difference of
    integer keys), so the outcome is the stable ordering: [x] is placed
    after every element it does not strictly precede. *)
Fixpoint insertSorted {A : Type} (cmp : A -> A -> Z) (x : A) (l : list A)
  : list A :=
  match l with
  | [] => [x]
  | y :: rest =>
      if (cmp x y <? 0)%Z then x :: y :: rest
      else y :: insertSorted cmp x rest
  end.

Definition sortBy {A : Type} (cmp : A -> A -> Z) (l : list A) : list A :=
  fold_left (fun acc x => insertSorted cmp x acc) l [].

(** ** src/app/api/chat/route.ts *)

Module Route.
Import JsString.

Module ChatMessage.
Record t : Type := mk {
  role : string;                    (* 'user' | 'assistant' *)
  content : option string
}.
End ChatMessage.

(** The parsed request body: [body.messages] may be missing. *)
Record Body : Type := {
  messages : option (list ChatMessage.t);
  pdfId : string
}.

(** [body.messages || []] *)
Definition messagesOf (body : Body) : list ChatMessage.t :=
  match messages body with Some ms => ms | None => [] end.

(** [lastMessage.content || ''] *)
Definition questionOf (lastMessage : ChatMessage.t) : string :=
  orElse (ChatMessage.content lastMessage) "".

(** One entry of [sources] in the answer. *)
Module Source.
Record t : Type := mk {
  pageContent : string;
  source : option string;           (* metadata.source *)
  fileName : option string;         (* metadata.fileName *)
  pageNumber : option nat           (* metadata.pageNumber *)
}.
End Source.

(** [NextResponse.json(...)]: an error object with its status, or an answer
    with its sources (status 200). *)
Inductive Response : Type :=
| Error (status : nat) (error : string)
| Answer (answer : string) (sources : list Source.t).

Definition textOf (doc : MongoDocument.t) : string :=
  orElse (MongoDocument.text doc) "".

(** *** Stage 0: vector search (lines 86-181) *)

(** The literal [0.6] is the double 0x1.3333333333333p-1. *)
Definition scoreThreshold : float := 0x1.3333333333333p-1%float.

(** [doc.score ?? 0] *)
Definition scoreOf (doc : MongoDocument.t) : float :=
  match MongoDocument.score doc with
  | Some x => x
  | None => 0%float
  end.

Definition vectorSearchPipeline (pdfId : string) (questionEmbedding : list float)
  : list PipelineStage :=
  [ VectorSearch "vector_index" "embedding" questionEmbedding 20 5 (Some pdfId);
    Project ["text"; "source"; "fileName"; "loc"; "fileId"; "score"] ].

Definition altPipeline (indexName : string) (questionEmbedding : list float)
  : list PipelineStage :=
  [ VectorSearch indexName "embedding" questionEmbedding 10 3 None;
    Project ["text"; "score"] ].

Definition alternativeIndexes : list string :=
  ["default"; "vector_search_index"; "embeddings_index"].

(** Lines 115-128: what a non-empty answer of the primary index becomes. *)
Definition applyThreshold (docs : list MongoDocument.t) : list MongoDocument.t :=
  let relevantDocs :=
    filter (fun doc => PrimFloat.leb scoreThreshold (scoreOf doc)) docs in
  if (List.length relevantDocs =? 0) && (0 <? List.length docs)
     && match docs with
        | doc0 :: _ => PrimFloat.ltb (scoreOf doc0) scoreThreshold
        | [] => false
        end
  then []
  else relevantDocs.

(** *** The relevance gate (lines 182-261) *)

Definition isGeneralPdfQuestion (questionLower : string) : bool :=
  includes questionLower "pdf" ||
  includes questionLower "document" ||
  includes questionLower "file" ||
  includes questionLower "details about this" ||
  includes questionLower "summary" ||
  includes questionLower "overview" ||
  includes questionLower "tell me about" ||
  includes questionLower "what is this" ||
  includes questionLower "contents" ||
  includes questionLower "topics" ||
  includes questionLower "chapters" ||
  includes questionLower "sections".

Definition commonTerms : list string :=
  ["photon"; "matter"; "interaction"; "physics"; "energy"; "quantum";
   "electron"; "atom"; "radiation"; "medical"; "helium"; "approximation";
   "model"].

(** The terms of [commonTerms] present in the sample, in insertion order. *)
Definition documentTermsOf (sampleContent : string) : list string :=
  filter (fun term => includes sampleContent term) commonTerms.

Definition questionTermsOf (questionLower : string) : list string :=
  filter (fun word => 3 <? String.length word) (splitSpace questionLower).

Definition hasRelevantTerms (questionTerms documentTerms : list string) : bool :=
  existsb (fun term =>
    existsb (fun docTerm => includes term docTerm || includes docTerm term)
            documentTerms)
    questionTerms.

Definition unrelatedPatterns : list Regex.regex :=
  let ws := Regex.Star Regex.Space in
  let word := Regex.lit in
  let seq3 a b c := Regex.Cat a (Regex.Cat b c) in
  [ Regex.alts [seq3 (word "window") ws (word "11");
                seq3 (word "windows") ws (word "11")];
    seq3 (word "microsoft") ws (word "office");
    Regex.alts [word "adobe"; seq3 (word "pdf") ws (word "reader")];
    Regex.alts [word "computer"; word "software"; word "app"];
    Regex.alts [word "weather"; word "climate"];
    Regex.alts [word "food"; word "recipe"; word "cooking"];
    Regex.alts [word "sports"; word "football"; word "basketball"];
    Regex.alts [word "movie"; word "film"; word "entertainment"];
    Regex.alts [word "music"; word "song"; word "artist"];
    Regex.alts [word "travel"; word "vacation"; word "hotel"];
    Regex.alts [word "shopping"; word "purchase"; word "buy"] ].

Definition isObviouslyUnrelated (questionLower : string) : bool :=
  existsb (fun pattern => Regex.test pattern questionLower) unrelatedPatterns.

(** Line 249: the gate's verdict on a question that is not a general
    question about the PDF, given the lower-cased sample. *)
Definition gateRejects (questionLower sampleContent : string) : bool :=
  let documentTerms := documentTermsOf sampleContent in
  let questionTerms := questionTermsOf questionLower in
  isObviouslyUnrelated questionLower
  || (negb (hasRelevantTerms questionTerms documentTerms)
      && (0 <? List.length questionTerms)).

(** *** Stages 1-3: the fallback strategies (lines 264-453) *)

Definition isListingRequest (questionLower : string) : bool :=
  includes questionLower "list" &&
  (includes questionLower "topic" || includes questionLower "chapter"
   || includes questionLower "subject") &&
  negb (includes questionLower "explain") &&
  negb (includes questionLower "about") &&
  (List.length (splitSpace questionLower) <? 8).

Definition structureQuery (pdfId : string) : Filter :=
  FAnd [ FFileId pdfId;
         FOr [ FTextRegex "contents|index|chapter|section|part|unit" "i";
               FTextRegex "^\d+\." "m";
               FTextRegex "table of contents|index|chapter \d+" "i" ] ].

Definition headingQuery (pdfId : string) : Filter :=
  FAnd [ FFileId pdfId;
         FWhere "this.text.length < 200 && this.text.length > 10" ].

Definition isDetailRequest (questionLower : string) : bool :=
  includes questionLower "detail" &&
  (includes questionLower "pdf" || includes questionLower "document"
   || includes questionLower "book").

Definition overviewQuery (pdfId : string) : Filter :=
  FAnd [ FFileId pdfId;
         FOr [ FTextRegex
                 "introduction|abstract|overview|preface|summary|purpose|scope" "i";
               FTextRegex "this book|this text|this work|covers|discusses" "i";
               FTextRegex "chapter.*cover|section.*discuss|topics.*include" "i" ] ].

Definition introScore (doc : MongoDocument.t) : Z :=
  let t := toLowerCase (textOf doc) in
  ((if includes t "introduction" then 3 else 0) +
   (if includes t "overview" then 2 else 0) +
   (if includes t "this book" then 2 else 0) +
   (if includes t "covers" then 1 else 0))%Z.

Definition overviewCompare (a b : MongoDocument.t) : Z :=
  (introScore b - introScore a)%Z.

Definition stopWords : list string :=
  ["can"; "you"; "tell"; "me"; "about"; "what"; "is"; "the"; "a"; "an";
   "and"; "or"; "but"; "for"; "with"; "this"; "that"; "explain"; "topic"].

Definition meaningfulKeywordsOf (questionLower : string) : list string :=
  filter (fun word =>
            (3 <? String.length word)
            && negb (existsb (String.eqb word) stopWords))
         (splitSpace questionLower).

Definition keywordQuery (pdfId : string) (meaningfulKeywords : list string)
  : Filter :=
  FAnd [ FFileId pdfId;
         FOr (map (fun keyword => FTextRegex keyword "i") meaningfulKeywords) ].

Definition isOverviewPage (doc : MongoDocument.t) : bool :=
  let text := textOf doc in
  includes text "Oxford Master Series" ||
  includes text "course books" ||
  includes text "tutorial material" ||
  (String.length text <? 300).

(** [meaningfulKeywords.filter(keyword => text.includes(keyword)).length] on
    the lower-cased text. *)
Definition matchCount (meaningfulKeywords : list string) (doc : MongoDocument.t)
  : nat :=
  let t := toLowerCase (textOf doc) in
  List.length (filter (fun keyword => includes t keyword) meaningfulKeywords).

(** 1 when the lower-cased text has 500 to 2000 characters, else 0. *)
Definition lengthScore (doc : MongoDocument.t) : Z :=
  let n := String.length (toLowerCase (textOf doc)) in
  if (500 <=? n) && (n <=? 2000) then 1%Z else 0%Z.

Definition keywordCompare (meaningfulKeywords : list string)
  (a b : MongoDocument.t) : Z :=
  let aMatches := Z.of_nat (matchCount meaningfulKeywords a) in
  let bMatches := Z.of_nat (matchCount meaningfulKeywords b) in
  if negb (bMatches =? aMatches)%Z then (bMatches - aMatches)%Z
  else (lengthScore b - lengthScore a)%Z.

(** Lines 375-413: the candidates of the keyword query, filtered and ranked. *)
Definition rankKeywordDocs (meaningfulKeywords : list string)
  (allDocs : list MongoDocument.t) : list MongoDocument.t :=
  let contentDocs := filter (fun doc => negb (isOverviewPage doc)) allDocs in
  let docsToSort := if 0 <? List.length contentDocs then contentDocs else allDocs in
  firstn 8 (sortBy (keywordCompare meaningfulKeywords) docsToSort).

Definition specificQuery (pdfId : string) (meaningfulKeywords : list string)
  : Filter :=
  FAnd [ FFileId pdfId;
         FOr (map (fun keyword => FTextRegex keyword "i") meaningfulKeywords);
         FOr [ FTextRegex
                 "chapter|section|equation|formula|energy|electron|quantum" "i";
               FWhere "this.text.length > 500" ];
         FTextNotRegex "Oxford Master Series|course books|tutorial material" "i" ].

(** Line 418: the best-ranked chunk is still a series page. *)
Definition stillOverview (docs : list MongoDocument.t) : bool :=
  match docs with
  | doc0 :: _ =>
      match MongoDocument.text doc0 with
      | Some t => truthy t && includes t "Oxford Master Series"
      | None => false
      end
  | [] => false
  end.

Definition samplePipeline (pdfId : string) : list PipelineStage :=
  [ Match (FFileId pdfId); Sample 8 ].

(** *** The fixed answers *)

Definition noDocumentsAnswer : string :=
  "I don't have any documents to search through. Please make sure your PDF was uploaded successfully.".

Definition unrelatedAnswer : string :=
  "I can only answer questions related to the content of your uploaded PDF. Your question doesn't seem to be related to the topics covered in this document. Please ask me something about the content in your PDF.".

Definition noContentAnswer : string :=
  "I found the PDF collection but there's no readable content. Please try uploading the PDF again.".

Definition littleContentAnswer : string :=
  "I found the PDF collection but there's very little readable content. Please try uploading the PDF again.".

Definition newline : string := String (ascii_of_nat 10) EmptyString.

(** [doc.text || doc.pageContent || doc.content || ''] *)
Definition contentOf (doc : MongoDocument.t) : string :=
  orElse (MongoDocument.text doc)
    (orElse (MongoDocument.pageContent doc)
       (orElse (MongoDocument.content doc) "")).

Definition toSource (doc : MongoDocument.t) : Source.t :=
  Source.mk (orElse (MongoDocument.text doc)
               (orElse (MongoDocument.pageContent doc) ""))
            (MongoDocument.source doc)
            (MongoDocument.fileName doc)
            (MongoDocument.pageNumber doc).

(** *** The handler *)

Section Handler.

(** The world the request runs against. *)
Variable backend : Backend.

(** Lines 507-590: the answer template chosen by the shape of the question,
    filled from the question, the chunks, the document count and the
    context. It is text layout only and stays a parameter. *)
Variable composeTemplate :
  string -> list MongoDocument.t -> nat -> string -> string.

Local Open Scope route_scope.

Definition clientConnect : M unit := perform Connect (connect backend).
Definition clientClose : M unit := perform Close (close backend).
Definition collectionCountDocuments (f : Filter) : M nat :=
  perform (CountDocuments f) (countDocuments backend f).
Definition embeddingsEmbedQuery (q : string) : M (list float) :=
  perform (EmbedQuery q) (embedQuery backend q).
Definition collectionAggregate (p : list PipelineStage)
  : M (list MongoDocument.t) :=
  perform (Aggregate p) (aggregate backend p).
Definition collectionFindOne (f : Filter) : M (option MongoDocument.t) :=
  perform (FindOne f) (findOne backend f).
Definition collectionFind (f : Filter) (limit : nat)
  : M (list MongoDocument.t) :=
  perform (Find f limit) (find backend f limit).

(** Lines 144-176: the loop over the alternative index names. Each round
    has its own [try]/[catch]; the first non-empty answer ends the loop. *)
Fixpoint tryAlternativeIndexes (indexNames : list string)
  (questionEmbedding : list float) : M (list MongoDocument.t) :=
  match indexNames with
  | [] => ret []
  | indexName :: rest =>
      found <- tryCatch
                 (altDocs <- collectionAggregate
                               (altPipeline indexName questionEmbedding) ;;
                  ret (if 0 <? List.length altDocs then Some altDocs else None))
                 (fun _ => ret None) ;;
      match found with
      | Some altDocs => ret altDocs
      | None => tryAlternativeIndexes rest questionEmbedding
      end
  end.

(** Lines 86-181. An exception of the primary query or of [findOne] is
    caught at line 178, where [docs] is still empty. *)
Definition vectorStage (pdfId : string) (questionEmbedding : list float)
  : M (list MongoDocument.t) :=
  tryCatch
    (docs <- collectionAggregate (vectorSearchPipeline pdfId questionEmbedding) ;;
     if 0 <? List.length docs then ret (applyThreshold docs)
     else
       collectionFindOne FEmpty ;;;
       tryAlternativeIndexes alternativeIndexes questionEmbedding)
    (fun _ => ret []).

(** Lines 186-258, entered when Stage 0 left [docs] empty: [true] when the
    question is turned away. *)
Definition relevanceGate (question pdfId : string) : M bool :=
  let questionLower := toLowerCase question in
  if isGeneralPdfQuestion questionLower then ret false
  else
    sampleDocs <- collectionFind (FFileId pdfId) 3 ;;
    let sampleContent := toLowerCase (join " " (map textOf sampleDocs)) in
    ret (gateRejects questionLower sampleContent).

(** Stage 1, lines 278-308. *)
Definition structureSearch (pdfId : string) : M (list MongoDocument.t) :=
  docs <- collectionFind (structureQuery pdfId) 10 ;;
  if List.length docs =? 0 then collectionFind (headingQuery pdfId) 10
  else ret docs.

(** Stage 2, lines 311-349. *)
Definition overviewSearch (pdfId : string) : M (list MongoDocument.t) :=
  docs <- collectionFind (overviewQuery pdfId) 10 ;;
  if 0 <? List.length docs then ret (firstn 8 (sortBy overviewCompare docs))
  else ret docs.

(** Stage 3, lines 351-450. *)
Definition keywordSearch (questionLower pdfId : string)
  : M (list MongoDocument.t) :=
  let meaningfulKeywords := meaningfulKeywordsOf questionLower in
  if 0 <? List.length meaningfulKeywords then
    allDocs <- collectionFind (keywordQuery pdfId meaningfulKeywords) 20 ;;
    if 0 <? List.length allDocs then
      let docs := rankKeywordDocs meaningfulKeywords allDocs in
      if (0 <? List.length docs) && stillOverview docs then
        specificDocs <- collectionFind
                          (specificQuery pdfId meaningfulKeywords) 8 ;;
        if 0 <? List.length specificDocs then ret specificDocs else ret docs
      else ret docs
    else ret []
  else ret [].

(** Lines 264-453, entered with [docs] empty. *)
Definition fallbackStrategies (question pdfId : string)
  : M (list MongoDocument.t) :=
  let questionLower := toLowerCase question in
  if isListingRequest questionLower then structureSearch pdfId
  else if isDetailRequest questionLower then overviewSearch pdfId
  else keywordSearch questionLower pdfId.

(** Stage 4, lines 456-466. *)
Definition diversitySample (pdfId : string) : M (list MongoDocument.t) :=
  collectionAggregate (samplePipeline pdfId).

(** How the cascade ends: the gate turned the question away, or some stage
    left these chunks in [docs]. *)
Inductive Retrieval : Type :=
| Rejected
| Retrieved (docs : list MongoDocument.t).

(** Lines 86-466: Stage 0, then the gate and each later stage under its
    [if (docs.length === 0)]. *)
Definition retrieve (question pdfId : string) (questionEmbedding : list float)
  : M Retrieval :=
  docs <- vectorStage pdfId questionEmbedding ;;
  rejected <- (if List.length docs =? 0 then relevanceGate question pdfId
               else ret false) ;;
  if (rejected : bool) then ret Rejected
  else
    docs <- (if List.length docs =? 0 then fallbackStrategies question pdfId
             else ret docs) ;;
    docs <- (if List.length docs =? 0 then diversitySample pdfId
             else ret docs) ;;
    ret (Retrieved docs).

(** Lines 478-604: the context, the closing of the client and the answer. *)
Definition compose (question : string) (docCount : nat)
  (docs : list MongoDocument.t) : M Response :=
  let context := join (String.append newline newline) (map contentOf docs) in
  clientClose ;;;
  if String.length context =? 0 then ret (Answer noContentAnswer [])
  else
    let response :=
      if String.length context <? 50 then littleContentAnswer
      else composeTemplate question docs docCount context in
    ret (Answer response (map toSource docs)).

(** Lines 50-604: the body of the outer [try]. *)
Definition answerQuestion (question pdfId : string) : M Response :=
  clientConnect ;;;
  docCount <- collectionCountDocuments (FFileId pdfId) ;;
  if docCount =? 0 then
    clientClose ;;;
    ret (Answer noDocumentsAnswer [])
  else
    questionEmbedding <- embeddingsEmbedQuery question ;;
    outcome <- retrieve question pdfId questionEmbedding ;;
    match outcome with
    | Rejected =>
        clientClose ;;;
        ret (Answer unrelatedAnswer [])
    | Retrieved docs => compose question docCount docs
    end.

(** [export async function POST]: the response and the calls made. *)
Definition POST (body : Body) : Response * list Event :=
  match lastElement (messagesOf body) with
  | None => (Error 400 "No messages provided", [])
  | Some lastMessage =>
      let question := questionOf lastMessage in
      if negb (truthy question) then (Error 400 "Question is required", [])
      else
        match answerQuestion question (pdfId body) with
        | (Ok response, calls) => (response, calls)
        | (Throw _, calls) => (Error 500 "Internal Server Error", calls)
        end
  end.

End Handler.

End Route.

(** ** src/lib/vectorStore.ts *)

Module VectorStore.
Import JsString.

(** The metadata the upload route and the PDF loader attach to a chunk, as
    far as the chat endpoint reads it back. *)
Module Metadata.
Record t : Type := mk {
  source : option string;
  fileName : option string;
  pageNumber : option nat;
  fileId : option string
}.
End Metadata.

(** LangChain's [Document]. *)
Module Document.
Record t : Type := mk {
  pageContent : string;
  metadata : Metadata.t
}.
End Document.

(** The collection: its documents in insertion order. The calls on it are
    taken to succeed; the embedding service may fail. *)
Definition Collection : Type := list MongoDocument.t.

(** A document matches [{ fileId: id }]. *)
Definition fileIdIs (id : string) (doc : MongoDocument.t) : bool :=
  match MongoDocument.fileId doc with
  | Some x => String.eqb x id
  | None => false
  end.

(** [collection.countDocuments({ fileId: id })] *)
Definition countDocuments (id : string) (c : Collection) : nat :=
  List.length (filter (fileIdIs id) c).

(** [collection.deleteMany({ fileId: id })] *)
Definition deleteMany (id : string) (c : Collection) : Collection :=
  filter (fun doc => negb (fileIdIs id doc)) c.

(** [collection.insertMany(docs)] *)
Definition insertMany (docs : list MongoDocument.t) (c : Collection)
  : Collection :=
  c ++ docs.

Section Ingestion.

(** The embedding service on one text. *)
Variable embedText : string -> result (list float).

(** [client.batchEmbedContents(...)], the request for one batch of texts:
    one vector per text, or the rejection of the whole request when the
    service fails on one of them. *)
Fixpoint batchEmbedContents (batch : list string)
  : result (list (list float)) :=
  match batch with
  | [] => Ok []
  | t :: rest =>
      match embedText t with
      | Throw e => Throw e
      | Ok v =>
          match batchEmbedContents rest with
          | Throw e => Throw e
          | Ok vs => Ok (v :: vs)
          end
      end
  end.

(** [chunkArray(arr, chunkSize)]: consecutive pieces of [chunkSize]
    elements, the last one possibly shorter; [fuel] bounds the number of
    pieces. *)
Fixpoint chunkArrayWithin {A : Type} (fuel chunkSize : nat) (arr : list A)
  : list (list A) :=
  match fuel, arr with
  | S fuel', _ :: _ =>
      firstn chunkSize arr :: chunkArrayWithin fuel' chunkSize (skipn chunkSize arr)
  | _, _ => []
  end.

Definition chunkArray {A : Type} (chunkSize : nat) (arr : list A)
  : list (list A) :=
  chunkArrayWithin (List.length arr) chunkSize arr.

(** [maxBatchSize] of [GoogleGenerativeAIEmbeddings]. *)
Definition maxBatchSize : nat := 100.

(** What a settled batch request contributes: its vectors when it was
    fulfilled, an empty vector for each of its texts when it was rejected
    ([Array(batch.length).fill([])]). *)
Definition settledBatch (batch : list string) : list (list float) :=
  match batchEmbedContents batch with
  | Ok vectors => vectors
  | Throw _ => repeat [] (List.length batch)
  end.

(** [embeddings.embedDocuments(texts)] of [GoogleGenerativeAIEmbeddings],
    the client that line 24 constructs: the texts go out in batches of at
    most 100, the requests are awaited with [Promise.allSettled], and the
    contributions of the batches are concatenated. The promise is fulfilled
    also when requests were rejected. *)
Definition embedDocuments (texts : list string) : result (list (list float)) :=
  Ok (flat_map settledBatch (chunkArray maxBatchSize texts)).

(** The stored form of a chunk: [{ text: pageContent, embedding,
    ...metadata }]. *)
Definition storedChunk (vector : list float) (doc : Document.t)
  : MongoDocument.t :=
  let m := Document.metadata doc in
  MongoDocument.mk (Some (Document.pageContent doc)) None None
    (Metadata.source m) (Metadata.fileName m) (Metadata.pageNumber m)
    (Metadata.fileId m) None (Some vector).

(** [MongoDBAtlasVectorSearch.fromDocuments(docs, embeddings, ...)]: embed
    every text, then insert the stored forms in one [insertMany]; a rejected
    [embedDocuments] is passed on. *)
Definition fromDocuments (docs : list Document.t) (c : Collection)
  : result unit * Collection :=
  match embedDocuments (map Document.pageContent docs) with
  | Throw e => (Throw e, c)
  | Ok vectors =>
      (Ok tt,
       insertMany (map (fun vd => storedChunk (fst vd) (snd vd))
                       (combine vectors docs)) c)
  end.

(** [embedAndStoreDocs(docs)], lines 27-50, on the collection [c]: the
    outcome and the collection afterwards. The [catch] rethrows. *)
Definition embedAndStoreDocs (docs : list Document.t) (c : Collection)
  : result unit * Collection :=
  let fileId :=
    match docs with
    | firstDoc :: _ => Metadata.fileId (Document.metadata firstDoc)
    | [] => None
    end in
  let c1 :=
    match fileId with
    | Some id =>
        if truthy id then
          let existingCount := countDocuments id c in
          if 0 <? existingCount then deleteMany id c else c
        else c
    | None => c
    end in
  fromDocuments docs c1.

End Ingestion.

(** The chunks a collection holds for one file. *)
Definition chunksOf (id : string) (c : Collection) : list MongoDocument.t :=
  filter (fileIdIs id) c.

End VectorStore.

(** ** A synthetic chunk store

    A test double of the store behind the handler: a collection held in
    memory, with the vector indexes that exist on it. The similarity score,
    the regular-expression engine, the [$where] evaluator, the embedding
    service and the sampler are supplied with it. *)

Module Synthetic.
Import JsString.

Record Store : Type := {
  collection : list MongoDocument.t;
  searchIndexes : list string;
  vectorSearchScore : list float -> MongoDocument.t -> float;
  regexTest : string -> string -> string -> bool;   (* pattern, options, text *)
  whereTest : string -> MongoDocument.t -> bool;
  embed : string -> result (list float);
  sample : nat -> list MongoDocument.t -> list MongoDocument.t
}.

Section Semantics.

Variable st : Store.

Fixpoint matches (f : Filter) (doc : MongoDocument.t) : bool :=
  match f with
  | FEmpty => true
  | FFileId id => VectorStore.fileIdIs id doc
  | FTextRegex pattern options =>
      match MongoDocument.text doc with
      | Some t => regexTest st pattern options t
      | None => false
      end
  | FTextNotRegex pattern options =>
      match MongoDocument.text doc with
      | Some t => negb (regexTest st pattern options t)
      | None => true
      end
  | FWhere js => whereTest st js doc
  | FAnd fs =>
      (fix all (l : list Filter) : bool :=
         match l with
         | [] => true
         | g :: rest => matches g doc && all rest
         end) fs
  | FOr fs =>
      (fix some (l : list Filter) : bool :=
         match l with
         | [] => false
         | g :: rest => matches g doc || some rest
         end) fs
  end.

(** [$project]: the listed fields survive, with the search score under
    [score] when it is asked for. *)
Definition project (fields : list string) (searchScore : option float)
  (doc : MongoDocument.t) : MongoDocument.t :=
  let keep {A : Type} (name : string) (v : option A) : option A :=
    if existsb (String.eqb name) fields then v else None in
  MongoDocument.mk
    (keep "text" (MongoDocument.text doc))
    (keep "pageContent" (MongoDocument.pageContent doc))
    (keep "content" (MongoDocument.content doc))
    (keep "source" (MongoDocument.source doc))
    (keep "fileName" (MongoDocument.fileName doc))
    (keep "loc" (MongoDocument.pageNumber doc))
    (keep "fileId" (MongoDocument.fileId doc))
    (keep "score" searchScore)
    (keep "embedding" (MongoDocument.embedding doc)).

(** Higher scores first. *)
Definition byScoreDescending (queryVector : list float)
  (a b : MongoDocument.t) : Z :=
  let sa := vectorSearchScore st queryVector a in
  let sb := vectorSearchScore st queryVector b in
  if PrimFloat.ltb sa sb then 1%Z
  else if PrimFloat.ltb sb sa then (-1)%Z else 0%Z.

(** A [$vectorSearch] on an index that does not exist finds nothing; on an
    existing one it ranks the documents that pass its filter. *)
Definition runAggregate (pipeline : list PipelineStage)
  : result (list MongoDocument.t) :=
  match pipeline with
  | [VectorSearch index _ queryVector _ limit filterId; Project fields] =>
      if existsb (String.eqb index) (searchIndexes st) then
        let candidates :=
          filter (fun doc => match filterId with
                             | Some id => VectorStore.fileIdIs id doc
                             | None => true
                             end) (collection st) in
        let ranked :=
          firstn limit (sortBy (byScoreDescending queryVector) candidates) in
        Ok (map (fun doc =>
                   project fields
                     (Some (vectorSearchScore st queryVector doc)) doc)
                ranked)
      else Ok []
  | [Match f; Sample size] =>
      Ok (sample st size (filter (matches f) (collection st)))
  | _ => Throw "unsupported pipeline"
  end.

Definition backend : Backend := {|
  connect := Ok tt;
  close := Ok tt;
  countDocuments := fun f =>
    Ok (List.length (filter (matches f) (collection st)));
  embedQuery := embed st;
  aggregate := runAggregate;
  findOne := fun f => Ok (List.hd_error (filter (matches f) (collection st)));
  find := fun f limit => Ok (firstn limit (filter (matches f) (collection st)))
|}.

End Semantics.

(** A regular-expression engine good for the literal patterns (keywords)
    under the [i] option. *)
Definition literalRegex (pattern options text : string) : bool :=
  includes (toLowerCase text) (toLowerCase pattern).

(** A stored chunk with the given text and file. *)
Definition chunk (fileId text : string) : MongoDocument.t :=
  MongoDocument.mk (Some text) None None None (Some (String.append fileId ".pdf"))
    None (Some fileId) None (Some []).

(** [body] with the single user message [question]. *)
Definition ask (pdfId question : string) : Route.Body :=
  {| Route.messages := Some [Route.ChatMessage.mk "user" (Some question)];
     Route.pdfId := pdfId |}.

(** A template that quotes the context. *)
Definition quoteContext (question : string) (docs : list MongoDocument.t)
  (docCount : nat) (context : string) : string := context.

(** The doubles nearest to 0.3, 0.2 and 0.1. *)
Definition score03 : float := 0x1.3333333333333p-2%float.
Definition score02 : float := 0x1.999999999999ap-3%float.
Definition score01 : float := 0x1.999999999999ap-4%float.

(** A physics document under the index the handler asks for; no chunk
    scores above 0.3 for any question. *)
Definition physics : Store := {|
  collection := [ chunk "A" "The photon scatters off the electron.";
                  chunk "A" "Helium has two electrons." ];
  searchIndexes := ["vector_index"];
  vectorSearchScore := fun _ doc =>
    if includes (Route.textOf doc) "photon" then score03 else score02;
  regexTest := literalRegex;
  whereTest := fun _ _ => false;
  embed := fun _ => Ok [1%float];
  sample := fun size docs => firstn size docs
|}.

(** The same document when the embedding service is down. *)
Definition physicsNoEmbedding : Store := {|
  collection := collection physics;
  searchIndexes := searchIndexes physics;
  vectorSearchScore := vectorSearchScore physics;
  regexTest := literalRegex;
  whereTest := fun _ _ => false;
  embed := fun _ => Throw "quota exceeded";
  sample := fun size docs => firstn size docs
|}.

(** A deployment whose vector index is named "default" (the name is taken
    from MONGODB_INDEX_NAME at ingestion, while the chat endpoint asks for
    "vector_index" first). The collection holds one chunk of file A and two
    chunks of file B. *)
Definition shared : Store := {|
  collection := [ chunk "A" "Helium has two electrons.";
                  chunk "B" "Quarterly revenue grew.";
                  chunk "B" "Payroll records." ];
  searchIndexes := ["default"];
  vectorSearchScore := fun _ doc =>
    if includes (Route.textOf doc) "revenue" then score03
    else if includes (Route.textOf doc) "Payroll" then score02
    else score01;
  regexTest := literalRegex;
  whereTest := fun _ _ => false;
  embed := fun _ => Ok [1%float];
  sample := fun size docs => firstn size docs
|}.

(** A store under the index "default" whose two chunks score 0.3 and 0.2. *)
Definition lowScores : Store := {|
  collection := [ chunk "A" "The photon scatters off the electron.";
                  chunk "A" "Helium has two electrons." ];
  searchIndexes := ["default"];
  vectorSearchScore := vectorSearchScore physics;
  regexTest := literalRegex;
  whereTest := fun _ _ => false;
  embed := fun _ => Ok [1%float];
  sample := fun size docs => firstn size docs
|}.

(** [prefix] filled up with dots to [n] characters. *)
Definition padTo (n : nat) (prefix : string) : string :=
  String.append prefix (replicate (n - String.length prefix) "."%char).


(** A chunk as the upload route hands it to the ingestion. *)
Definition pdfChunk (fileId text : string) : VectorStore.Document.t :=
  VectorStore.Document.mk text
    (VectorStore.Metadata.mk (Some "upload.pdf") (Some "upload.pdf") (Some 1) (Some fileId)).

(** An embedding service that always answers. *)
Definition alwaysEmbeds (t : string) : result (list float) := Ok [1%float].

(** The physics document with a chunk that scores 0.9 (the double
    0x1.ccccccccccccdp-1) for the question. *)
Definition score09 : float := 0x1.ccccccccccccdp-1%float.

Definition indexed : Store := {|
  collection := collection physics;
  searchIndexes := ["vector_index"];
  vectorSearchScore := fun _ doc =>
    if includes (Route.textOf doc) "Helium" then score09 else score02;
  regexTest := literalRegex;
  whereTest := fun _ _ => false;
  embed := fun _ => Ok [1%float];
  sample := fun size docs => firstn size docs
|}.

End Synthetic.

From Stdlib Require Import Permutation DecimalString.

(** ** More JavaScript string primitives *)

Module JsText.
Import JsString.

(** [s.split(sep)] for a one-character separator. *)
Fixpoint splitOn (sep : ascii) (s : string) : list string :=
  match s with
  | EmptyString => [EmptyString]
  | String c s' =>
      if Ascii.eqb c sep then EmptyString :: splitOn sep s'
      else match splitOn sep s' with
           | w :: ws => String c w :: ws
           | [] => [String c EmptyString]
           end
  end.

(** [s.trimStart()]: without the leading white space and line terminators
    (the code units [\s] accepts). *)
Fixpoint trimStart (s : string) : string :=
  match s with
  | EmptyString => EmptyString
  | String c s' => if Regex.isSpace c then trimStart s' else s
  end.

(** [s.trimEnd()] *)
Fixpoint trimEnd (s : string) : string :=
  match s with
  | EmptyString => EmptyString
  | String c s' =>
      match trimEnd s' with
      | EmptyString => if Regex.isSpace c then EmptyString
                       else String c EmptyString
      | t => String c t
      end
  end.

(** [s.trim()] *)
Definition trim (s : string) : string := trimEnd (trimStart s).

(** [s.substring(n)]: [s] from position [n] on. *)
Fixpoint substringFrom (n : nat) (s : string) : string :=
  match n, s with
  | O, _ => s
  | S k, String _ s' => substringFrom k s'
  | S _, EmptyString => EmptyString
  end.

(** [s.substring(0, n)]: the first [n] code units of [s]. *)
Fixpoint substringTo (n : nat) (s : string) : string :=
  match n, s with
  | S k, String c s' => String c (substringTo k s')
  | _, _ => EmptyString
  end.


End JsText.

(** ** src/lib/langchain.ts *)

Module LangChain.
Import JsString JsText.

(** [HumanMessage] and [AIMessage] of @langchain/core, by their content. *)
Inductive BaseMessage : Type :=
| HumanMessage (content : string)
| AIMessage (content : string).

(** The body of the loop of lines 27-33 for one line. *)
Definition parseLine (line : string) : list BaseMessage :=
  if startsWith line "User: " then [HumanMessage (substringFrom 6 line)]
  else if startsWith line "Assistant: "
       then [AIMessage (substringFrom 11 line)]
       else [].

(** [parseChatHistory], lines 18-36. *)
Definition parseChatHistory (chatHistory : string) : list BaseMessage :=
  if negb (truthy chatHistory) || String.eqb (trim chatHistory) ""
  then []
  else flat_map parseLine (splitOn (ascii_of_nat 10) chatHistory).


End LangChain.

(** ** The upload route (POST /api/upload-pdf) *)

Module UploadRoute.
Import JsString VectorStore.

(** The uploaded [File], as far as the route reads it. *)
Module File.
Record t : Type := mk {
  name : string;
  type : string;
  size : N
}.
End File.

(** [formData.get('pdf')] and [formData.get('fileId')]. *)
Record FormData : Type := {
  pdf : option File.t;
  fileId : option string
}.

(** An error object with its status, or
    [{ success: true, fileId, fileName, chunks, message }]. *)
Inductive Response : Type :=
| Error (status : nat) (error : string)
| Processed (fileId fileName : string) (chunks : nat).

(** Lines 71-81: every chunk is tagged with the file id and the file name;
    the loader's [source] and [loc] stay. ([uploadedAt], [chunkIndex] and
    [documentId] are not read back by the chat endpoint and are left out.) *)
Definition docsWithMetadata (fileId : string) (file : File.t)
  (splitDocs : list Document.t) : list Document.t :=
  map (fun doc =>
         Document.mk (Document.pageContent doc)
           (Metadata.mk (Metadata.source (Document.metadata doc))
                        (Some (File.name file))
                        (Metadata.pageNumber (Document.metadata doc))
                        (Some fileId)))
      splitDocs.

(** 10 * 1024 * 1024 *)
Definition maxFileSize : N := (10 * 1024 * 1024)%N.

Section Handler.

(** Lines 33-43: the upload directory and the temporary copy of the file. *)
Variable saveUpload : File.t -> string -> result unit.

(** Lines 49-58: [PDFLoader.load] and [splitDocuments] on the saved copy. *)
Variable loadAndSplit : File.t -> string -> result (list Document.t).

(** The embedding service during the first attempt and during the retry. *)
Variables embedFirst embedRetry : string -> result (list float).

(** Lines 97-113: the ingestion, tried a second time when it throws. *)
Definition storeWithFallback (docs : list Document.t) (c : Collection)
  : result unit * Collection :=
  match embedAndStoreDocs embedFirst docs c with
  | (Ok u, c1) => (Ok u, c1)
  | (Throw _, c1) =>
      match embedAndStoreDocs embedRetry docs c1 with
      | (Ok u, c2) => (Ok u, c2)
      | (Throw e, c2) =>
          (Throw (String.append "Failed to embed documents: " e), c2)
      end
  end.

(** [export async function POST]: the response and the collection
    afterwards. *)
Definition POST (form : FormData) (c : Collection) : Response * Collection :=
  match pdf form with
  | None => (Error 400 "No file provided", c)
  | Some file =>
      let fileId := orElse (fileId form) "" in
      if negb (truthy fileId) then (Error 400 "No file ID provided", c)
      else if negb (String.eqb (File.type file) "application/pdf")
      then (Error 400 "Only PDF files are allowed", c)
      else if (maxFileSize <? File.size file)%N
      then (Error 400 "File size too large. Maximum 10MB allowed.", c)
      else
        match saveUpload file fileId with
        | Throw _ => (Error 500 "Failed to process PDF", c)
        | Ok _ =>
            match loadAndSplit file fileId with
            | Throw _ => (Error 500 "Failed to process PDF", c)
            | Ok splitDocs =>
                match storeWithFallback
                        (docsWithMetadata fileId file splitDocs) c with
                | (Ok _, c') =>
                    (Processed fileId (File.name file) (List.length splitDocs),
                     c')
                | (Throw _, c') => (Error 500 "Failed to process PDF", c')
                end
            end
        end
  end.

End Handler.

End UploadRoute.

(** ** The chat panel (components/chat.tsx), [handleSubmit] *)

Module ChatPanel.
Import JsString JsText.

(** A [Message] of the panel, as far as the endpoint reads it. *)
Record Message : Type := {
  role : string;
  content : string
}.

Definition toChatMessage (m : Message) : Route.ChatMessage.t :=
  Route.ChatMessage.mk (role m) (Some (content m)).

(** Lines 53-80: nothing is sent for a blank input or while a request is
    pending; otherwise the body holds the conversation with the new user
    message at its end, and the selected PDF (the panel is rendered for a
    selected PDF only). *)
Definition handleSubmit (selectedPDFId : string) (messages : list Message)
  (input : string) (isLoading : bool) : option Route.Body :=
  if negb (truthy (trim input)) || isLoading then None
  else
    let newMessage := {| role := "user"; content := input |} in
    Some {| Route.messages := Some (map toChatMessage (messages ++ [newMessage]));
            Route.pdfId := selectedPDFId |}.

End ChatPanel.

(** ** The simple search route (POST, text search without embeddings) *)

Module SimpleSearch.
Import JsString JsText.

(** [const { question, pdfId } = body] *)
Record Body : Type := {
  question : option string;
  pdfId : option string
}.

(** The JSON of the route: the 500 error with its details, or the answer
    with the [content] of each source and the [debug] numbers
    ([relevantDocs] and [contextLength] are absent when the collection is
    empty). *)
Inductive Response : Type :=
| SearchFailed (details : string)
| Found (answer : string) (sources : list (option string))
        (collectionName : string) (docCount : nat)
        (relevantDocs contextLength : option nat).

(** [`${n}`] for a count. *)
Definition showCount (n : nat) : string :=
  NilZero.string_of_uint (Nat.to_uint n).

(** [doc.pageContent] inside [join]: a missing value contributes nothing. *)
Definition joined (pageContent : option string) : string :=
  match pageContent with Some s => s | None => EmptyString end.

(** [doc.pageContent && ...]: the field is present and not empty. *)
Definition hasPageContent (doc : MongoDocument.t) : bool :=
  match MongoDocument.pageContent doc with
  | Some s => truthy s
  | None => false
  end.

Definition emptyAnswer : string :=
  "I don't have any documents to search through. Please upload a PDF first.".

Section Handler.

(** [db.collection(name)] and [env.MONGODB_COLLECTION_NAME]. *)
Variable collectionNamed : string -> list MongoDocument.t.
Variable defaultCollectionName : string.

(** The filter of lines 37-40. The callback reads [question] only for a
    document that has a page content; with [question] missing that read
    throws a TypeError. *)
Definition relevantDocsOf (question : option string)
  (allDocs : list MongoDocument.t) : result (list MongoDocument.t) :=
  if existsb hasPageContent allDocs then
    match question with
    | None => Throw "Cannot read properties of undefined (reading 'toLowerCase')"
    | Some q =>
        let firstWord := List.hd EmptyString (splitSpace (toLowerCase q)) in
        Ok (filter (fun doc =>
                      hasPageContent doc
                      && includes (toLowerCase
                                     (joined (MongoDocument.pageContent doc)))
                                  firstWord)
                   allDocs)
    end
  else Ok [].

(** [export async function POST] of the route; the calls on the store are
    taken to succeed. *)
Definition POST (body : Body) : Response :=
  let collectionName :=
    match pdfId body with
    | Some id => if truthy id then String.append "pdf_" id
                 else defaultCollectionName
    | None => defaultCollectionName
    end in
  let collection := collectionNamed collectionName in
  let docCount := List.length collection in
  if docCount =? 0 then Found emptyAnswer [] collectionName docCount None None
  else
    let allDocs := firstn 10 collection in
    match relevantDocsOf (question body) allDocs with
    | Throw message => SearchFailed message
    | Ok relevantDocs =>
        let separator := String.append Route.newline Route.newline in
        let context :=
          if 0 <? List.length relevantDocs
          then join separator
                 (map (fun doc => joined (MongoDocument.pageContent doc))
                      relevantDocs)
          else join separator
                 (map (fun doc => joined (MongoDocument.pageContent doc))
                      (firstn 3 allDocs)) in
        let answer :=
          if 0 <? List.length relevantDocs
          then String.append
                 "Based on the uploaded PDF, I found relevant information. Here's what I can tell you: "
                 (String.append (substringTo 500 context) "...")
          else String.append "I found "
                 (String.append (showCount docCount)
                    (String.append
                       " documents in your PDF but couldn't find specific matches. Here's some content from your PDF: "
                       (String.append (substringTo 500 context) "..."))) in
        Found answer
          (map MongoDocument.pageContent relevantDocs)
          collectionName docCount
          (Some (List.length relevantDocs)) (Some (String.length context))
    end.

End Handler.

End SimpleSearch.

(** ** The command-line ingestion (src/lib/mongoEmbedDocs.ts) *)

Module CommandLine.
Import VectorStore.

(** [ingestAndStorePDF]: the collection afterwards. A failure of the
    connection, of the loader or of the ingestion is caught and logged;
    nothing is stored for a PDF without chunks. *)
Definition ingestAndStorePDF
  (getMongoClient : result unit)
  (getChunkedDocsFromPDF : result (list Document.t))
  (embedText : string -> result (list float))
  (c : Collection) : Collection :=
  match getMongoClient with
  | Throw _ => c
  | Ok _ =>
      match getChunkedDocsFromPDF with
      | Throw _ => c
      | Ok docs =>
          if List.length docs =? 0 then c
          else snd (embedAndStoreDocs embedText docs c)
      end
  end.

End CommandLine.

(** ** Vocabulary of the further statements *)

Module Statements.
Import JsString Route.

(** [collection.countDocuments({ fileId })] as the chat endpoint issues it. *)
Definition chunkCount (backend : Backend) (fileId : string) : result nat :=
  countDocuments backend (FFileId fileId).

(** A query of the cascade: an aggregation, the [findOne] probe or a
    [find]. *)
Definition cascadeCall (e : Event) : Prop :=
  match e with
  | Aggregate _ | FindOne _ | Find _ _ => True
  | _ => False
  end.

(** The twelve markers of a general question about the PDF (lines
    190-201). *)
Definition generalMarkers : list string :=
  ["pdf"; "document"; "file"; "details about this"; "summary"; "overview";
   "tell me about"; "what is this"; "contents"; "topics"; "chapters";
   "sections"].

(** The retry on the index [name] finds nothing or throws. *)
Definition indexMisses (backend : Backend) (qe : list float) (name : string)
  : Prop :=
  aggregate backend (altPipeline name qe) = Ok []
  \/ exists e, aggregate backend (altPipeline name qe) = Throw e.

(** [docs[0]?.metadata?.fileId] *)
Definition firstFileId (docs : list VectorStore.Document.t) : option string :=
  match docs with
  | firstDoc :: _ =>
      VectorStore.Metadata.fileId (VectorStore.Document.metadata firstDoc)
  | [] => None
  end.

(** The vector a text is stored with when all the texts of its batch fare
    alike: the vector of the service, or the empty vector. *)
Definition storedVector (embedText : string -> result (list float))
  (text : string) : list float :=
  match embedText text with
  | Ok vector => vector
  | Throw _ => []
  end.

(** The stored forms of a batch, given its vectors. *)
Definition storedBatch (vectors : list (list float))
  (docs : list VectorStore.Document.t) : list MongoDocument.t :=
  map (fun vd => VectorStore.storedChunk (fst vd) (snd vd))
      (combine vectors docs).

(** A stored document without a [pageContent] field. *)
Definition lacksPageContent (doc : MongoDocument.t) : Prop :=
  MongoDocument.pageContent doc = None.

(** An upload that passes the four checks of the upload route. *)
Definition validUpload (form : UploadRoute.FormData) : Prop :=
  exists file id,
    UploadRoute.pdf form = Some file
    /\ UploadRoute.fileId form = Some id
    /\ id <> ""
    /\ UploadRoute.File.type file = "application/pdf"
    /\ (UploadRoute.File.size file <= UploadRoute.maxFileSize)%N.

(** The line feed. *)
Definition lineBreak : ascii := ascii_of_nat 10.

(** Every code unit of [s] is white space. *)
Fixpoint blank (s : string) : bool :=
  match s with
  | EmptyString => true
  | String c s' => Regex.isSpace c && blank s'
  end.

(** The number of occurrences of [c] in [s]. *)
Fixpoint occurrences (c : ascii) (s : string) : nat :=
  match s with
  | EmptyString => 0
  | String a s' => (if Ascii.eqb a c then 1 else 0) + occurrences c s'
  end.

(** A conversation written one message per line, with the role prefixes
    [parseChatHistory] looks for. *)
Definition formatLine (m : LangChain.BaseMessage) : string :=
  match m with
  | LangChain.HumanMessage content => String.append "User: " content
  | LangChain.AIMessage content => String.append "Assistant: " content
  end.

Definition formatHistory (ms : list LangChain.BaseMessage) : string :=
  join newline (map formatLine ms).

Definition contentOfMessage (m : LangChain.BaseMessage) : string :=
  match m with
  | LangChain.HumanMessage c => c
  | LangChain.AIMessage c => c
  end.

(** The name of the collection the simple search reads. *)
Definition searchedCollection (defaultCollectionName : string)
  (body : SimpleSearch.Body) : string :=
  match SimpleSearch.pdfId body with
  | Some id => if truthy id then String.append "pdf_" id
               else defaultCollectionName
  | None => defaultCollectionName
  end.

(** The [content] of the sources of a search response. *)
Definition sourcesOf (r : SimpleSearch.Response) : list (option string) :=
  match r with
  | SimpleSearch.Found _ sources _ _ _ _ => sources
  | SimpleSearch.SearchFailed _ => []
  end.

End Statements.

(** ** Further synthetic stores and inputs *)

Module Scenarios.
Import JsString Route Synthetic.

(** The physics store when every query of Stages 1-3 fails. *)
Definition keywordQueryFails : Backend := {|
  connect := Ok tt;
  close := Ok tt;
  countDocuments := countDocuments (backend physics);
  embedQuery := embedQuery (backend physics);
  aggregate := aggregate (backend physics);
  findOne := findOne (backend physics);
  find := fun f limit =>
    match f with
    | FFileId _ => find (backend physics) f limit
    | _ => Throw "connection reset"
    end
|}.

(** The physics chunks under the last of the alternative index names. *)
Definition lateIndex : Store := {|
  collection := collection physics;
  searchIndexes := ["embeddings_index"];
  vectorSearchScore := vectorSearchScore physics;
  regexTest := literalRegex;
  whereTest := fun _ _ => false;
  embed := fun _ => Ok [1%float];
  sample := fun size docs => firstn size docs
|}.

(** A regular-expression engine for alternations of literal words under
    the [i] option. The three patterns of [overviewQuery] also have
    alternatives with [.*]; none of them matches a text of [textbook]
    below, so that the engine answers as MongoDB does there. *)
Definition alternativesRegex (pattern options text : string) : bool :=
  existsb (fun word => includes (toLowerCase text) (toLowerCase word))
          (JsText.splitOn "|"%char pattern).

(** A textbook with an abstract, a preface and an introduction. *)
Definition textbook : Store := {|
  collection := [ chunk "T" "Abstract. Spectra of two-electron atoms.";
                  chunk "T" "Preface: this book covers helium.";
                  chunk "T" "Introduction and overview of the course." ];
  searchIndexes := ["vector_index"];
  vectorSearchScore := fun _ _ => score02;
  regexTest := alternativesRegex;
  whereTest := fun _ _ => false;
  embed := fun _ => Ok [1%float];
  sample := fun size docs => firstn size docs
|}.

(** A stored document that has no text under any of the three keys. *)
Definition emptyChunk : MongoDocument.t :=
  MongoDocument.mk None None None None (Some "scan.pdf") None (Some "A") None
    (Some []).

(** An embedding service that is down. *)
Definition neverEmbeds (t : string) : result (list float) :=
  Throw "quota exceeded".

(** A chunk as the PDF loader hands it over: no file id yet. *)
Definition loadedChunk (text : string) : VectorStore.Document.t :=
  VectorStore.Document.mk text
    (VectorStore.Metadata.mk (Some "uploads/notes.pdf") None (Some 1) None).

(** An upload of a small PDF under the file id "A". *)
Definition notes : UploadRoute.File.t :=
  UploadRoute.File.mk "notes.pdf" "application/pdf" 2048%N.

Definition notesForm : UploadRoute.FormData :=
  {| UploadRoute.pdf := Some notes; UploadRoute.fileId := Some "A" |}.

Definition savesUpload (file : UploadRoute.File.t) (fileId : string)
  : result unit := Ok tt.

Definition splitsInTwo (file : UploadRoute.File.t) (fileId : string)
  : result (list VectorStore.Document.t) :=
  Ok [loadedChunk "Helium has two electrons."; loadedChunk "The ground state."].

(** A collection that already holds a chunk of file A and one of file B. *)
Definition earlierUploads : VectorStore.Collection :=
  [chunk "A" "An older version."; chunk "B" "Payroll records."].

(** Eleven documents written with a [pageContent] field, the last one the
    only one about helium. *)
Definition page (text : string) : MongoDocument.t :=
  MongoDocument.mk None (Some text) None None None None None None None.

Definition tenPages : list MongoDocument.t :=
  map page ["page one"; "page two"; "page three"; "page four"; "page five";
            "page six"; "page seven"; "page eight"; "page nine"; "page ten"].

(** The two [$where] conditions of the handler, on the length of the
    text. *)
Definition lengthWhere (js : string) (doc : MongoDocument.t) : bool :=
  let n := String.length (textOf doc) in
  if String.eqb js "this.text.length < 200 && this.text.length > 10"
  then (n <? 200) && (10 <? n)
  else if String.eqb js "this.text.length > 500" then 500 <? n
  else false.

(** A handbook of two chunks of 250 characters: an introduction, which
    the overview query of Stage 2 finds, and a chunk on helium. Neither has
    a word of the structure query nor the length of a heading, so that
    Stage 1 finds nothing. *)
Definition handbook : Store := {|
  collection := [ chunk "H" (padTo 250 "Introduction and overview of the course.");
                  chunk "H" (padTo 250 "Helium has two electrons.") ];
  searchIndexes := ["vector_index"];
  vectorSearchScore := fun _ _ => score02;
  regexTest := alternativesRegex;
  whereTest := lengthWhere;
  embed := fun _ => Ok [1%float];
  sample := fun size docs => firstn size docs
|}.

End Scenarios.

(** * Properties *)

Import JsString Route Synthetic.

(** ** Vocabulary of the statements *)

(** The last message carries no text: [content] is missing or empty. *)
Definition lastContentEmpty (body : Body) : Prop :=
  exists m, lastElement (messagesOf body) = Some m
            /\ (ChatMessage.content m = None \/ ChatMessage.content m = Some "").

(** The calls Stage 0 can make for the question embedding [qe]: the primary
    vector search, the [findOne] probe and the retries on the alternative
    indexes. *)
Definition stage0Call (pdfId : string) (qe : list float) (e : Event) : Prop :=
  e = Aggregate (vectorSearchPipeline pdfId qe)
  \/ e = FindOne FEmpty
  \/ exists indexName, In indexName alternativeIndexes
                       /\ e = Aggregate (altPipeline indexName qe).

(** The stage among 1-3 that the shape of the question selects (the
    [if]/[else] chain of lines 278, 311 and 350). *)
Definition triggeredStage (questionLower : string) : nat :=
  if isListingRequest questionLower then 1
  else if isDetailRequest questionLower then 2 else 3.

(** Stage 1, 2 or 3 run on its own. *)
Definition runStage (backend : Backend) (stage : nat) (question pdfId : string)
  : M (list MongoDocument.t) :=
  match stage with
  | 1 => structureSearch backend pdfId
  | 2 => overviewSearch backend pdfId
  | _ => keywordSearch backend (toLowerCase question) pdfId
  end.

(** A [find] query: the only kind of call Stages 1-3 make. *)
Definition findCall (e : Event) : Prop := exists f limit, e = Find f limit.

(** [x] may stand before [y] in the ranking of Stage 3: more keyword
    matches, or as many and a length score at least as high. *)
Definition rankedBefore (kws : list string) (x y : MongoDocument.t) : Prop :=
  matchCount kws y < matchCount kws x
  \/ (matchCount kws y = matchCount kws x
      /\ (lengthScore y <= lengthScore x)%Z).



(** ** Running computations *)

Lemma run_eta {A : Type} (m : M A) : m = (fst m, snd m).
Proof. destruct m; reflexivity. Qed.

Lemma bind_inv {A B : Type} (m : M A) (k : A -> M B) (b : B) (t : list Event) :
  bind m k = (Ok b, t) ->
  exists a t1 t2, m = (Ok a, t1) /\ k a = (Ok b, t2) /\ t = t1 ++ t2.
Proof.
  destruct m as [[a | e] t1]; cbn [bind].
  - intros H. exists a, t1, (snd (k a)).
    injection H as Hr Ht. rewrite <- Hr, <- Ht.
    repeat split. apply run_eta.
  - discriminate.
Qed.

Lemma perform_inv {A : Type} (e : Event) (r : result A) (a : A) (t : list Event) :
  perform e r = (Ok a, t) -> r = Ok a /\ t = [e].
Proof. unfold perform. intros H. injection H as -> <-. auto. Qed.

Lemma ret_inv {A : Type} (a b : A) (t : list Event) :
  ret a = (Ok b, t) -> a = b /\ t = [].
Proof. unfold ret. intros H. injection H as -> <-. auto. Qed.

Lemma Answer_inj (a b : string) (s s' : list Source.t) :
  Answer a s = Answer b s' -> a = b /\ s = s'.
Proof.
  intros H. split.
  - exact (f_equal (fun r => match r with Answer x _ => x | Error _ _ => a end) H).
  - exact (f_equal (fun r => match r with Answer _ x => x | Error _ _ => s end) H).
Qed.

Lemma filter_none {A : Type} (f : A -> bool) (l : list A) :
  Forall (fun x => f x = false) l -> filter f l = [].
Proof.
  induction 1 as [| x l Hx _ IH]; cbn [filter]; [reflexivity |].
  rewrite Hx. exact IH.
Qed.

(** ** Requests without a question (lines 34-48) *)

(** C9. A request whose message list is empty (or missing), or whose last
    message has empty content, is answered with status 400 -- "No messages
    provided" in the first case, "Question is required" in the second -- and
    the handler has made no call to the chunk store or to the embedding
    service. *)
Theorem bad_request_makes_no_call
  (backend : Backend)
  (composeTemplate : string -> list MongoDocument.t -> nat -> string -> string)
  (body : Body) :
  messagesOf body = [] \/ lastContentEmpty body ->
  POST backend composeTemplate body
  = (Error 400 (if isEmpty (messagesOf body) then "No messages provided"
                else "Question is required"),
     []).
Proof.
  unfold POST, lastContentEmpty.
  intros [Hnil | (m & Hlast & Hcontent)].
  - rewrite Hnil. reflexivity.
  - rewrite Hlast.
    assert (Hne : isEmpty (messagesOf body) = false).
    { destruct (messagesOf body); [discriminate Hlast | reflexivity]. }
    rewrite Hne.
    unfold questionOf. destruct Hcontent as [-> | ->]; reflexivity.
Qed.

(** An instance: a single message with empty content. *)
Lemma bad_request_makes_no_call_witness :
  (messagesOf (Synthetic.ask "A" "") = []
   \/ lastContentEmpty (Synthetic.ask "A" ""))
  /\ POST (Synthetic.backend Synthetic.physics) Synthetic.quoteContext
          (Synthetic.ask "A" "")
     = (Error 400 "Question is required", []).
Proof.
  assert (H : messagesOf (Synthetic.ask "A" "") = []
              \/ lastContentEmpty (Synthetic.ask "A" "")).
  { right. exists (ChatMessage.mk "user" (Some "")). split; [reflexivity | now right]. }
  split; [exact H |].
  exact (bad_request_makes_no_call (Synthetic.backend Synthetic.physics)
           Synthetic.quoteContext (Synthetic.ask "A" "") H).
Defined.

(** ** Stage 0 (lines 86-181) *)

(** The retry loop never throws, and calls nothing but the retry pipelines. *)
Lemma tryAlternativeIndexes_runs backend qe (names : list string) :
  (exists docs, fst (tryAlternativeIndexes backend names qe) = Ok docs)
  /\ Forall (fun e => exists indexName,
                 In indexName names /\ e = Aggregate (altPipeline indexName qe))
            (snd (tryAlternativeIndexes backend names qe)).
Proof.
  induction names as [| indexName rest [[docs IHr] IHt]]; cbn [tryAlternativeIndexes].
  - split; [exists []; reflexivity | constructor].
  - unfold collectionAggregate, perform, tryCatch, bind, ret.
    assert (Hrest : Forall (fun e => exists i, In i (indexName :: rest)
                                   /\ e = Aggregate (altPipeline i qe))
                      (snd (tryAlternativeIndexes backend rest qe))).
    { eapply Forall_impl; [| exact IHt]. intros e (i & Hi & ->).
      exists i. split; [right; exact Hi | reflexivity]. }
    assert (Hhead : exists i, In i (indexName :: rest)
                    /\ Aggregate (altPipeline indexName qe) = Aggregate (altPipeline i qe)).
    { exists indexName. split; [left; reflexivity | reflexivity]. }
    destruct (aggregate backend (altPipeline indexName qe)) as [altDocs | e];
      cbn [fst snd app].
    + destruct (0 <? List.length altDocs); cbn [fst snd app].
      * split; [exists altDocs; reflexivity |].
        constructor; [exact Hhead | constructor].
      * split; [exists docs; exact IHr |]. constructor; [exact Hhead | exact Hrest].
    + split; [exists docs; exact IHr |]. constructor; [exact Hhead | exact Hrest].
Qed.

(** Stage 0 never throws; it starts with the primary vector search. *)
Lemma vectorStage_runs backend pdfId qe :
  (exists docs, fst (vectorStage backend pdfId qe) = Ok docs)
  /\ exists rest,
       snd (vectorStage backend pdfId qe)
       = Aggregate (vectorSearchPipeline pdfId qe) :: rest
       /\ Forall (stage0Call pdfId qe) rest.
Proof.
  unfold vectorStage, collectionAggregate, collectionFindOne, perform, tryCatch, bind, ret.
  destruct (aggregate backend (vectorSearchPipeline pdfId qe)) as [docs | e];
    cbn [fst snd app].
  - destruct (0 <? List.length docs); cbn [fst snd app].
    + split; [eexists; reflexivity | exists []; split; [reflexivity | constructor]].
    + destruct (findOne backend FEmpty) as [probe | e]; cbn [fst snd app].
      * destruct (tryAlternativeIndexes_runs backend qe alternativeIndexes)
          as [[docs' Hd] Ht].
        destruct (tryAlternativeIndexes backend alternativeIndexes qe)
          as [[alt | e] talt]; cbn [fst snd] in *; try discriminate.
        split; [eexists; reflexivity |].
        eexists; split; [reflexivity |].
        constructor; [right; left; reflexivity |].
        eapply Forall_impl; [| exact Ht]. intros ev Hev. right; right; exact Hev.
      * split; [eexists; reflexivity |].
        eexists; split; [reflexivity |].
        constructor; [right; left; reflexivity | constructor].
  - split; [eexists; reflexivity | exists []; split; [reflexivity | constructor]].
Qed.

(** What the primary index returns is held to the floor. *)
Lemma applyThreshold_floor (docs : list MongoDocument.t) :
  Forall (fun doc => PrimFloat.leb scoreThreshold (scoreOf doc) = true)
         (applyThreshold docs).
Proof.
  unfold applyThreshold.
  match goal with |- context [if ?c then _ else _] => destruct c end.
  - constructor.
  - apply Forall_forall. intros doc Hin. apply filter_In in Hin. apply Hin.
Qed.

(** C2. The similarity floor on the retry path, evaluated. Two chunks that
    score 0.3 and 0.2 are discarded when the index "vector_index" returns
    them (first part); when the collection is indexed under "default"
    instead, the retry of lines 144-176 hands the same two chunks on as the
    result of Stage 0, both below the floor of 0.6 (second part). *)
Theorem alternative_index_skips_floor :
  vectorStage (backend physics) "A" [1%float]
  = (Ok [], [Aggregate (vectorSearchPipeline "A" [1%float])])
  /\ exists docs,
       vectorStage (backend lowScores) "A" [1%float]
       = (Ok docs,
          [Aggregate (vectorSearchPipeline "A" [1%float]);
           FindOne FEmpty;
           Aggregate (altPipeline "default" [1%float])])
       /\ map MongoDocument.score docs = [Some score03; Some score02]
       /\ Forall (fun doc => PrimFloat.ltb (scoreOf doc) scoreThreshold = true)
                 docs.
Proof.
  split; [vm_compute; reflexivity |].
  eexists. split; [vm_compute; reflexivity |].
  split; [reflexivity |].
  repeat constructor.
Qed.

(** C5. The document restriction on the retry path, evaluated. The
    collection holds chunks of the files A and B under the index "default";
    a question about file A is answered from the two chunks of file B as
    well, because the retry pipeline of lines 147-163 carries no [fileId]
    filter. *)
Theorem alternative_index_crosses_documents :
  map MongoDocument.fileId (collection shared) = [Some "A"; Some "B"; Some "B"]
  /\ exists answer sources calls,
       POST (backend shared) quoteContext
            (ask "A" "how many electrons does helium have")
       = (Answer answer sources, calls)
       /\ map Source.pageContent sources
          = ["Quarterly revenue grew."; "Payroll records.";
             "Helium has two electrons."]
       /\ includes answer "Payroll records." = true
       /\ calls = [Connect; CountDocuments (FFileId "A");
                   EmbedQuery "how many electrons does helium have";
                   Aggregate (vectorSearchPipeline "A" [1%float]);
                   FindOne FEmpty;
                   Aggregate [VectorSearch "default" "embedding" [1%float] 10 3 None;
                              Project ["text"; "score"]];
                   Close].
Proof.
  split; [reflexivity |].
  eexists _, _, _. split; [vm_compute; reflexivity |].
  repeat split; vm_compute; reflexivity.
Qed.

(** ** The relevance gate (lines 182-261) *)

Lemma relevanceGate_true backend question pdfId t :
  relevanceGate backend question pdfId = (Ok true, t) ->
  isGeneralPdfQuestion (toLowerCase question) = false
  /\ t = [Find (FFileId pdfId) 3]
  /\ exists sampleDocs,
       find backend (FFileId pdfId) 3 = Ok sampleDocs
       /\ gateRejects (toLowerCase question)
            (toLowerCase (join " " (map textOf sampleDocs))) = true.
Proof.
  unfold relevanceGate.
  destruct (isGeneralPdfQuestion (toLowerCase question)).
  - discriminate.
  - intros H. apply bind_inv in H as (sampleDocs & t1 & t2 & Hf & Hr & ->).
    apply perform_inv in Hf as [Hf ->]. apply ret_inv in Hr as [Hr ->].
    repeat split. exists sampleDocs. auto.
Qed.

Lemma relevanceGate_verdict backend question pdfId :
  (forall sampleContent,
      gateRejects (toLowerCase question) sampleContent = false) ->
  fst (relevanceGate backend question pdfId) <> Ok true.
Proof.
  intros Hpass Hrej.
  destruct (relevanceGate backend question pdfId) as [r t] eqn:Hg.
  cbn [fst] in Hrej. subst r.
  destruct (relevanceGate_true _ _ _ _ Hg) as (_ & _ & docs & _ & Hrejects).
  rewrite Hpass in Hrejects. discriminate Hrejects.
Qed.

Lemma retrieve_rejected backend question pdfId qe t :
  retrieve backend question pdfId qe = (Ok Rejected, t) ->
  exists t0,
    vectorStage backend pdfId qe = (Ok [], t0)
    /\ relevanceGate backend question pdfId = (Ok true, [Find (FFileId pdfId) 3])
    /\ t = t0 ++ [Find (FFileId pdfId) 3].
Proof.
  unfold retrieve. intros H.
  apply bind_inv in H as (docs & t0 & t1 & Hv & H & ->).
  apply bind_inv in H as (rejected & tg & t2 & Hg & H & ->).
  destruct rejected.
  - apply ret_inv in H as [_ ->].
    destruct docs as [| d docs']; cbn [List.length Nat.eqb] in Hg.
    + destruct (relevanceGate_true _ _ _ _ Hg) as (_ & -> & _).
      exists t0. rewrite app_nil_r. auto.
    + apply ret_inv in Hg as [Hg _]. discriminate Hg.
  - apply bind_inv in H as (docs1 & ? & ? & _ & H & _).
    apply bind_inv in H as (docs2 & ? & ? & _ & H & _).
    apply ret_inv in H as [H _]. discriminate H.
Qed.

Lemma no_question_terms (questionLower : string) :
  Forall (fun w => String.length w <= 3) (splitSpace questionLower) ->
  questionTermsOf questionLower = [].
Proof.
  intros H. unfold questionTermsOf. apply filter_none.
  eapply Forall_impl; [| exact H]. intros w Hlen.
  apply Nat.ltb_ge. exact Hlen.
Qed.

Lemma short_words (words : list string) :
  forallb (fun w => String.length w <=? 3) words = true ->
  Forall (fun w => String.length w <= 3) words.
Proof.
  intros H. apply Forall_forall. intros w Hw.
  rewrite forallb_forall in H. apply Nat.leb_le. exact (H w Hw).
Qed.

(** C7 (amended). A question none of whose words is longer than 3
    characters and which matches none of the unrelated-topic patterns is
    never turned away by the relevance gate, whatever the sampled content:
    the verdict of line 249 is negative, the gate does not answer [true],
    and the cascade does not end in [Rejected]. *)
Theorem short_question_passes_gate (question : string) :
  Forall (fun w => String.length w <= 3) (splitSpace (toLowerCase question)) ->
  isObviouslyUnrelated (toLowerCase question) = false ->
  (forall sampleContent,
      gateRejects (toLowerCase question) sampleContent = false)
  /\ (forall backend pdfId,
        fst (relevanceGate backend question pdfId) <> Ok true)
  /\ (forall backend pdfId qe,
        fst (retrieve backend question pdfId qe) <> Ok Rejected).
Proof.
  intros Hshort Hpatterns.
  assert (Hpass : forall sampleContent,
             gateRejects (toLowerCase question) sampleContent = false).
  { intros sampleContent. unfold gateRejects.
    rewrite Hpatterns, (no_question_terms _ Hshort). reflexivity. }
  split; [exact Hpass |]. split.
  - intros backend pdfId. apply relevanceGate_verdict. exact Hpass.
  - intros backend pdfId qe Hrej.
    destruct (retrieve backend question pdfId qe) as [r t] eqn:Hr.
    cbn [fst] in Hrej. subst r.
    apply retrieve_rejected in Hr as (t0 & _ & Hg & _).
    apply (relevanceGate_verdict backend question pdfId Hpass).
    rewrite Hg. reflexivity.
Qed.

(** An instance: "how is it". *)
Lemma short_question_passes_gate_witness :
  (forall sampleContent,
      gateRejects (toLowerCase "how is it") sampleContent = false)
  /\ (forall backend pdfId,
        fst (relevanceGate backend "how is it" pdfId) <> Ok true)
  /\ (forall backend pdfId qe,
        fst (retrieve backend "how is it" pdfId qe) <> Ok Rejected).
Proof.
  apply (short_question_passes_gate "how is it").
  - apply short_words. vm_compute. reflexivity.
  - vm_compute. reflexivity.
Defined.

(** C7, as first stated, fails: "buy it" has no word longer than 3
    characters, yet the pattern [shopping|purchase|buy] matches and the gate
    turns the question away for every sample. *)
Lemma short_question_rejected :
  Forall (fun w => String.length w <= 3) (splitSpace (toLowerCase "buy it"))
  /\ (forall sampleContent,
        gateRejects (toLowerCase "buy it") sampleContent = true)
  /\ POST (backend physics) quoteContext (ask "A" "buy it")
     = (Answer unrelatedAnswer [],
        [Connect; CountDocuments (FFileId "A"); EmbedQuery "buy it";
         Aggregate (vectorSearchPipeline "A" [1%float]);
         Find (FFileId "A") 3; Close]).
Proof.
  split; [apply short_words; vm_compute; reflexivity |]. split.
  - intros sampleContent. unfold gateRejects.
    replace (isObviouslyUnrelated (toLowerCase "buy it")) with true
      by (vm_compute; reflexivity).
    reflexivity.
  - vm_compute. reflexivity.
Qed.

(** ** The rejection within the request *)

Lemma unrelated_is_not_noDocuments : unrelatedAnswer <> noDocumentsAnswer.
Proof. apply String.eqb_neq. vm_compute. reflexivity. Qed.

Lemma unrelated_is_not_noContent : unrelatedAnswer <> noContentAnswer.
Proof. apply String.eqb_neq. vm_compute. reflexivity. Qed.

Lemma compose_without_sources backend tmpl question docCount docs a t :
  compose backend tmpl question docCount docs = (Ok (Answer a []), t) ->
  a = noContentAnswer.
Proof.
  unfold compose. intros H.
  apply bind_inv in H as (u & t1 & t2 & _ & H & _).
  destruct docs as [| d docs'].
  - cbn in H. apply ret_inv in H as [H _].
    apply Answer_inj in H as [H _]. symmetry; exact H.
  - destruct (String.length _ =? 0).
    + apply ret_inv in H as [H _].
      apply Answer_inj in H as [H _]. symmetry; exact H.
    + apply ret_inv in H as [H _].
      apply Answer_inj in H as [_ H]. discriminate H.
Qed.

Lemma answerQuestion_rejected backend tmpl question pdfId calls :
  answerQuestion backend tmpl question pdfId
  = (Ok (Answer unrelatedAnswer []), calls) ->
  exists qe t0,
    embedQuery backend question = Ok qe
    /\ vectorStage backend pdfId qe = (Ok [], t0)
    /\ relevanceGate backend question pdfId
       = (Ok true, [Find (FFileId pdfId) 3])
    /\ calls = [Connect; CountDocuments (FFileId pdfId); EmbedQuery question]
               ++ t0 ++ [Find (FFileId pdfId) 3; Close].
Proof.
  unfold answerQuestion. intros H.
  apply bind_inv in H as (u & t1 & t2 & Hc & H & ->).
  apply perform_inv in Hc as [_ ->].
  apply bind_inv in H as (docCount & t1 & t3 & Hn & H & ->).
  apply perform_inv in Hn as [_ ->].
  destruct (docCount =? 0).
  - apply bind_inv in H as (u' & t1 & t4 & _ & H & _).
    apply ret_inv in H as [H _]. apply Answer_inj in H as [H _].
    symmetry in H. destruct (unrelated_is_not_noDocuments H).
  - apply bind_inv in H as (qe & t1 & t4 & He & H & ->).
    apply perform_inv in He as [He ->].
    apply bind_inv in H as (outcome & t1 & t5 & Hr & H & ->).
    destruct outcome as [| docs].
    + apply bind_inv in H as (u' & t6 & t7 & Hcl & H & ->).
      apply perform_inv in Hcl as [_ ->]. apply ret_inv in H as [_ ->].
      apply retrieve_rejected in Hr as (t0 & Hv & Hg & ->).
      exists qe, t0. repeat split; try assumption.
      cbn [app]. rewrite <- app_assoc. reflexivity.
    + apply compose_without_sources in H.
      destruct (unrelated_is_not_noContent H).
Qed.

(** C3 (amended). Whenever the handler answers with the gate's rejection,
    the calls of the request are, in order: the connection, the count of the
    document's chunks, the embedding of the question, the calls of Stage 0
    (which found nothing), the gate's own sample query, and the closing of
    the client. No query of Stages 1-4 is among them. *)
Theorem rejection_follows_stage0
  (backend : Backend)
  (composeTemplate : string -> list MongoDocument.t -> nat -> string -> string)
  (body : Body) (calls : list Event) :
  POST backend composeTemplate body = (Answer unrelatedAnswer [], calls) ->
  exists lastMessage qe rest,
    lastElement (messagesOf body) = Some lastMessage
    /\ embedQuery backend (questionOf lastMessage) = Ok qe
    /\ fst (vectorStage backend (pdfId body) qe) = Ok []
    /\ relevanceGate backend (questionOf lastMessage) (pdfId body)
       = (Ok true, [Find (FFileId (pdfId body)) 3])
    /\ Forall (stage0Call (pdfId body) qe) rest
    /\ calls = [Connect; CountDocuments (FFileId (pdfId body));
                EmbedQuery (questionOf lastMessage);
                Aggregate (vectorSearchPipeline (pdfId body) qe)]
               ++ rest ++ [Find (FFileId (pdfId body)) 3; Close].
Proof.
  unfold POST. intros H.
  destruct (lastElement (messagesOf body)) as [lastMessage |]; [| discriminate H].
  destruct (negb (truthy _)); [discriminate H |].
  destruct (answerQuestion _ _ _ _) as [[response | e] calls'] eqn:Ha;
    [| discriminate H].
  injection H as -> ->.
  apply answerQuestion_rejected in Ha as (qe & t0 & He & Hv & Hg & ->).
  destruct (vectorStage_runs backend (pdfId body) qe) as [_ (rest & Ht & Hrest)].
  rewrite Hv in Ht. cbn [snd] in Ht. subst t0.
  exists lastMessage, qe, rest. rewrite Hv. repeat split; assumption.
Qed.

(** An instance: the recipe question on the physics document. *)
Lemma rejection_follows_stage0_witness :
  exists lastMessage qe rest,
    lastElement (messagesOf (ask "A" "what's your favorite recipe"))
    = Some lastMessage
    /\ embedQuery (backend physics) (questionOf lastMessage) = Ok qe
    /\ fst (vectorStage (backend physics) "A" qe) = Ok []
    /\ relevanceGate (backend physics) (questionOf lastMessage) "A"
       = (Ok true, [Find (FFileId "A") 3])
    /\ Forall (stage0Call "A" qe) rest
    /\ [Connect; CountDocuments (FFileId "A");
        EmbedQuery "what's your favorite recipe";
        Aggregate (vectorSearchPipeline "A" [1%float]);
        Find (FFileId "A") 3; Close]
       = [Connect; CountDocuments (FFileId "A");
          EmbedQuery (questionOf lastMessage);
          Aggregate (vectorSearchPipeline "A" qe)]
         ++ rest ++ [Find (FFileId "A") 3; Close].
Proof.
  apply (rejection_follows_stage0 (backend physics) quoteContext
           (ask "A" "what's your favorite recipe")).
  vm_compute. reflexivity.
Defined.

(** C3, as first stated, fails: the recipe question on a physics document
    is rejected only after the store has been queried four times. *)
Lemma rejection_after_store_queries :
  POST (backend physics) quoteContext (ask "A" "what's your favorite recipe")
  = (Answer unrelatedAnswer [],
     [Connect; CountDocuments (FFileId "A");
      EmbedQuery "what's your favorite recipe";
      Aggregate (vectorSearchPipeline "A" [1%float]);
      Find (FFileId "A") 3; Close]).
Proof. vm_compute. reflexivity. Qed.

(** ** A failing embedding service (lines 76-83, 605-608) *)

(** C4 (amended). When the embedding call for the question throws, the
    request ends with status 500, "Internal Server Error"; the handler has
    connected, counted the chunks of the document and attempted the
    embedding, and no stage of the cascade has run. Stage 0 itself never
    throws: the failures of its own queries are caught inside it. *)
Theorem embedding_failure_is_fatal
  (backend : Backend)
  (composeTemplate : string -> list MongoDocument.t -> nat -> string -> string)
  (body : Body) (lastMessage : ChatMessage.t) (question e : string) (docCount : nat) :
  lastElement (messagesOf body) = Some lastMessage ->
  ChatMessage.content lastMessage = Some question ->
  question <> "" ->
  connect backend = Ok tt ->
  countDocuments backend (FFileId (pdfId body)) = Ok docCount ->
  docCount <> 0 ->
  embedQuery backend question = Throw e ->
  POST backend composeTemplate body
  = (Error 500 "Internal Server Error",
     [Connect; CountDocuments (FFileId (pdfId body)); EmbedQuery question])
  /\ (forall qe, exists docs,
        fst (vectorStage backend (pdfId body) qe) = Ok docs).
Proof.
  intros Hlast Hcontent Hq Hconn Hcount Hn Hembed.
  split; [| intros qe; apply vectorStage_runs].
  unfold POST. rewrite Hlast. unfold questionOf, orElse. rewrite Hcontent.
  destruct question as [| c q']; [contradiction Hq; reflexivity |].
  cbn [truthy negb].
  unfold answerQuestion, clientConnect, collectionCountDocuments,
    embeddingsEmbedQuery, perform.
  rewrite Hconn, Hcount, Hembed.
  cbn [bind fst snd app].
  destruct docCount as [| n]; [contradiction Hn; reflexivity |].
  cbn [Nat.eqb bind fst snd app]. reflexivity.
Qed.

(** An instance: the question "what is helium" while the embedding service
    is down. *)
Lemma embedding_failure_is_fatal_witness :
  POST (backend physicsNoEmbedding) quoteContext (ask "A" "what is helium")
  = (Error 500 "Internal Server Error",
     [Connect; CountDocuments (FFileId "A"); EmbedQuery "what is helium"])
  /\ (forall qe, exists docs,
        fst (vectorStage (backend physicsNoEmbedding) "A" qe) = Ok docs).
Proof.
  apply (embedding_failure_is_fatal (backend physicsNoEmbedding) quoteContext
           (ask "A" "what is helium")
           (ChatMessage.mk "user" (Some "what is helium"))
           "what is helium" "quota exceeded" 2);
    try reflexivity; discriminate.
Defined.

(** C4, as first stated, fails: with the embedding service down the
    request is answered with status 500 and Stage 1 is never reached. *)
Lemma embedding_failure_answers_500 :
  embedQuery (backend physicsNoEmbedding) "explain the helium atom"
  = Throw "quota exceeded"
  /\ POST (backend physicsNoEmbedding) quoteContext
          (ask "A" "explain the helium atom")
     = (Error 500 "Internal Server Error",
        [Connect; CountDocuments (FFileId "A");
         EmbedQuery "explain the helium atom"]).
Proof. split; vm_compute; reflexivity. Qed.

(** ** The order of the cascade (lines 264-466) *)

Lemma fallbackStrategies_dispatch backend question pdfId :
  fallbackStrategies backend question pdfId
  = runStage backend (triggeredStage (toLowerCase question)) question pdfId.
Proof.
  unfold fallbackStrategies, triggeredStage.
  destruct (isListingRequest _); [reflexivity |].
  destruct (isDetailRequest _); reflexivity.
Qed.

Lemma findCall_Find f limit : findCall (Find f limit).
Proof. exists f, limit. reflexivity. Qed.

(** Runs a stage made of [find] queries through every answer of the store. *)
Ltac run_finds :=
  repeat first
    [ progress cbn [fst snd app bind ret perform]
    | apply Forall_nil
    | apply Forall_cons; [apply findCall_Find |]
    | match goal with
      | |- context [find ?b ?f ?n] => destruct (find b f n)
      | |- context [if ?c then _ else _] => destruct c
      end ].

Lemma structureSearch_calls backend pdfId :
  Forall findCall (snd (structureSearch backend pdfId)).
Proof. unfold structureSearch, collectionFind. run_finds. Qed.

Lemma overviewSearch_calls backend pdfId :
  Forall findCall (snd (overviewSearch backend pdfId)).
Proof. unfold overviewSearch, collectionFind. run_finds. Qed.

Lemma keywordSearch_calls backend questionLower pdfId :
  Forall findCall (snd (keywordSearch backend questionLower pdfId)).
Proof. unfold keywordSearch, collectionFind. run_finds. Qed.

Lemma runStage_calls backend stage question pdfId :
  Forall findCall (snd (runStage backend stage question pdfId)).
Proof.
  destruct stage as [| [| [| n]]]; cbn [runStage];
    auto using structureSearch_calls, overviewSearch_calls, keywordSearch_calls.
Qed.

Lemma retrieve_stage0_wins backend question pdfId qe docs t0 :
  vectorStage backend pdfId qe = (Ok docs, t0) -> docs <> [] ->
  retrieve backend question pdfId qe = (Ok (Retrieved docs), t0).
Proof.
  intros Hv Hne. unfold retrieve. rewrite Hv.
  destruct docs as [| d docs']; [contradiction Hne; reflexivity |].
  cbn. rewrite !app_nil_r. reflexivity.
Qed.

Lemma retrieve_after_gate backend question pdfId qe t0 tg :
  vectorStage backend pdfId qe = (Ok [], t0) ->
  relevanceGate backend question pdfId = (Ok false, tg) ->
  retrieve backend question pdfId qe
  = (fst (bind (fallbackStrategies backend question pdfId)
            (fun docs =>
               bind (if List.length docs =? 0 then diversitySample backend pdfId
                     else ret docs)
                    (fun docs' => ret (Retrieved docs')))),
     t0 ++ tg ++
     snd (bind (fallbackStrategies backend question pdfId)
            (fun docs =>
               bind (if List.length docs =? 0 then diversitySample backend pdfId
                     else ret docs)
                    (fun docs' => ret (Retrieved docs'))))).
Proof.
  intros Hv Hg. unfold retrieve. rewrite Hv.
  cbn [bind fst snd List.length Nat.eqb]. rewrite Hg.
  cbn [bind fst snd]. reflexivity.
Qed.

Lemma compose_calls backend tmpl question docCount docs :
  snd (compose backend tmpl question docCount docs) = [Close].
Proof.
  unfold compose, clientClose, perform, bind.
  destruct (close backend) as [u | e]; [| reflexivity].
  cbn [snd]. destruct (String.length _ =? 0); reflexivity.
Qed.

Lemma POST_calls_when_stage0_wins
  (backend : Backend)
  (composeTemplate : string -> list MongoDocument.t -> nat -> string -> string)
  (body : Body) (lastMessage : ChatMessage.t) (question : string)
  (docCount : nat) (qe : list float) (docs : list MongoDocument.t)
  (t0 : list Event) :
  lastElement (messagesOf body) = Some lastMessage ->
  ChatMessage.content lastMessage = Some question ->
  question <> "" ->
  connect backend = Ok tt ->
  countDocuments backend (FFileId (pdfId body)) = Ok docCount ->
  docCount <> 0 ->
  embedQuery backend question = Ok qe ->
  vectorStage backend (pdfId body) qe = (Ok docs, t0) ->
  docs <> [] ->
  snd (POST backend composeTemplate body)
  = [Connect; CountDocuments (FFileId (pdfId body)); EmbedQuery question]
    ++ t0 ++ [Close].
Proof.
  intros Hlast Hcontent Hq Hconn Hcount Hn Hembed Hv Hne.
  unfold POST. rewrite Hlast. unfold questionOf, orElse. rewrite Hcontent.
  destruct question as [| c q']; [contradiction Hq; reflexivity |].
  cbn [truthy negb].
  set (question := String c q') in *.
  assert (Hrun : snd (answerQuestion backend composeTemplate question (pdfId body))
                 = [Connect; CountDocuments (FFileId (pdfId body));
                    EmbedQuery question] ++ t0 ++ [Close]).
  { unfold answerQuestion, clientConnect, collectionCountDocuments,
      embeddingsEmbedQuery, perform.
    rewrite Hconn, Hcount.
    destruct docCount as [| n]; [contradiction Hn; reflexivity |].
    cbn [Nat.eqb bind fst snd app]. rewrite Hembed.
    cbn [bind fst snd app].
    rewrite (retrieve_stage0_wins backend question (pdfId body) qe docs t0 Hv Hne).
    cbn [bind fst snd app]. rewrite compose_calls. reflexivity. }
  destruct (answerQuestion backend composeTemplate question (pdfId body))
    as [[response | e] calls]; exact Hrun.
Qed.

(** C6 (amended). A stage that finds a chunk ends the cascade, and of
    Stages 1-3 only the selected one is tried.
    - When Stage 0 leaves a non-empty [docs], the cascade returns exactly
      these chunks and its calls are those of Stage 0 alone.
    - When Stage 0 finds nothing and the gate lets the question pass, the
      one stage among 1-3 selected by the shape of the question (the first
      of the listing and the detail shape that the question has, else the
      keyword stage) decides as soon as it finds a chunk: the cascade
      returns its chunks, and after the gate only its [find] queries were
      issued (no sample of Stage 4).
    - For the whole request in the first case: the calls of [POST] are the
      connection, the count, the embedding, the calls of Stage 0 and the
      closing of the client.
    - When the selected stage finds nothing, the sample of Stage 4 follows
      at once and decides: no other stage among 1-3 is tried, whatever
      shapes the question has. *)
Theorem first_nonempty_stage_wins
  (backend : Backend) (question pdfId : string) (qe : list float) :
  (forall docs t0,
      vectorStage backend pdfId qe = (Ok docs, t0) -> docs <> [] ->
      retrieve backend question pdfId qe = (Ok (Retrieved docs), t0)
      /\ Forall (stage0Call pdfId qe) t0)
  /\
  (forall t0 tg docs t,
      vectorStage backend pdfId qe = (Ok [], t0) ->
      relevanceGate backend question pdfId = (Ok false, tg) ->
      runStage backend (triggeredStage (toLowerCase question)) question pdfId
      = (Ok docs, t) ->
      docs <> [] ->
      retrieve backend question pdfId qe = (Ok (Retrieved docs), t0 ++ tg ++ t)
      /\ Forall findCall t)
  /\
  (forall composeTemplate body lastMessage docCount docs t0,
      Route.pdfId body = pdfId ->
      lastElement (messagesOf body) = Some lastMessage ->
      ChatMessage.content lastMessage = Some question ->
      question <> "" ->
      connect backend = Ok tt ->
      countDocuments backend (FFileId pdfId) = Ok docCount ->
      docCount <> 0 ->
      embedQuery backend question = Ok qe ->
      vectorStage backend pdfId qe = (Ok docs, t0) ->
      docs <> [] ->
      snd (POST backend composeTemplate body)
      = [Connect; CountDocuments (FFileId pdfId); EmbedQuery question]
        ++ t0 ++ [Close])
  /\
  (forall t0 tg t sampleDocs,
      vectorStage backend pdfId qe = (Ok [], t0) ->
      relevanceGate backend question pdfId = (Ok false, tg) ->
      runStage backend (triggeredStage (toLowerCase question)) question pdfId
      = (Ok [], t) ->
      aggregate backend (samplePipeline pdfId) = Ok sampleDocs ->
      retrieve backend question pdfId qe
      = (Ok (Retrieved sampleDocs),
         t0 ++ tg ++ t ++ [Aggregate (samplePipeline pdfId)])
      /\ Forall findCall t).
Proof.
  split; [| split; [| split]].
  - intros docs t0 Hv Hne. split.
    + exact (retrieve_stage0_wins backend question pdfId qe docs t0 Hv Hne).
    + destruct (vectorStage_runs backend pdfId qe) as [_ (rest & Ht & Hrest)].
      rewrite Hv in Ht. cbn [snd] in Ht. subst t0.
      constructor; [left; reflexivity | exact Hrest].
  - intros t0 tg docs t Hv Hg Hs Hne. split.
    + rewrite (retrieve_after_gate backend question pdfId qe t0 tg Hv Hg).
      rewrite fallbackStrategies_dispatch, Hs.
      destruct docs as [| d docs']; [contradiction Hne; reflexivity |].
      cbn. rewrite !app_nil_r. reflexivity.
    + pose proof (runStage_calls backend (triggeredStage (toLowerCase question))
                    question pdfId) as Hc.
      rewrite Hs in Hc. exact Hc.
  - intros composeTemplate body lastMessage docCount docs t0 Hid. subst pdfId.
    apply POST_calls_when_stage0_wins.
  - intros t0 tg t sampleDocs Hv Hg Hs Hsample. split.
    + rewrite (retrieve_after_gate backend question pdfId qe t0 tg Hv Hg).
      rewrite fallbackStrategies_dispatch, Hs.
      cbn [bind fst snd List.length Nat.eqb].
      unfold diversitySample, collectionAggregate, perform. rewrite Hsample.
      cbn [bind ret fst snd]. rewrite !app_nil_r. reflexivity.
    + pose proof (runStage_calls backend (triggeredStage (toLowerCase question))
                    question pdfId) as Hc.
      rewrite Hs in Hc. exact Hc.
Qed.

(** Instances of the four parts: a chunk that scores 0.9 ends the cascade
    at Stage 0; "explain the photon energy" is settled by the keyword query
    of Stage 3; the whole request of the first case makes five calls; and
    "list the chapters" on a handbook without headings goes from the two
    queries of Stage 1 to the sample. *)
Lemma first_nonempty_stage_wins_witness :
  (retrieve (backend indexed) "how many electrons does helium have" "A"
            [1%float]
   = (Ok (Retrieved
            [MongoDocument.mk (Some "Helium has two electrons.") None None None
               (Some "A.pdf") None (Some "A") (Some score09) None]),
      [Aggregate (vectorSearchPipeline "A" [1%float])])
   /\ Forall (stage0Call "A" [1%float])
             [Aggregate (vectorSearchPipeline "A" [1%float])])
  /\ (retrieve (backend physics) "explain the photon energy" "A" [1%float]
      = (Ok (Retrieved [chunk "A" "The photon scatters off the electron."]),
         [Aggregate (vectorSearchPipeline "A" [1%float])]
         ++ [Find (FFileId "A") 3]
         ++ [Find (keywordQuery "A" ["photon"; "energy"]) 20])
      /\ Forall findCall [Find (keywordQuery "A" ["photon"; "energy"]) 20])
  /\ snd (POST (backend indexed) quoteContext
               (ask "A" "how many electrons does helium have"))
     = [Connect; CountDocuments (FFileId "A");
        EmbedQuery "how many electrons does helium have"]
       ++ [Aggregate (vectorSearchPipeline "A" [1%float])] ++ [Close]
  /\ (retrieve (backend Scenarios.handbook) "list the chapters" "H" [1%float]
      = (Ok (Retrieved (collection Scenarios.handbook)),
         [Aggregate (vectorSearchPipeline "H" [1%float])]
         ++ []
         ++ [Find (structureQuery "H") 10; Find (headingQuery "H") 10]
         ++ [Aggregate (samplePipeline "H")])
      /\ Forall findCall
                [Find (structureQuery "H") 10; Find (headingQuery "H") 10]).
Proof.
  split; [| split; [| split]].
  - apply (proj1 (first_nonempty_stage_wins (backend indexed)
                    "how many electrons does helium have" "A" [1%float])).
    + vm_compute. reflexivity.
    + discriminate.
  - apply (proj1 (proj2 (first_nonempty_stage_wins (backend physics)
                           "explain the photon energy" "A" [1%float]))).
    + vm_compute. reflexivity.
    + vm_compute. reflexivity.
    + vm_compute. reflexivity.
    + discriminate.
  - apply (proj1 (proj2 (proj2 (first_nonempty_stage_wins (backend indexed)
                           "how many electrons does helium have" "A" [1%float])))
             quoteContext (ask "A" "how many electrons does helium have")
             (ChatMessage.mk "user" (Some "how many electrons does helium have"))
             2
             [MongoDocument.mk (Some "Helium has two electrons.") None None None
                (Some "A.pdf") None (Some "A") (Some score09) None]).
    + reflexivity.
    + reflexivity.
    + reflexivity.
    + discriminate.
    + reflexivity.
    + reflexivity.
    + discriminate.
    + reflexivity.
    + vm_compute. reflexivity.
    + discriminate.
  - apply (proj2 (proj2 (proj2 (first_nonempty_stage_wins
                                  (backend Scenarios.handbook)
                                  "list the chapters" "H" [1%float])))).
    + vm_compute. reflexivity.
    + vm_compute. reflexivity.
    + vm_compute. reflexivity.
    + vm_compute. reflexivity.
Defined.

(** C6, as first stated, fails. "list chapter detail pdf" has the listing
    shape and the detail shape. On the handbook Stage 1 finds nothing;
    Stage 2, run on its own, finds the introduction; yet the cascade never
    issues the overview query: after the two queries of Stage 1 it takes
    the sample, and the result is the sample, not the introduction alone. *)
Lemma detail_stage_skipped_after_listing :
  isListingRequest (toLowerCase "list chapter detail pdf") = true
  /\ isDetailRequest (toLowerCase "list chapter detail pdf") = true
  /\ runStage (backend Scenarios.handbook) 2 "list chapter detail pdf" "H"
     = (Ok [chunk "H" (padTo 250 "Introduction and overview of the course.")],
        [Find (overviewQuery "H") 10])
  /\ retrieve (backend Scenarios.handbook) "list chapter detail pdf" "H"
              [1%float]
     = (Ok (Retrieved
              [chunk "H" (padTo 250 "Introduction and overview of the course.");
               chunk "H" (padTo 250 "Helium has two electrons.")]),
        [Aggregate (vectorSearchPipeline "H" [1%float]);
         Find (structureQuery "H") 10; Find (headingQuery "H") 10;
         Aggregate (samplePipeline "H")]).
Proof. repeat split; vm_compute; reflexivity. Qed.

(** ** Stage 3 without keywords (lines 351-359, 455-466) *)

Lemma stopWord_detected (w : string) :
  In w stopWords -> existsb (String.eqb w) stopWords = true.
Proof.
  intros H. apply existsb_exists. exists w. split; [exact H | apply String.eqb_refl].
Qed.

Lemma no_meaningful_keywords (questionLower : string) :
  Forall (fun w => String.length w <= 3 \/ In w stopWords)
         (splitSpace questionLower) ->
  meaningfulKeywordsOf questionLower = [].
Proof.
  intros H. unfold meaningfulKeywordsOf. apply filter_none.
  eapply Forall_impl; [| exact H]. intros w [Hlen | Hstop].
  - apply Nat.ltb_ge in Hlen. rewrite Hlen. reflexivity.
  - rewrite (stopWord_detected w Hstop). apply andb_false_r.
Qed.

Lemma short_or_stop_words (words : list string) :
  forallb (fun w => (String.length w <=? 3) || existsb (String.eqb w) stopWords)
          words = true ->
  Forall (fun w => String.length w <= 3 \/ In w stopWords) words.
Proof.
  intros H. apply Forall_forall. intros w Hw.
  rewrite forallb_forall in H. specialize (H w Hw).
  apply orb_true_iff in H as [H | H].
  - left. apply Nat.leb_le. exact H.
  - right. apply existsb_exists in H as (x & Hx & Heq).
    apply String.eqb_eq in Heq. subst x. exact Hx.
Qed.

(** C10. A question that reaches Stage 3 (Stage 0 found nothing, the gate
    let it pass, Stages 1 and 2 are not selected) and all of whose
    lower-cased words are at most 3 characters long or stop words issues no
    keyword query; the cascade then makes the single call
    [aggregate([{$match: {fileId}}, {$sample: {size: 8}}])] and returns what
    that sample returns. *)
Theorem no_keywords_falls_to_sample
  (backend : Backend) (question pdfId : string) (qe : list float)
  (t0 tg : list Event) :
  vectorStage backend pdfId qe = (Ok [], t0) ->
  relevanceGate backend question pdfId = (Ok false, tg) ->
  triggeredStage (toLowerCase question) = 3 ->
  Forall (fun w => String.length w <= 3 \/ In w stopWords)
         (splitSpace (toLowerCase question)) ->
  keywordSearch backend (toLowerCase question) pdfId = (Ok [], [])
  /\ retrieve backend question pdfId qe
     = (match aggregate backend [Match (FFileId pdfId); Sample 8] with
        | Ok sampleDocs => Ok (Retrieved sampleDocs)
        | Throw e => Throw e
        end,
        t0 ++ tg ++ [Aggregate [Match (FFileId pdfId); Sample 8]]).
Proof.
  intros Hv Hg Hstage Hwords.
  assert (Hk : keywordSearch backend (toLowerCase question) pdfId = (Ok [], [])).
  { unfold keywordSearch. rewrite (no_meaningful_keywords _ Hwords). reflexivity. }
  split; [exact Hk |].
  rewrite (retrieve_after_gate backend question pdfId qe t0 tg Hv Hg).
  rewrite fallbackStrategies_dispatch, Hstage. cbn [runStage]. rewrite Hk.
  unfold diversitySample, collectionAggregate, perform, samplePipeline.
  cbn [bind fst snd List.length Nat.eqb app].
  destruct (aggregate backend [Match (FFileId pdfId); Sample 8]); reflexivity.
Qed.

(** An instance: "tell me about that" consists of stop words and short
    words only. *)
Lemma no_keywords_falls_to_sample_witness :
  keywordSearch (backend physics) (toLowerCase "tell me about that") "A"
  = (Ok [], [])
  /\ retrieve (backend physics) "tell me about that" "A" [1%float]
     = (Ok (Retrieved (collection physics)),
        [Aggregate (vectorSearchPipeline "A" [1%float])] ++ [] ++
        [Aggregate [Match (FFileId "A"); Sample 8]]).
Proof.
  apply (no_keywords_falls_to_sample (backend physics) "tell me about that" "A"
           [1%float] [Aggregate (vectorSearchPipeline "A" [1%float])] []).
  - vm_compute. reflexivity.
  - vm_compute. reflexivity.
  - vm_compute. reflexivity.
  - apply short_or_stop_words. vm_compute. reflexivity.
Defined.

(** ** The ranking of Stage 3 (lines 375-415) *)

(** A sort by a comparator that agrees with a transitive relation [R]
    leaves the list ordered by [R]. *)
Section StableSort.

Variables (A : Type) (cmp : A -> A -> Z) (R : A -> A -> Prop).

Hypothesis R_trans : forall x y z, R x y -> R y z -> R x z.
Hypothesis cmp_neg : forall x y, (cmp x y < 0)%Z -> R x y.
Hypothesis cmp_nonneg : forall x y, (0 <= cmp x y)%Z -> R y x.

Lemma insertSorted_In x y l : In y (insertSorted cmp x l) -> y = x \/ In y l.
Proof.
  induction l as [| z l IH]; cbn [insertSorted].
  - intros [<- | []]. left; reflexivity.
  - destruct (cmp x z <? 0)%Z.
    + intros [<- | H]; [left; reflexivity | right; exact H].
    + intros [<- | H]; [right; left; reflexivity |].
      destruct (IH H) as [-> | Hin]; [left; reflexivity | right; right; exact Hin].
Qed.

Lemma insertSorted_sorted x l :
  StronglySorted R l -> StronglySorted R (insertSorted cmp x l).
Proof.
  induction 1 as [| z l Hsorted IH Hz]; cbn [insertSorted].
  - repeat constructor.
  - destruct (Z.ltb_spec (cmp x z) 0) as [Hlt | Hge].
    + constructor; [constructor; assumption |].
      constructor; [apply cmp_neg; exact Hlt |].
      eapply Forall_impl; [| exact Hz].
      intros y Hy. eapply R_trans; [apply cmp_neg; exact Hlt | exact Hy].
    + constructor; [exact IH |].
      apply Forall_forall. intros y Hy.
      apply insertSorted_In in Hy as [-> | Hin].
      * apply cmp_nonneg. exact Hge.
      * rewrite Forall_forall in Hz. apply Hz. exact Hin.
Qed.

Lemma sortBy_sorted l : StronglySorted R (sortBy cmp l).
Proof.
  unfold sortBy.
  assert (H : forall acc, StronglySorted R acc ->
                          StronglySorted R
                            (fold_left (fun acc x => insertSorted cmp x acc) l acc)).
  { induction l as [| x l IH]; intros acc Hacc; cbn [fold_left];
      [exact Hacc | apply IH, insertSorted_sorted, Hacc]. }
  apply H. constructor.
Qed.

Lemma firstn_sorted n l : StronglySorted R l -> StronglySorted R (firstn n l).
Proof.
  intros H. revert n. induction H as [| x l Hsorted IH Hx]; intros [| n];
    cbn [firstn]; try constructor.
  - apply IH.
  - apply Forall_forall. intros y Hy. rewrite Forall_forall in Hx.
    apply Hx. rewrite <- (firstn_skipn n l). apply in_or_app. left. exact Hy.
Qed.

End StableSort.

Lemma lengthScore_range doc : lengthScore doc = 0%Z \/ lengthScore doc = 1%Z.
Proof. unfold lengthScore. destruct (_ && _); auto. Qed.

Lemma rankedBefore_trans kws x y z :
  rankedBefore kws x y -> rankedBefore kws y z -> rankedBefore kws x z.
Proof. unfold rankedBefore. lia. Qed.

Lemma keywordCompare_neg kws x y :
  (keywordCompare kws x y < 0)%Z -> rankedBefore kws x y.
Proof.
  unfold keywordCompare, rankedBefore.
  destruct (Z.eqb_spec (Z.of_nat (matchCount kws y)) (Z.of_nat (matchCount kws x)));
    cbn [negb]; lia.
Qed.

Lemma keywordCompare_nonneg kws x y :
  (0 <= keywordCompare kws x y)%Z -> rankedBefore kws y x.
Proof.
  unfold keywordCompare, rankedBefore.
  destruct (Z.eqb_spec (Z.of_nat (matchCount kws y)) (Z.of_nat (matchCount kws x)));
    cbn [negb]; lia.
Qed.

Lemma rankKeywordDocs_sorted kws allDocs :
  StronglySorted (rankedBefore kws) (rankKeywordDocs kws allDocs).
Proof.
  unfold rankKeywordDocs.
  apply firstn_sorted, sortBy_sorted.
  - apply rankedBefore_trans.
  - apply keywordCompare_neg.
  - apply keywordCompare_nonneg.
Qed.





Lemma insertSorted_perm {A : Type} (cmp : A -> A -> Z) (x : A) (l : list A) :
  Permutation (x :: l) (insertSorted cmp x l).
Proof.
  induction l as [| y l IH]; cbn [insertSorted]; [reflexivity |].
  destruct (cmp x y <? 0)%Z; [reflexivity |].
  rewrite perm_swap. constructor. exact IH.
Qed.

Lemma sortBy_perm {A : Type} (cmp : A -> A -> Z) (l : list A) :
  Permutation l (sortBy cmp l).
Proof.
  unfold sortBy.
  assert (H : forall acc,
             Permutation (acc ++ l)
               (fold_left (fun acc x => insertSorted cmp x acc) l acc)).
  { induction l as [| x l IH]; intros acc; cbn [fold_left].
    - rewrite app_nil_r. reflexivity.
    - rewrite <- IH. rewrite <- insertSorted_perm.
      symmetry. apply Permutation_middle. }
  exact (H []).
Qed.

Lemma filter_split {A : Type} (f : A -> bool) (l : list A) :
  Permutation (filter f l ++ filter (fun x => negb (f x)) l) l.
Proof.
  induction l as [| x l IH]; [reflexivity |].
  cbn [filter]. destruct (f x); cbn [negb app].
  - constructor. exact IH.
  - rewrite <- Permutation_middle. constructor. exact IH.
Qed.












(** ** Re-ingestion (vectorStore.ts, lines 27-50) *)

Import VectorStore.

Section Reingestion.

Variable embedText : string -> result (list float).

Lemma chunkArrayWithin_concat {A : Type} (n fuel : nat) (arr : list A) :
  0 < n -> List.length arr <= fuel ->
  List.concat (chunkArrayWithin fuel n arr) = arr.
Proof.
  intros Hn. revert arr.
  induction fuel as [| fuel IH]; intros arr Hlen.
  - destruct arr; [reflexivity | cbn [List.length] in Hlen; lia].
  - destruct arr as [| x arr]; [reflexivity |].
    cbn [chunkArrayWithin List.concat].
    rewrite IH; [apply firstn_skipn |].
    rewrite length_skipn. cbn [List.length] in *. lia.
Qed.

Lemma chunkArrayWithin_Forall {A : Type} (P : A -> Prop) (n fuel : nat)
  (arr : list A) :
  Forall P arr -> Forall (Forall P) (chunkArrayWithin fuel n arr).
Proof.
  revert arr. induction fuel as [| fuel IH]; intros arr Hall;
    [destruct arr; constructor |].
  destruct arr as [| x arr]; [constructor |].
  cbn [chunkArrayWithin].
  rewrite <- (firstn_skipn n (x :: arr)) in Hall.
  apply Forall_app in Hall as [Hfirst Hrest].
  constructor; [exact Hfirst | apply IH; exact Hrest].
Qed.

Lemma batchEmbedContents_fulfilled (batch : list string) :
  Forall (fun t => exists v, embedText t = Ok v) batch ->
  batchEmbedContents embedText batch
  = Ok (map (Statements.storedVector embedText) batch).
Proof.
  induction 1 as [| t batch [v Hv] _ IH]; cbn [batchEmbedContents map];
    [reflexivity |].
  unfold Statements.storedVector at 1. rewrite Hv, IH. reflexivity.
Qed.

(** A batch whose texts all embed, or all fail, contributes the service's
    vectors, or the empty vectors. *)
Lemma settledBatch_alike (batch : list string) :
  Forall (fun t => exists v, embedText t = Ok v) batch
  \/ Forall (fun t => exists e, embedText t = Throw e) batch ->
  settledBatch embedText batch
  = map (Statements.storedVector embedText) batch.
Proof.
  unfold settledBatch. intros [Hok | Hfail].
  - rewrite batchEmbedContents_fulfilled by exact Hok. reflexivity.
  - destruct Hfail as [| t batch [e He] Hrest]; [reflexivity |].
    cbn [batchEmbedContents]. rewrite He.
    cbn [List.length repeat map]. unfold Statements.storedVector at 1.
    rewrite He. f_equal.
    clear t e He. induction Hrest as [| t batch [e He] _ IH]; [reflexivity |].
    cbn [List.length repeat map]. unfold Statements.storedVector at 1.
    rewrite He, IH. reflexivity.
Qed.

Lemma embedDocuments_alike (texts : list string) :
  Forall (fun t => exists v, embedText t = Ok v) texts
  \/ Forall (fun t => exists e, embedText t = Throw e) texts ->
  embedDocuments embedText texts
  = Ok (map (Statements.storedVector embedText) texts).
Proof.
  intros Halike. unfold embedDocuments, chunkArray. f_equal.
  rewrite flat_map_concat_map.
  rewrite (map_ext_Forall (settledBatch embedText)
             (map (Statements.storedVector embedText))).
  - rewrite <- concat_map, chunkArrayWithin_concat;
      [reflexivity | unfold maxBatchSize; lia | lia].
  - destruct Halike as [Hok | Hfail].
    + eapply Forall_impl;
        [| exact (chunkArrayWithin_Forall _ maxBatchSize _ texts Hok)].
      intros batch Hbatch. apply settledBatch_alike. left. exact Hbatch.
    + eapply Forall_impl;
        [| exact (chunkArrayWithin_Forall _ maxBatchSize _ texts Hfail)].
      intros batch Hbatch. apply settledBatch_alike. right. exact Hbatch.
Qed.

Lemma embedDocuments_succeeds (texts : list string) :
  Forall (fun t => exists v, embedText t = Ok v) texts ->
  exists vectors,
    embedDocuments embedText texts = Ok vectors
    /\ List.length vectors = List.length texts.
Proof.
  intros Hok. exists (map (Statements.storedVector embedText) texts).
  split; [apply embedDocuments_alike; left; exact Hok | apply length_map].
Qed.

Lemma chunksOf_app id (c c' : Collection) :
  chunksOf id (c ++ c') = chunksOf id c ++ chunksOf id c'.
Proof. apply filter_app. Qed.

Lemma chunksOf_deleteMany id (c : Collection) : chunksOf id (deleteMany id c) = [].
Proof.
  unfold chunksOf, deleteMany. induction c as [| doc c IH]; [reflexivity |].
  cbn [filter]. destruct (fileIdIs id doc) eqn:Hd; cbn [negb filter].
  - exact IH.
  - rewrite Hd. exact IH.
Qed.

Lemma chunksOf_deleteMany_other id id' (c : Collection) :
  id' <> id -> chunksOf id' (deleteMany id c) = chunksOf id' c.
Proof.
  intros Hne. unfold chunksOf, deleteMany.
  induction c as [| doc c IH]; [reflexivity |].
  cbn [filter]. destruct (fileIdIs id doc) eqn:Hd; cbn [negb filter].
  - assert (Hd' : fileIdIs id' doc = false).
    { unfold fileIdIs in *. destruct (MongoDocument.fileId doc) as [x |];
        [| reflexivity].
      apply String.eqb_eq in Hd. subst x. apply String.eqb_neq.
      intros H. apply Hne. symmetry. exact H. }
    rewrite Hd'. exact IH.
  - destruct (fileIdIs id' doc); [f_equal |]; exact IH.
Qed.

Lemma chunksOf_none id (c : Collection) :
  countDocuments id c = 0 -> chunksOf id c = [].
Proof. unfold countDocuments, chunksOf. apply length_zero_iff_nil. Qed.

Lemma chunksOf_stored id (vectors : list (list float)) (docs : list Document.t) :
  Forall (fun doc => Metadata.fileId (Document.metadata doc) = Some id) docs ->
  chunksOf id (map (fun vd => storedChunk (fst vd) (snd vd)) (combine vectors docs))
  = map (fun vd => storedChunk (fst vd) (snd vd)) (combine vectors docs).
Proof.
  intros Hall. revert vectors.
  induction Hall as [| doc docs Hid _ IH]; intros [| v vectors];
    try reflexivity.
  cbn [combine map]. unfold chunksOf in *. cbn [filter].
  unfold fileIdIs at 1. cbn [storedChunk MongoDocument.fileId fst snd].
  rewrite Hid, String.eqb_refl. f_equal. apply IH.
Qed.

Lemma chunksOf_stored_other id id' (vectors : list (list float))
  (docs : list Document.t) :
  id' <> id ->
  Forall (fun doc => Metadata.fileId (Document.metadata doc) = Some id) docs ->
  chunksOf id' (map (fun vd => storedChunk (fst vd) (snd vd))
                    (combine vectors docs)) = [].
Proof.
  intros Hne Hall. revert vectors.
  induction Hall as [| doc docs Hid _ IH]; intros [| v vectors];
    try reflexivity.
  cbn [combine map]. unfold chunksOf in *. cbn [filter].
  unfold fileIdIs at 1. cbn [storedChunk MongoDocument.fileId fst snd].
  rewrite Hid.
  destruct (String.eqb_spec id id') as [Heq | _];
    [contradiction Hne; symmetry; exact Heq |].
  apply IH.
Qed.

(** C8. Ingest any batch, then ingest a second, non-empty batch whose
    chunks all carry the non-empty file id [id] and whose texts the
    embedding service accepts. The second ingestion succeeds; the chunks the
    collection then holds for [id] are exactly the stored forms of the
    second batch, in order; their number is the size of the second batch;
    and the chunks of every other file are as the first ingestion left
    them. *)
Theorem reingestion_replaces_chunks
  (id : string) (docs1 docs2 : list Document.t) (c0 : Collection) :
  id <> "" ->
  docs2 <> [] ->
  Forall (fun doc => Metadata.fileId (Document.metadata doc) = Some id) docs2 ->
  Forall (fun doc => exists v, embedText (Document.pageContent doc) = Ok v) docs2 ->
  let c1 := snd (embedAndStoreDocs embedText docs1 c0) in
  let c2 := snd (embedAndStoreDocs embedText docs2 c1) in
  fst (embedAndStoreDocs embedText docs2 c1) = Ok tt
  /\ (exists vectors,
        embedDocuments embedText (map Document.pageContent docs2) = Ok vectors
        /\ chunksOf id c2
           = map (fun vd => storedChunk (fst vd) (snd vd)) (combine vectors docs2))
  /\ countDocuments id c2 = List.length docs2
  /\ (forall id', id' <> id -> chunksOf id' c2 = chunksOf id' c1).
Proof.
  intros Hid Hne Hall Hembed c1 c2.
  assert (Hfirst : match docs2 with
                   | firstDoc :: _ => Metadata.fileId (Document.metadata firstDoc)
                   | [] => None
                   end = Some id).
  { destruct Hall as [| firstDoc rest Hfirst _];
      [contradiction Hne; reflexivity | exact Hfirst]. }
  assert (Htruthy : truthy id = true).
  { destruct id; [contradiction Hid; reflexivity | reflexivity]. }
  destruct (embedDocuments_succeeds (map Document.pageContent docs2))
    as (vectors & Hvec & Hlen).
  { apply Forall_map. exact Hembed. }
  rewrite length_map in Hlen.
  set (c1' := if 0 <? countDocuments id c1 then deleteMany id c1 else c1).
  assert (Hrun : embedAndStoreDocs embedText docs2 c1
                 = (Ok tt,
                    insertMany (map (fun vd => storedChunk (fst vd) (snd vd))
                                    (combine vectors docs2)) c1')).
  { unfold embedAndStoreDocs. rewrite Hfirst, Htruthy.
    cbv zeta. fold c1'. unfold fromDocuments. rewrite Hvec. reflexivity. }
  assert (Hgone : chunksOf id c1' = []).
  { unfold c1'. destruct (0 <? countDocuments id c1) eqn:Hcount.
    - apply chunksOf_deleteMany.
    - apply chunksOf_none. apply Nat.ltb_ge in Hcount. lia. }
  assert (Hkept : forall id', id' <> id -> chunksOf id' c1' = chunksOf id' c1).
  { intros id' Hne'. unfold c1'. destruct (0 <? countDocuments id c1);
      [apply chunksOf_deleteMany_other; exact Hne' | reflexivity]. }
  assert (Hchunks : chunksOf id c2
                    = map (fun vd => storedChunk (fst vd) (snd vd))
                          (combine vectors docs2)).
  { unfold c2. rewrite Hrun. cbn [snd]. unfold insertMany.
    rewrite chunksOf_app, Hgone, chunksOf_stored by exact Hall. reflexivity. }
  split; [rewrite Hrun; reflexivity |].
  split; [exists vectors; split; [exact Hvec | exact Hchunks] |].
  split.
  - unfold countDocuments. fold (chunksOf id c2). rewrite Hchunks.
    rewrite length_map, length_combine, Hlen. apply Nat.min_id.
  - intros id' Hne'. unfold c2. rewrite Hrun. cbn [snd]. unfold insertMany.
    rewrite chunksOf_app, (chunksOf_stored_other id id') by assumption.
    rewrite app_nil_r. apply Hkept. exact Hne'.
Qed.

End Reingestion.

(** An instance: two chunks of file A replaced by one. *)
Lemma reingestion_replaces_chunks_witness :
  countDocuments "A"
    (snd (embedAndStoreDocs alwaysEmbeds [pdfChunk "A" "three"]
            (snd (embedAndStoreDocs alwaysEmbeds
                    [pdfChunk "A" "one"; pdfChunk "A" "two"] []))))
  = 1.
Proof.
  assert (Hid : "A" <> "") by discriminate.
  assert (Hne : [pdfChunk "A" "three"] <> []) by discriminate.
  assert (Hall : Forall (fun doc => Metadata.fileId (Document.metadata doc)
                                     = Some "A") [pdfChunk "A" "three"]).
  { repeat constructor. }
  assert (Hembed : Forall (fun doc => exists v,
                               alwaysEmbeds (Document.pageContent doc) = Ok v)
                          [pdfChunk "A" "three"]).
  { repeat constructor. exists [1%float]. reflexivity. }
  exact (proj1 (proj2 (proj2
           (reingestion_replaces_chunks alwaysEmbeds "A"
              [pdfChunk "A" "one"; pdfChunk "A" "two"] [pdfChunk "A" "three"] []
              Hid Hne Hall Hembed)))).
Defined.

(** * Further properties

    The rest of the chat endpoint, the edges of the ingestion, and the
    callers of both: the upload route, the command-line ingestion, the chat
    panel, the history parser of the chat chain and the simple search. *)

Import JsText LangChain Statements Scenarios.

(** ** More on running computations *)

Lemma bind_throw_inv {A B : Type} (m : M A) (k : A -> M B) (e : string)
  (t : list Event) :
  bind m k = (Throw e, t) ->
  m = (Throw e, t)
  \/ exists a t1 t2, m = (Ok a, t1) /\ k a = (Throw e, t2) /\ t = t1 ++ t2.
Proof.
  destruct m as [[a | e'] t1]; cbn [bind].
  - intros H. right. exists a, t1, (snd (k a)).
    injection H as Hr Ht. rewrite <- Hr, <- Ht.
    repeat split. apply run_eta.
  - intros H. left. injection H as -> ->. reflexivity.
Qed.

Lemma bind_calls {A B : Type} (m : M A) (k : A -> M B) (P : Event -> Prop) :
  Forall P (snd m) -> (forall a, Forall P (snd (k a))) ->
  Forall P (snd (bind m k)).
Proof.
  intros Hm Hk. destruct m as [[a | e] t]; cbn [bind snd] in *.
  - apply Forall_app. split; [exact Hm | apply Hk].
  - exact Hm.
Qed.

Lemma ret_calls {A : Type} (a : A) (P : Event -> Prop) : Forall P (snd (ret a)).
Proof. constructor. Qed.

(** ** The calls of the cascade *)

Lemma stage0Call_cascade pdfId qe e : stage0Call pdfId qe e -> cascadeCall e.
Proof. intros [-> | [-> | (i & _ & ->)]]; exact I. Qed.

Lemma findCall_cascade e : findCall e -> cascadeCall e.
Proof. intros (f & n & ->). exact I. Qed.

Lemma vectorStage_cascade backend pdfId qe :
  Forall cascadeCall (snd (vectorStage backend pdfId qe)).
Proof.
  destruct (vectorStage_runs backend pdfId qe) as [_ (rest & -> & Hrest)].
  constructor; [exact I |].
  eapply Forall_impl; [| exact Hrest]. apply stage0Call_cascade.
Qed.

Lemma relevanceGate_cascade backend question pdfId :
  Forall cascadeCall (snd (relevanceGate backend question pdfId)).
Proof.
  unfold relevanceGate. destruct (isGeneralPdfQuestion _); [constructor |].
  unfold collectionFind, perform, bind.
  destruct (find backend (FFileId pdfId) 3); cbn [snd fst ret app];
    repeat constructor.
Qed.

Lemma fallbackStrategies_cascade backend question pdfId :
  Forall cascadeCall (snd (fallbackStrategies backend question pdfId)).
Proof.
  rewrite fallbackStrategies_dispatch.
  eapply Forall_impl; [| apply runStage_calls]. apply findCall_cascade.
Qed.

Lemma diversitySample_cascade backend pdfId :
  Forall cascadeCall (snd (diversitySample backend pdfId)).
Proof. repeat constructor. Qed.

Lemma retrieve_cascade backend question pdfId qe :
  Forall cascadeCall (snd (retrieve backend question pdfId qe)).
Proof.
  unfold retrieve.
  apply bind_calls; [apply vectorStage_cascade | intros docs].
  apply bind_calls.
  { destruct (List.length docs =? 0);
      [apply relevanceGate_cascade | apply ret_calls]. }
  intros [|]; [apply ret_calls |].
  apply bind_calls.
  { destruct (List.length docs =? 0);
      [apply fallbackStrategies_cascade | apply ret_calls]. }
  intros docs1. apply bind_calls; [| intros; apply ret_calls].
  destruct (List.length docs1 =? 0);
    [apply diversitySample_cascade | apply ret_calls].
Qed.

Lemma cascadeCall_not_client e : cascadeCall e -> e <> Connect /\ e <> Close.
Proof. destruct e; cbn; intros H; try destruct H; split; discriminate. Qed.

Lemma compose_Ok_calls backend tmpl question docCount docs r t :
  compose backend tmpl question docCount docs = (r, t) -> t = [Close].
Proof.
  intros H. pose proof (compose_calls backend tmpl question docCount docs) as Hc.
  rewrite H in Hc. exact Hc.
Qed.

Lemma answerQuestion_answers backend tmpl question pdfId response calls :
  answerQuestion backend tmpl question pdfId = (Ok response, calls) ->
  exists answer sources, response = Answer answer sources.
Proof.
  unfold answerQuestion. intros Ha.
  apply bind_inv in Ha as (u & t1 & t2 & _ & Ha & _).
  apply bind_inv in Ha as (docCount & ? & ? & _ & Ha & _).
  destruct (docCount =? 0).
  - apply bind_inv in Ha as (? & ? & ? & _ & Ha & _).
    apply ret_inv in Ha as [<- _]. eexists _, _. reflexivity.
  - apply bind_inv in Ha as (qe & ? & ? & _ & Ha & _).
    apply bind_inv in Ha as (outcome & ? & ? & _ & Ha & _).
    destruct outcome.
    + apply bind_inv in Ha as (? & ? & ? & _ & Ha & _).
      apply ret_inv in Ha as [<- _]. eexists _, _. reflexivity.
    + unfold compose in Ha.
      apply bind_inv in Ha as (? & ? & ? & _ & Ha & _).
      destruct (String.length _ =? 0);
        apply ret_inv in Ha as [<- _]; eexists _, _; reflexivity.
Qed.

Lemma answerQuestion_throws_unclosed backend tmpl question pdfId e calls :
  close backend = Ok tt ->
  answerQuestion backend tmpl question pdfId = (Throw e, calls) ->
  (exists rest, calls = Connect :: rest) /\ ~ In Close calls.
Proof.
  intros Hclose Ha. unfold answerQuestion in Ha.
  apply bind_throw_inv in Ha as [Ha | (u & t1 & t2 & Hc & Ha & ->)].
  { unfold clientConnect, perform in Ha. injection Ha as _ <-.
    split; [exists []; reflexivity |]. intros [H | []]; discriminate H. }
  apply perform_inv in Hc as [_ ->].
  split; [eexists; reflexivity |].
  apply bind_throw_inv in Ha as [Ha | (docCount & t1 & t3 & Hn & Ha & ->)].
  { unfold collectionCountDocuments, perform in Ha. injection Ha as _ <-.
    intros [H | [H | []]]; discriminate H. }
  apply perform_inv in Hn as [_ ->].
  destruct (docCount =? 0).
  { apply bind_throw_inv in Ha as [Ha | (u' & t1 & t4 & Hcl & Ha & ->)].
    - unfold clientClose, perform in Ha. rewrite Hclose in Ha. discriminate Ha.
    - discriminate Ha. }
  apply bind_throw_inv in Ha as [Ha | (qe & t1 & t4 & He & Ha & ->)].
  { unfold embeddingsEmbedQuery, perform in Ha. injection Ha as _ <-.
    intros [H | [H | [H | []]]]; discriminate H. }
  apply perform_inv in He as [_ ->].
  assert (Hretr : forall r tr, retrieve backend question pdfId qe = (r, tr) ->
                               ~ In Close tr).
  { intros r tr Hr Hin.
    pose proof (retrieve_cascade backend question pdfId qe) as Hc.
    rewrite Hr in Hc. cbn [snd] in Hc. rewrite Forall_forall in Hc.
    exact (Hc Close Hin). }
  apply bind_throw_inv in Ha as [Ha | (outcome & tr & t5 & Hr & Ha & ->)].
  { intros [H | [H | [H | Hin]]]; try discriminate H.
    exact (Hretr _ _ Ha Hin). }
  exfalso. destruct outcome as [| docs].
  - apply bind_throw_inv in Ha as [Ha | (u' & t6 & t7 & Hcl & Ha & ->)].
    + unfold clientClose, perform in Ha. rewrite Hclose in Ha. discriminate Ha.
    + discriminate Ha.
  - unfold compose in Ha.
    apply bind_throw_inv in Ha as [Ha | (u' & t6 & t7 & Hcl & Ha & ->)].
    + unfold clientClose, perform in Ha. rewrite Hclose in Ha. discriminate Ha.
    + destruct (String.length _ =? 0); discriminate Ha.
Qed.

(** ** The request as a whole (route.ts, lines 50-608) *)

(** X1. A request with a question for a document without chunks is
    answered with the "no documents" text and no sources after three calls:
    the connection, the count and the closing of the client. The question
    is never embedded. *)
Theorem no_documents_skips_embedding
  (backend : Backend)
  (composeTemplate : string -> list MongoDocument.t -> nat -> string -> string)
  (body : Body) (lastMessage : ChatMessage.t) :
  lastElement (messagesOf body) = Some lastMessage ->
  questionOf lastMessage <> "" ->
  connect backend = Ok tt ->
  chunkCount backend (pdfId body) = Ok 0 ->
  close backend = Ok tt ->
  POST backend composeTemplate body
  = (Answer noDocumentsAnswer [],
     [Connect; CountDocuments (FFileId (pdfId body)); Close]).
Proof.
  intros Hlast Hq Hconn Hcount Hclose. unfold chunkCount in Hcount.
  unfold POST. rewrite Hlast.
  destruct (questionOf lastMessage) as [| c q] eqn:Hquestion;
    [contradiction Hq; reflexivity |].
  cbn [truthy negb].
  unfold answerQuestion, clientConnect, collectionCountDocuments, clientClose,
    perform.
  rewrite Hconn, Hcount, Hclose. reflexivity.
Qed.

(** An instance: a question about a file the store does not hold. *)
Lemma no_documents_skips_embedding_witness :
  POST (backend physics) quoteContext (ask "Z" "what is helium")
  = (Answer noDocumentsAnswer [],
     [Connect; CountDocuments (FFileId "Z"); Close]).
Proof.
  apply (no_documents_skips_embedding (backend physics) quoteContext
           (ask "Z" "what is helium")
           (ChatMessage.mk "user" (Some "what is helium")));
    try reflexivity; discriminate.
Defined.

(** X2. Every request that is answered (status 200) connected first,
    counted the chunks of the document next, and closed the client as its
    last call; between them there are neither connections nor closings. *)
Theorem answered_requests_close_once
  (backend : Backend)
  (composeTemplate : string -> list MongoDocument.t -> nat -> string -> string)
  (body : Body) (answer : string) (sources : list Source.t)
  (calls : list Event) :
  POST backend composeTemplate body = (Answer answer sources, calls) ->
  exists queries,
    calls = Connect :: CountDocuments (FFileId (pdfId body)) :: queries ++ [Close]
    /\ Forall (fun e => e <> Connect /\ e <> Close) queries.
Proof.
  unfold POST. intros H.
  destruct (lastElement (messagesOf body)) as [lastMessage |]; [| discriminate H].
  destruct (negb (truthy _)); [discriminate H |].
  destruct (answerQuestion _ _ _ _) as [[response | e] calls'] eqn:Ha;
    [| discriminate H].
  injection H as -> ->.
  unfold answerQuestion in Ha.
  apply bind_inv in Ha as (u & t1 & t2 & Hc & Ha & ->).
  apply perform_inv in Hc as [_ ->].
  apply bind_inv in Ha as (docCount & t1 & t3 & Hn & Ha & ->).
  apply perform_inv in Hn as [_ ->].
  destruct (docCount =? 0).
  - apply bind_inv in Ha as (u' & t1 & t4 & Hcl & Ha & ->).
    apply perform_inv in Hcl as [_ ->]. apply ret_inv in Ha as [_ ->].
    exists []. split; [reflexivity | constructor].
  - apply bind_inv in Ha as (qe & t1 & t4 & He & Ha & ->).
    apply perform_inv in He as [_ ->].
    apply bind_inv in Ha as (outcome & tr & t5 & Hr & Ha & ->).
    assert (Htr : Forall (fun e => e <> Connect /\ e <> Close) tr).
    { pose proof (retrieve_cascade backend (questionOf lastMessage)
                    (pdfId body) qe) as Hc.
      rewrite Hr in Hc. cbn [snd] in Hc.
      eapply Forall_impl; [| exact Hc]. apply cascadeCall_not_client. }
    assert (Hlast : t5 = [Close]).
    { destruct outcome as [| docs].
      - apply bind_inv in Ha as (u' & t6 & t7 & Hcl & Ha & ->).
        apply perform_inv in Hcl as [_ ->]. apply ret_inv in Ha as [_ ->].
        reflexivity.
      - eapply compose_Ok_calls. exact Ha. }
    subst t5.
    exists (EmbedQuery (questionOf lastMessage) :: tr). split; [reflexivity |].
    constructor; [split; discriminate | exact Htr].
Qed.

Lemma answered_requests_close_once_witness :
  exists queries,
    [Connect; CountDocuments (FFileId "A"); EmbedQuery "tell me about that";
     Aggregate (vectorSearchPipeline "A" [1%float]);
     Aggregate [Match (FFileId "A"); Sample 8]; Close]
    = Connect :: CountDocuments (FFileId "A") :: queries ++ [Close]
    /\ Forall (fun e => e <> Connect /\ e <> Close) queries.
Proof.
  apply (answered_requests_close_once (backend physics) quoteContext
           (ask "A" "tell me about that")
           (join (String.append newline newline)
              (map contentOf (collection physics)))
           (map toSource (collection physics))).
  vm_compute. reflexivity.
Defined.

(** X3. When closing the client itself cannot fail, a request that ends
    with status 500 carries the text "Internal Server Error", has connected
    and has never closed the client. *)
Theorem failed_requests_stay_connected
  (backend : Backend)
  (composeTemplate : string -> list MongoDocument.t -> nat -> string -> string)
  (body : Body) (error : string) (calls : list Event) :
  close backend = Ok tt ->
  POST backend composeTemplate body = (Error 500 error, calls) ->
  error = "Internal Server Error"
  /\ (exists rest, calls = Connect :: rest)
  /\ ~ In Close calls.
Proof.
  intros Hclose. unfold POST. intros H.
  destruct (lastElement (messagesOf body)) as [lastMessage |]; [| discriminate H].
  destruct (negb (truthy _)); [discriminate H |].
  destruct (answerQuestion _ _ _ _) as [[response | e] calls'] eqn:Ha.
  - injection H as -> ->.
    (* an answer computed by the handler is never an error object *)
    exfalso. unfold answerQuestion in Ha.
    apply bind_inv in Ha as (u & t1 & t2 & _ & Ha & _).
    apply bind_inv in Ha as (docCount & ? & ? & _ & Ha & _).
    destruct (docCount =? 0).
    + apply bind_inv in Ha as (? & ? & ? & _ & Ha & _).
      apply ret_inv in Ha as [Ha _]. discriminate Ha.
    + apply bind_inv in Ha as (qe & ? & ? & _ & Ha & _).
      apply bind_inv in Ha as (outcome & ? & ? & _ & Ha & _).
      destruct outcome.
      * apply bind_inv in Ha as (? & ? & ? & _ & Ha & _).
        apply ret_inv in Ha as [Ha _]. discriminate Ha.
      * unfold compose in Ha.
        apply bind_inv in Ha as (? & ? & ? & _ & Ha & _).
        destruct (String.length _ =? 0);
          apply ret_inv in Ha as [Ha _]; discriminate Ha.
  - assert (Herr : error = "Internal Server Error").
    { apply (f_equal (fun p => match fst p with
                               | Error _ m => m
                               | Answer _ _ => error
                               end)) in H. symmetry. exact H. }
    assert (Hcalls : calls' = calls).
    { exact (f_equal snd H). }
    subst calls'. split; [exact Herr |].
    eapply answerQuestion_throws_unclosed; eassumption.
Qed.

Lemma failed_requests_stay_connected_witness :
  "Internal Server Error" = "Internal Server Error"
  /\ (exists rest,
        [Connect; CountDocuments (FFileId "A"); EmbedQuery "what is helium"]
        = Connect :: rest)
  /\ ~ In Close
         [Connect; CountDocuments (FFileId "A"); EmbedQuery "what is helium"].
Proof.
  apply (failed_requests_stay_connected (backend physicsNoEmbedding)
           quoteContext (ask "A" "what is helium")).
  - reflexivity.
  - vm_compute. reflexivity.
Defined.

Lemma relevanceGate_sampled backend question pdfId sampleDocs :
  isGeneralPdfQuestion (toLowerCase question) = false ->
  find backend (FFileId pdfId) 3 = Ok sampleDocs ->
  relevanceGate backend question pdfId
  = (Ok (gateRejects (toLowerCase question)
           (toLowerCase (join " " (map textOf sampleDocs)))),
     [Find (FFileId pdfId) 3]).
Proof.
  intros Hgen Hfind. unfold relevanceGate, collectionFind, perform.
  rewrite Hgen, Hfind. reflexivity.
Qed.

Lemma retrieve_gate_rejects backend question pdfId qe t0 :
  vectorStage backend pdfId qe = (Ok [], t0) ->
  relevanceGate backend question pdfId = (Ok true, [Find (FFileId pdfId) 3]) ->
  retrieve backend question pdfId qe
  = (Ok Rejected, t0 ++ [Find (FFileId pdfId) 3]).
Proof.
  intros Hv Hg. unfold retrieve. rewrite Hv.
  cbn [bind fst snd List.length Nat.eqb]. rewrite Hg.
  cbn [bind fst snd ret app]. rewrite ?app_nil_r. reflexivity.
Qed.

(** X4. After an empty Stage 0 nothing is caught any more: an exception
    of the gate's sample query, of the query of the selected stage among
    1-3, or of the sample of Stage 4 is the outcome of the cascade, and the
    request is answered with status 500 after the calls made so far. *)
Theorem later_failures_are_fatal
  (backend : Backend) (question pdfId : string) (qe : list float)
  (t0 : list Event) (e : string) :
  vectorStage backend pdfId qe = (Ok [], t0) ->
  (forall tg,
      relevanceGate backend question pdfId = (Throw e, tg) ->
      retrieve backend question pdfId qe = (Throw e, t0 ++ tg))
  /\ (forall tg t,
        relevanceGate backend question pdfId = (Ok false, tg) ->
        runStage backend (triggeredStage (toLowerCase question)) question pdfId
        = (Throw e, t) ->
        retrieve backend question pdfId qe = (Throw e, t0 ++ tg ++ t))
  /\ (forall tg t,
        relevanceGate backend question pdfId = (Ok false, tg) ->
        runStage backend (triggeredStage (toLowerCase question)) question pdfId
        = (Ok [], t) ->
        aggregate backend [Match (FFileId pdfId); Sample 8] = Throw e ->
        retrieve backend question pdfId qe
        = (Throw e, t0 ++ tg ++ t ++ [Aggregate [Match (FFileId pdfId); Sample 8]]))
  /\ (forall composeTemplate body lastMessage docCount calls,
        Route.pdfId body = pdfId ->
        lastElement (messagesOf body) = Some lastMessage ->
        questionOf lastMessage = question ->
        question <> "" ->
        connect backend = Ok tt ->
        chunkCount backend pdfId = Ok docCount ->
        docCount <> 0 ->
        embedQuery backend question = Ok qe ->
        retrieve backend question pdfId qe = (Throw e, calls) ->
        POST backend composeTemplate body
        = (Error 500 "Internal Server Error",
           [Connect; CountDocuments (FFileId pdfId); EmbedQuery question]
           ++ calls)).
Proof.
  intros Hv. split; [| split; [| split]].
  - intros tg Hg. unfold retrieve. rewrite Hv.
    cbn [bind fst snd List.length Nat.eqb]. rewrite Hg. reflexivity.
  - intros tg t Hg Hs.
    rewrite (retrieve_after_gate backend question pdfId qe t0 tg Hv Hg).
    rewrite fallbackStrategies_dispatch, Hs. reflexivity.
  - intros tg t Hg Hs Hsample.
    rewrite (retrieve_after_gate backend question pdfId qe t0 tg Hv Hg).
    rewrite fallbackStrategies_dispatch, Hs.
    unfold diversitySample, collectionAggregate, perform, samplePipeline.
    rewrite Hsample. reflexivity.
  - intros composeTemplate body lastMessage docCount calls
      Hid Hlast Hquestion Hq Hconn Hcount Hn Hembed Hr.
    unfold chunkCount in Hcount.
    subst pdfId. unfold POST. rewrite Hlast, Hquestion.
    destruct question as [| c q']; [contradiction Hq; reflexivity |].
    cbn [truthy negb].
    unfold answerQuestion, clientConnect, collectionCountDocuments,
      embeddingsEmbedQuery, perform.
    rewrite Hconn, Hcount.
    destruct docCount as [| n]; [contradiction Hn; reflexivity |].
    cbn [Nat.eqb bind fst snd app]. rewrite Hembed.
    cbn [bind fst snd app]. rewrite Hr. reflexivity.
Qed.

Lemma later_failures_are_fatal_witness :
  retrieve keywordQueryFails "explain the photon energy" "A" [1%float]
  = (Throw "connection reset",
     [Aggregate (vectorSearchPipeline "A" [1%float])]
     ++ [Find (FFileId "A") 3]
     ++ [Find (keywordQuery "A" ["photon"; "energy"]) 20])
  /\ POST keywordQueryFails quoteContext (ask "A" "explain the photon energy")
     = (Error 500 "Internal Server Error",
        [Connect; CountDocuments (FFileId "A");
         EmbedQuery "explain the photon energy"]
        ++ [Aggregate (vectorSearchPipeline "A" [1%float]);
            Find (FFileId "A") 3;
            Find (keywordQuery "A" ["photon"; "energy"]) 20]).
Proof.
  pose proof (later_failures_are_fatal keywordQueryFails
                "explain the photon energy" "A" [1%float]
                [Aggregate (vectorSearchPipeline "A" [1%float])]
                "connection reset"
                ltac:(vm_compute; reflexivity)) as (_ & Hstage & _ & Hpost).
  split.
  - apply Hstage; vm_compute; reflexivity.
  - apply (Hpost quoteContext (ask "A" "explain the photon energy")
             (ChatMessage.mk "user" (Some "explain the photon energy")) 2);
      try reflexivity; discriminate.
Defined.

(** ** More on the relevance gate (lines 182-261) *)

Lemma isGeneralPdfQuestion_markers questionLower :
  isGeneralPdfQuestion questionLower
  = existsb (includes questionLower) generalMarkers.
Proof.
  unfold isGeneralPdfQuestion, generalMarkers. cbn [existsb].
  rewrite orb_false_r, !orb_assoc. reflexivity.
Qed.

(** X5. A question that contains one of the twelve general markers, in
    any letter case, passes the relevance gate without any query to the
    store, and the cascade never ends in a rejection. *)
Theorem general_question_passes_unsampled
  (backend : Backend) (question pdfId marker : string) :
  In marker generalMarkers ->
  includes (toLowerCase question) marker = true ->
  relevanceGate backend question pdfId = (Ok false, [])
  /\ (forall qe, fst (retrieve backend question pdfId qe) <> Ok Rejected).
Proof.
  intros Hin Hinc.
  assert (Hgen : isGeneralPdfQuestion (toLowerCase question) = true).
  { rewrite isGeneralPdfQuestion_markers. apply existsb_exists.
    exists marker. split; assumption. }
  assert (Hgate : relevanceGate backend question pdfId = (Ok false, [])).
  { unfold relevanceGate. rewrite Hgen. reflexivity. }
  split; [exact Hgate |].
  intros qe Hrej.
  destruct (retrieve backend question pdfId qe) as [r t] eqn:Hr.
  cbn [fst] in Hrej. subst r.
  apply retrieve_rejected in Hr as (t0 & _ & Hg & _).
  rewrite Hgate in Hg. discriminate Hg.
Qed.

(** An instance: a request for a summary. *)
Lemma general_question_passes_unsampled_witness :
  relevanceGate keywordQueryFails "Give me a SUMMARY of food" "A"
  = (Ok false, [])
  /\ (forall qe,
        fst (retrieve keywordQueryFails "Give me a SUMMARY of food" "A" qe)
        <> Ok Rejected).
Proof.
  apply (general_question_passes_unsampled keywordQueryFails
           "Give me a SUMMARY of food" "A" "summary").
  - vm_compute. auto 10.
  - vm_compute. reflexivity.
Defined.

(** X6. A question that is not a general one and matches one of the
    unrelated-topic patterns is turned away by the gate whatever the sample
    holds, also when its words overlap with the terms of the document; when
    Stage 0 found nothing the cascade ends in a rejection right after the
    sample query. *)
Theorem unrelated_pattern_rejects_despite_overlap
  (backend : Backend) (question pdfId : string)
  (sampleDocs : list MongoDocument.t) :
  isGeneralPdfQuestion (toLowerCase question) = false ->
  isObviouslyUnrelated (toLowerCase question) = true ->
  find backend (FFileId pdfId) 3 = Ok sampleDocs ->
  relevanceGate backend question pdfId = (Ok true, [Find (FFileId pdfId) 3])
  /\ (forall qe t0,
        vectorStage backend pdfId qe = (Ok [], t0) ->
        retrieve backend question pdfId qe
        = (Ok Rejected, t0 ++ [Find (FFileId pdfId) 3])).
Proof.
  intros Hgen Hpat Hfind.
  assert (Hg : relevanceGate backend question pdfId
               = (Ok true, [Find (FFileId pdfId) 3])).
  { rewrite (relevanceGate_sampled _ _ _ _ Hgen Hfind).
    unfold gateRejects. rewrite Hpat. reflexivity. }
  split; [exact Hg |].
  intros qe t0 Hv. apply retrieve_gate_rejects; assumption.
Qed.

Lemma unrelated_pattern_rejects_despite_overlap_witness :
  hasRelevantTerms
    (questionTermsOf (toLowerCase "photon energy application"))
    (documentTermsOf
       (toLowerCase (join " " (map textOf (collection physics))))) = true
  /\ relevanceGate (backend physics) "photon energy application" "A"
     = (Ok true, [Find (FFileId "A") 3]).
Proof.
  split; [vm_compute; reflexivity |].
  apply (proj1 (unrelated_pattern_rejects_despite_overlap (backend physics)
                  "photon energy application" "A" (collection physics)
                  ltac:(vm_compute; reflexivity)
                  ltac:(vm_compute; reflexivity)
                  ltac:(vm_compute; reflexivity))).
Defined.

(** X7. When the sampled chunks contain none of the thirteen built-in
    terms, the gate turns away every question that is not a general one and
    has a word longer than 3 characters. *)
Theorem unknown_vocabulary_rejects
  (backend : Backend) (question pdfId : string)
  (sampleDocs : list MongoDocument.t) (word : string) :
  isGeneralPdfQuestion (toLowerCase question) = false ->
  find backend (FFileId pdfId) 3 = Ok sampleDocs ->
  Forall (fun term =>
            includes (toLowerCase (join " " (map textOf sampleDocs))) term
            = false) commonTerms ->
  In word (splitSpace (toLowerCase question)) ->
  3 < String.length word ->
  relevanceGate backend question pdfId = (Ok true, [Find (FFileId pdfId) 3]).
Proof.
  intros Hgen Hfind Hnone Hin Hlen.
  rewrite (relevanceGate_sampled _ _ _ _ Hgen Hfind). f_equal. f_equal.
  unfold gateRejects.
  assert (Hterms : documentTermsOf
                     (toLowerCase (join " " (map textOf sampleDocs))) = []).
  { unfold documentTermsOf. apply filter_none. exact Hnone. }
  rewrite Hterms.
  assert (Hq : In word (questionTermsOf (toLowerCase question))).
  { unfold questionTermsOf. apply filter_In. split; [exact Hin |].
    apply Nat.ltb_lt. exact Hlen. }
  destruct (questionTermsOf (toLowerCase question)) as [| w ws] eqn:Hqt;
    [destruct Hq |].
  assert (Hrel : hasRelevantTerms (w :: ws) [] = false).
  { unfold hasRelevantTerms. clear. induction (w :: ws) as [| x l IH];
      [reflexivity | exact IH]. }
  rewrite Hrel. cbn [negb List.length Nat.ltb Nat.leb andb].
  apply orb_true_r.
Qed.

Lemma unknown_vocabulary_rejects_witness :
  relevanceGate (backend shared) "quarterly revenue growth" "B"
  = (Ok true, [Find (FFileId "B") 3]).
Proof.
  apply (unknown_vocabulary_rejects (backend shared)
           "quarterly revenue growth" "B"
           [chunk "B" "Quarterly revenue grew."; chunk "B" "Payroll records."]
           "revenue").
  - vm_compute. reflexivity.
  - vm_compute. reflexivity.
  - vm_compute. repeat constructor.
  - vm_compute. right. left. reflexivity.
  - vm_compute. repeat constructor.
Defined.

(** ** More on Stage 0 (lines 86-181) *)

Lemma applyThreshold_filter docs :
  applyThreshold docs
  = filter (fun doc => PrimFloat.leb scoreThreshold (scoreOf doc)) docs.
Proof.
  unfold applyThreshold.
  destruct (filter _ docs) as [| d rest] eqn:Hf.
  - match goal with |- (if ?c then _ else _) = _ => destruct c end; reflexivity.
  - reflexivity.
Qed.

(** X8. When the index "vector_index" returns at least one chunk, Stage 0
    consists of that single call and yields exactly the returned chunks
    whose score is at least 0.6, in the order returned; the alternative
    indexes are not tried, also when nothing passes the floor. A chunk
    without a score never passes. *)
Theorem primary_results_are_filtered
  (backend : Backend) (pdfId : string) (qe : list float)
  (docs : list MongoDocument.t) :
  aggregate backend (vectorSearchPipeline pdfId qe) = Ok docs ->
  docs <> [] ->
  vectorStage backend pdfId qe
  = (Ok (filter (fun doc => PrimFloat.leb scoreThreshold (scoreOf doc)) docs),
     [Aggregate (vectorSearchPipeline pdfId qe)])
  /\ (forall doc, MongoDocument.score doc = None ->
                  ~ In doc (filter (fun doc => PrimFloat.leb scoreThreshold
                                                 (scoreOf doc)) docs)).
Proof.
  intros Hagg Hne.
  split.
  - unfold vectorStage, collectionAggregate, perform, tryCatch, bind.
    rewrite Hagg. destruct docs as [| d rest]; [contradiction Hne; reflexivity |].
    cbn [List.length Nat.ltb Nat.leb fst snd ret app].
    rewrite applyThreshold_filter. reflexivity.
  - intros doc Hscore Hin. apply filter_In in Hin as [_ Hleb].
    unfold scoreOf in Hleb. rewrite Hscore in Hleb. discriminate Hleb.
Qed.

Lemma primary_results_are_filtered_witness :
  vectorStage (backend physics) "A" [1%float]
  = (Ok (filter (fun doc => PrimFloat.leb scoreThreshold (scoreOf doc))
           [MongoDocument.mk (Some "The photon scatters off the electron.")
              None None None (Some "A.pdf") None (Some "A") (Some score03) None;
            MongoDocument.mk (Some "Helium has two electrons.")
              None None None (Some "A.pdf") None (Some "A") (Some score02) None]),
     [Aggregate (vectorSearchPipeline "A" [1%float])]).
Proof.
  apply (proj1 (primary_results_are_filtered (backend physics) "A" [1%float] _
                  ltac:(vm_compute; reflexivity) ltac:(discriminate))).
Defined.

Lemma tryAlternativeIndexes_miss backend qe name rest :
  indexMisses backend qe name ->
  tryAlternativeIndexes backend (name :: rest) qe
  = (fst (tryAlternativeIndexes backend rest qe),
     Aggregate (altPipeline name qe)
     :: snd (tryAlternativeIndexes backend rest qe)).
Proof.
  intros [Hempty | [e Hthrow]]; cbn [tryAlternativeIndexes];
    unfold collectionAggregate, perform.
  - rewrite Hempty. reflexivity.
  - rewrite Hthrow. reflexivity.
Qed.

(** X9. The retries take the first alternative index, in the listed
    order, that returns a chunk: its answer is the result, as returned, and
    the calls are one aggregation per index up to and including that one.
    When every index finds nothing or throws, the result is empty after one
    call per index. *)
Theorem alternative_indexes_first_hit
  (backend : Backend) (qe : list float) (before : list string) :
  Forall (indexMisses backend qe) before ->
  (forall name after altDocs,
      aggregate backend (altPipeline name qe) = Ok altDocs ->
      altDocs <> [] ->
      tryAlternativeIndexes backend (before ++ name :: after) qe
      = (Ok altDocs,
         map (fun n => Aggregate (altPipeline n qe)) (before ++ [name])))
  /\ tryAlternativeIndexes backend before qe
     = (Ok [], map (fun n => Aggregate (altPipeline n qe)) before).
Proof.
  induction 1 as [| miss before Hmiss _ [IHhit IHnone]].
  - split; [| reflexivity].
    intros name after altDocs Hagg Hne. cbn [app tryAlternativeIndexes map].
    unfold collectionAggregate, perform. rewrite Hagg.
    destruct altDocs as [| d rest]; [contradiction Hne; reflexivity |].
    reflexivity.
  - split.
    + intros name after altDocs Hagg Hne. cbn [app map].
      rewrite (tryAlternativeIndexes_miss _ _ _ _ Hmiss).
      rewrite (IHhit name after altDocs Hagg Hne). reflexivity.
    + cbn [map]. rewrite (tryAlternativeIndexes_miss _ _ _ _ Hmiss), IHnone.
      reflexivity.
Qed.

(** An instance: only the third alternative index exists. *)
Lemma alternative_indexes_first_hit_witness :
  tryAlternativeIndexes (backend lateIndex) alternativeIndexes [1%float]
  = (Ok [MongoDocument.mk (Some "The photon scatters off the electron.")
           None None None None None None (Some score03) None;
         MongoDocument.mk (Some "Helium has two electrons.")
           None None None None None None (Some score02) None],
     [Aggregate (altPipeline "default" [1%float]);
      Aggregate (altPipeline "vector_search_index" [1%float]);
      Aggregate (altPipeline "embeddings_index" [1%float])]).
Proof.
  apply (proj1 (alternative_indexes_first_hit (backend lateIndex) [1%float]
                  ["default"; "vector_search_index"]
                  ltac:(repeat constructor))
           "embeddings_index" []).
  - vm_compute. reflexivity.
  - discriminate.
Defined.

Lemma tryAlternativeIndexes_bound backend qe names :
  List.length (snd (tryAlternativeIndexes backend names qe)) <= List.length names.
Proof.
  induction names as [| name rest IH]; [apply Nat.le_refl |].
  cbn [tryAlternativeIndexes]. unfold collectionAggregate, perform, tryCatch, bind, ret.
  destruct (aggregate backend (altPipeline name qe)) as [altDocs | e];
    cbn [fst snd app List.length].
  - destruct (0 <? List.length altDocs); cbn [fst snd app List.length]; lia.
  - lia.
Qed.

(** X10. Stage 0 makes at least one and at most five calls to the store:
    the primary search, the probe and three retries. *)
Theorem stage0_call_bound (backend : Backend) (pdfId : string) (qe : list float) :
  1 <= List.length (snd (vectorStage backend pdfId qe)) <= 5.
Proof.
  unfold vectorStage, collectionAggregate, collectionFindOne, perform, tryCatch, bind, ret.
  pose proof (tryAlternativeIndexes_bound backend qe alternativeIndexes) as Hb.
  cbn [alternativeIndexes List.length] in Hb.
  destruct (aggregate backend (vectorSearchPipeline pdfId qe)) as [docs | e];
    cbn [fst snd app List.length]; [| lia].
  destruct (0 <? List.length docs); cbn [fst snd app List.length]; [lia |].
  destruct (findOne backend FEmpty); cbn [fst snd app List.length]; [| lia].
  destruct (tryAlternativeIndexes backend alternativeIndexes qe) as [[r | e] t];
    cbn [fst snd app List.length] in *;
    rewrite ?app_nil_r, ?length_app; cbn [List.length]; lia.
Qed.

(** ** The rankings of Stages 2 and 3 (lines 328-349, 375-413) *)

(** X11. The ranking of Stage 3 returns at most 8 chunks, all of them
    candidates and none more often than among the candidates; it returns
    something whenever there is a candidate; and it returns all candidates,
    reordered, when there are at most 8 and none is front matter. *)
Theorem ranking_keeps_candidates
  (kws : list string) (allDocs : list MongoDocument.t) :
  List.length (rankKeywordDocs kws allDocs) <= 8
  /\ (exists dropped,
        Permutation (rankKeywordDocs kws allDocs ++ dropped) allDocs)
  /\ (allDocs <> [] -> rankKeywordDocs kws allDocs <> [])
  /\ (Forall (fun doc => isOverviewPage doc = false) allDocs ->
      List.length allDocs <= 8 ->
      Permutation (rankKeywordDocs kws allDocs) allDocs).
Proof.
  unfold rankKeywordDocs.
  set (contentDocs := filter (fun doc => negb (isOverviewPage doc)) allDocs).
  set (docsToSort := if 0 <? List.length contentDocs then contentDocs else allDocs).
  set (sorted := sortBy (keywordCompare kws) docsToSort).
  assert (Hsorted : Permutation docsToSort sorted) by apply sortBy_perm.
  assert (Hsub : exists rest, Permutation (docsToSort ++ rest) allDocs).
  { unfold docsToSort. destruct (0 <? List.length contentDocs).
    - exists (filter (fun doc => negb (negb (isOverviewPage doc))) allDocs).
      apply filter_split.
    - exists []. rewrite app_nil_r. reflexivity. }
  split; [apply firstn_le_length |].
  split; [| split].
  - destruct Hsub as [rest Hrest].
    exists (skipn 8 sorted ++ rest).
    rewrite app_assoc, firstn_skipn, <- Hsorted. exact Hrest.
  - intros Hne Hnil.
    assert (Hto : docsToSort <> []).
    { unfold docsToSort. destruct contentDocs as [| d rest]; cbn; [exact Hne |].
      discriminate. }
    destruct sorted as [| s rest] eqn:Hs.
    + symmetry in Hsorted. apply Permutation_nil in Hsorted.
      exact (Hto Hsorted).
    + discriminate Hnil.
  - intros Hall Hlen.
    assert (Hcontent : contentDocs = allDocs).
    { unfold contentDocs. clear -Hall.
      induction Hall as [| d l Hd _ IH]; [reflexivity |].
      cbn [filter]. rewrite Hd. cbn [negb]. f_equal. exact IH. }
    assert (Hto : docsToSort = allDocs).
    { unfold docsToSort. rewrite Hcontent.
      destruct (0 <? List.length allDocs); reflexivity. }
    rewrite firstn_all2.
    + rewrite <- Hsorted, Hto. reflexivity.
    + rewrite <- (Permutation_length Hsorted), Hto. exact Hlen.
Qed.

(** X12. Stage 2 makes one [find] query and keeps the first 8 of its
    answer after sorting by descending introduction score: the result has
    min(8, n) chunks, and together with the chunks that were cut it is the
    whole answer, reordered by descending score with the kept chunks first,
    so that no chunk that was cut scores higher than a chunk that was
    kept. *)
Theorem overview_ranking
  (backend : Backend) (pdfId : string) (docs : list MongoDocument.t) :
  find backend (overviewQuery pdfId) 10 = Ok docs ->
  exists ranked dropped,
    overviewSearch backend pdfId = (Ok ranked, [Find (overviewQuery pdfId) 10])
    /\ List.length ranked = Nat.min 8 (List.length docs)
    /\ Permutation (ranked ++ dropped) docs
    /\ StronglySorted (fun x y => (introScore y <= introScore x)%Z)
         (ranked ++ dropped).
Proof.
  intros Hfind.
  assert (Hsorted : StronglySorted (fun x y => (introScore y <= introScore x)%Z)
                      (firstn 8 (sortBy overviewCompare docs)
                       ++ skipn 8 (sortBy overviewCompare docs))).
  { rewrite firstn_skipn.
    apply sortBy_sorted; unfold overviewCompare; intros; lia. }
  assert (Hperm : Permutation
                    (firstn 8 (sortBy overviewCompare docs)
                     ++ skipn 8 (sortBy overviewCompare docs)) docs).
  { rewrite firstn_skipn. symmetry. apply sortBy_perm. }
  assert (Hlen : List.length (firstn 8 (sortBy overviewCompare docs))
                 = Nat.min 8 (List.length docs)).
  { rewrite length_firstn, <- (Permutation_length (sortBy_perm overviewCompare docs)).
    reflexivity. }
  unfold overviewSearch, collectionFind, perform. rewrite Hfind.
  destruct docs as [| d rest].
  - exists [], []. cbn. repeat split; constructor.
  - exists (firstn 8 (sortBy overviewCompare (d :: rest))),
           (skipn 8 (sortBy overviewCompare (d :: rest))).
    split; [reflexivity |]. split; [exact Hlen |].
    split; [exact Hperm | exact Hsorted].
Qed.

(** An instance: the introduction (score 5) before the preface (score 3)
    before the abstract (score 0). *)
Lemma overview_ranking_witness :
  exists ranked dropped,
    overviewSearch (backend textbook) "T"
    = (Ok ranked, [Find (overviewQuery "T") 10])
    /\ List.length ranked = Nat.min 8 (List.length (collection textbook))
    /\ Permutation (ranked ++ dropped) (collection textbook)
    /\ StronglySorted (fun x y => (introScore y <= introScore x)%Z)
         (ranked ++ dropped).
Proof.
  apply (overview_ranking (backend textbook) "T" (collection textbook)).
  vm_compute. reflexivity.
Defined.

(** ** The answer for chunks without text (lines 478-506) *)

Lemma append_length (s t : string) :
  String.length (String.append s t) = String.length s + String.length t.
Proof.
  induction s as [| c s IH]; cbn [String.append String.length];
    [reflexivity | rewrite IH; reflexivity].
Qed.

Lemma join_empty_length (n : nat) (sep : string) :
  String.length (join sep (repeat EmptyString n))
  = (n - 1) * String.length sep.
Proof.
  induction n as [| [| n] IH]; try reflexivity.
  change (repeat EmptyString (S (S n)))
    with (EmptyString :: repeat EmptyString (S n)).
  cbn [join]. cbn [repeat] in *.
  cbn [String.append]. rewrite append_length, IH. cbn. lia.
Qed.

Lemma contentless_map docs :
  Forall (fun doc => contentOf doc = "") docs ->
  map contentOf docs = repeat EmptyString (List.length docs).
Proof.
  induction 1 as [| d l Hd _ IH]; [reflexivity |].
  cbn [map List.length repeat]. rewrite Hd, IH. reflexivity.
Qed.

(** X13. For retrieved chunks that have no text under any key (at most 25
    of them): none or a single one gives the "no readable content" answer
    without sources; two or more give the "very little readable content"
    answer with one source per chunk, because the separators alone make the
    context non-empty. The client is closed in either case. *)
Theorem compose_contentless_chunks
  (backend : Backend)
  (composeTemplate : string -> list MongoDocument.t -> nat -> string -> string)
  (question : string) (docCount : nat) (docs : list MongoDocument.t) :
  close backend = Ok tt ->
  Forall (fun doc => contentOf doc = "") docs ->
  List.length docs <= 25 ->
  compose backend composeTemplate question docCount docs
  = (Ok (if List.length docs <=? 1 then Answer noContentAnswer []
         else Answer littleContentAnswer (map toSource docs)),
     [Close]).
Proof.
  intros Hclose Hall Hlen.
  unfold compose, clientClose, perform. rewrite Hclose.
  cbn [bind].
  rewrite (contentless_map docs Hall).
  pose proof (join_empty_length (List.length docs)
                (String.append newline newline)) as Hj.
  change (String.length (String.append newline newline)) with 2 in Hj.
  destruct (List.length docs) as [| [| n]] eqn:Hn.
  - reflexivity.
  - reflexivity.
  - assert (H0 : (String.length
                    (join (String.append newline newline)
                       (repeat EmptyString (S (S n)))) =? 0) = false).
    { apply Nat.eqb_neq. rewrite Hj. lia. }
    assert (H50 : (String.length
                     (join (String.append newline newline)
                        (repeat EmptyString (S (S n)))) <? 50) = true).
    { apply Nat.ltb_lt. rewrite Hj. lia. }
    rewrite H0, H50. reflexivity.
Qed.

(** An instance: two chunks without text. *)
Lemma compose_contentless_chunks_witness :
  compose (backend physics) quoteContext "what is helium" 2
          [emptyChunk; emptyChunk]
  = (Ok (Answer littleContentAnswer (map toSource [emptyChunk; emptyChunk])),
     [Close]).
Proof.
  apply (compose_contentless_chunks (backend physics) quoteContext
           "what is helium" 2 [emptyChunk; emptyChunk]).
  - reflexivity.
  - repeat constructor.
  - vm_compute. repeat constructor.
Defined.

(** ** The edges of the ingestion (vectorStore.ts, lines 27-59) *)

Lemma storedBatch_length vectors docs :
  List.length vectors = List.length docs ->
  List.length (storedBatch vectors docs) = List.length docs.
Proof.
  intros Hlen. unfold storedBatch.
  rewrite length_map, length_combine, Hlen. apply Nat.min_id.
Qed.

Lemma storedBatch_text vectors docs :
  List.length vectors = List.length docs ->
  map MongoDocument.text (storedBatch vectors docs)
  = map (fun doc => Some (Document.pageContent doc)) docs.
Proof.
  unfold storedBatch. revert vectors.
  induction docs as [| d l IH]; intros [| v vs] Hlen; try discriminate Hlen;
    [reflexivity |].
  cbn [combine map]. f_equal. apply IH. injection Hlen as Hlen. exact Hlen.
Qed.

Lemma ingestion_stores embedText id docs vectors (c : Collection) :
  id <> "" ->
  firstFileId docs = Some id ->
  Forall (fun doc => Metadata.fileId (Document.metadata doc) = Some id) docs ->
  embedDocuments embedText (map Document.pageContent docs) = Ok vectors ->
  exists c',
    embedAndStoreDocs embedText docs c = (Ok tt, c')
    /\ chunksOf id c' = storedBatch vectors docs
    /\ (forall id', id' <> id -> chunksOf id' c' = chunksOf id' c).
Proof.
  intros Hid Hfirst Hall Hvec.
  assert (Htruthy : truthy id = true).
  { destruct id; [contradiction Hid; reflexivity | reflexivity]. }
  set (c1 := if 0 <? countDocuments id c then deleteMany id c else c).
  exists (c1 ++ storedBatch vectors docs).
  split; [| split].
  - unfold embedAndStoreDocs. fold (firstFileId docs).
    rewrite Hfirst, Htruthy. cbv zeta. fold c1.
    unfold fromDocuments. rewrite Hvec. reflexivity.
  - rewrite chunksOf_app.
    replace (chunksOf id c1) with (@nil MongoDocument.t).
    + apply chunksOf_stored. exact Hall.
    + symmetry. unfold c1. destruct (0 <? countDocuments id c) eqn:Hcount.
      * apply chunksOf_deleteMany.
      * apply chunksOf_none. apply Nat.ltb_ge in Hcount. lia.
  - intros id' Hne. rewrite chunksOf_app.
    unfold storedBatch. rewrite (chunksOf_stored_other id id') by assumption.
    rewrite app_nil_r. unfold c1.
    destruct (0 <? countDocuments id c);
      [apply chunksOf_deleteMany_other; exact Hne | reflexivity].
Qed.

Lemma ingestion_replaces embedText id docs (c : Collection) :
  id <> "" ->
  firstFileId docs = Some id ->
  Forall (fun doc => Metadata.fileId (Document.metadata doc) = Some id) docs ->
  Forall (fun doc => exists v, embedText (Document.pageContent doc) = Ok v) docs ->
  exists vectors c',
    embedDocuments embedText (map Document.pageContent docs) = Ok vectors
    /\ List.length vectors = List.length docs
    /\ embedAndStoreDocs embedText docs c = (Ok tt, c')
    /\ chunksOf id c' = storedBatch vectors docs
    /\ (forall id', id' <> id -> chunksOf id' c' = chunksOf id' c).
Proof.
  intros Hid Hfirst Hall Hembed.
  destruct (embedDocuments_succeeds embedText (map Document.pageContent docs))
    as (vectors & Hvec & Hlen).
  { apply Forall_map. exact Hembed. }
  rewrite length_map in Hlen.
  destruct (ingestion_stores embedText id docs vectors c Hid Hfirst Hall Hvec)
    as (c' & Hrun & Hchunks & Hothers).
  exists vectors, c'. repeat split; assumption.
Qed.

Lemma storedBatch_outage embedText docs :
  Forall (fun doc => exists e, embedText (Document.pageContent doc) = Throw e)
         docs ->
  storedBatch (map (storedVector embedText) (map Document.pageContent docs)) docs
  = map (storedChunk []) docs.
Proof.
  unfold storedBatch.
  induction 1 as [| doc docs [e He] _ IH]; [reflexivity |].
  cbn [map combine fst snd]. unfold storedVector at 1. rewrite He.
  f_equal. exact IH.
Qed.

(** An ingestion while the embedding service fails on every text. *)
Lemma ingestion_during_outage embedText id docs (c : Collection) :
  id <> "" ->
  firstFileId docs = Some id ->
  Forall (fun doc => Metadata.fileId (Document.metadata doc) = Some id) docs ->
  Forall (fun doc => exists e, embedText (Document.pageContent doc) = Throw e)
         docs ->
  exists c',
    embedAndStoreDocs embedText docs c = (Ok tt, c')
    /\ chunksOf id c' = map (storedChunk []) docs
    /\ (forall id', id' <> id -> chunksOf id' c' = chunksOf id' c).
Proof.
  intros Hid Hfirst Hall Hfail.
  assert (Hvec : embedDocuments embedText (map Document.pageContent docs)
                 = Ok (map (storedVector embedText)
                           (map Document.pageContent docs))).
  { apply embedDocuments_alike. right. apply Forall_map. exact Hfail. }
  destruct (ingestion_stores embedText id docs _ c Hid Hfirst Hall Hvec)
    as (c' & Hrun & Hchunks & Hothers).
  exists c'. split; [exact Hrun |]. split; [| exact Hothers].
  rewrite Hchunks. apply storedBatch_outage. exact Hfail.
Qed.

Lemma ingestion_without_file_id
  embedText (docs : list Document.t) (c : Collection) :
  firstFileId docs = None \/ firstFileId docs = Some "" ->
  Forall (fun doc => exists v, embedText (Document.pageContent doc) = Ok v) docs ->
  exists vectors,
    embedDocuments embedText (map Document.pageContent docs) = Ok vectors
    /\ embedAndStoreDocs embedText docs c = (Ok tt, c ++ storedBatch vectors docs)
    /\ embedAndStoreDocs embedText docs (c ++ storedBatch vectors docs)
       = (Ok tt, c ++ storedBatch vectors docs ++ storedBatch vectors docs)
    /\ List.length (storedBatch vectors docs) = List.length docs.
Proof.
  intros Hid Hembed.
  destruct (embedDocuments_succeeds embedText (map Document.pageContent docs))
    as (vectors & Hvec & Hlen).
  { apply Forall_map. exact Hembed. }
  rewrite length_map in Hlen.
  assert (Hrun : forall c', embedAndStoreDocs embedText docs c'
                            = (Ok tt, c' ++ storedBatch vectors docs)).
  { intros c'. unfold embedAndStoreDocs. fold (firstFileId docs).
    destruct Hid as [-> | ->]; cbn [truthy];
      unfold fromDocuments; rewrite Hvec; reflexivity. }
  exists vectors. split; [exact Hvec |]. split; [apply Hrun |].
  split; [rewrite Hrun, <- app_assoc; reflexivity |].
  unfold storedBatch. rewrite length_map, length_combine, Hlen. apply Nat.min_id.
Qed.

(** X14. When the embedding service fails on every text of a non-empty
    batch whose chunks carry the non-empty file id [id], the ingestion does
    not throw: the chunks that the collection held for [id] are replaced by
    the chunks of the batch, each stored with its text and an empty
    embedding; their number is the size of the batch, and the chunks of the
    other files are as before. *)
Theorem failed_embedding_stores_empty_vectors
  (embedText : string -> result (list float))
  (id : string) (docs : list Document.t) (c : Collection) :
  id <> "" ->
  docs <> [] ->
  Forall (fun doc => Metadata.fileId (Document.metadata doc) = Some id) docs ->
  Forall (fun doc => exists e, embedText (Document.pageContent doc) = Throw e)
         docs ->
  fst (embedAndStoreDocs embedText docs c) = Ok tt
  /\ chunksOf id (snd (embedAndStoreDocs embedText docs c))
     = map (storedChunk []) docs
  /\ countDocuments id (snd (embedAndStoreDocs embedText docs c))
     = List.length docs
  /\ (forall id', id' <> id ->
        chunksOf id' (snd (embedAndStoreDocs embedText docs c))
        = chunksOf id' c).
Proof.
  intros Hid Hne Hall Hfail.
  assert (Hfirst : firstFileId docs = Some id).
  { destruct Hall as [| firstDoc rest Hfirst _];
      [contradiction Hne; reflexivity | exact Hfirst]. }
  destruct (ingestion_during_outage embedText id docs c Hid Hfirst Hall Hfail)
    as (c' & Hrun & Hchunks & Hothers).
  rewrite Hrun. cbn [fst snd].
  split; [reflexivity |]. split; [exact Hchunks |]. split; [| exact Hothers].
  unfold countDocuments. fold (chunksOf id c'). rewrite Hchunks.
  apply length_map.
Qed.

(** An instance: a re-ingestion of file A while the service is down. *)
Lemma failed_embedding_stores_empty_vectors_witness :
  fst (embedAndStoreDocs neverEmbeds [pdfChunk "A" "three"] earlierUploads)
  = Ok tt
  /\ chunksOf "A"
       (snd (embedAndStoreDocs neverEmbeds [pdfChunk "A" "three"]
               earlierUploads))
     = [storedChunk [] (pdfChunk "A" "three")]
  /\ countDocuments "A"
       (snd (embedAndStoreDocs neverEmbeds [pdfChunk "A" "three"]
               earlierUploads)) = 1
  /\ (forall id', id' <> "A" ->
        chunksOf id'
          (snd (embedAndStoreDocs neverEmbeds [pdfChunk "A" "three"]
                  earlierUploads))
        = chunksOf id' earlierUploads).
Proof.
  apply (failed_embedding_stores_empty_vectors neverEmbeds "A"
           [pdfChunk "A" "three"] earlierUploads).
  - discriminate.
  - discriminate.
  - repeat constructor.
  - repeat constructor. exists "quota exceeded". reflexivity.
Defined.

(** X15. Whatever the batch and whatever the outcome, an ingestion removes
    no chunk of a file other than the one named by its first chunk: the
    chunks held for such a file are still there, in order, before any chunk
    the batch adds for it. *)
Theorem other_files_keep_their_chunks
  (embedText : string -> result (list float))
  (docs : list Document.t) (c : Collection) (id' : string) :
  firstFileId docs <> Some id' ->
  exists added,
    chunksOf id' (snd (embedAndStoreDocs embedText docs c))
    = chunksOf id' c ++ added.
Proof.
  intros Hother.
  unfold embedAndStoreDocs. fold (firstFileId docs).
  set (c1 := match firstFileId docs with
             | Some id => if truthy id
                          then if 0 <? countDocuments id c then deleteMany id c
                               else c
                          else c
             | None => c
             end).
  assert (Hkept : chunksOf id' c1 = chunksOf id' c).
  { unfold c1. destruct (firstFileId docs) as [id |]; [| reflexivity].
    destruct (truthy id); [| reflexivity].
    destruct (0 <? countDocuments id c); [| reflexivity].
    apply chunksOf_deleteMany_other. intros Heq. apply Hother. rewrite Heq.
    reflexivity. }
  unfold fromDocuments.
  destruct (embedDocuments embedText (map Document.pageContent docs))
    as [vectors | e]; cbn [snd].
  - unfold insertMany. rewrite chunksOf_app, Hkept. eexists. reflexivity.
  - exists []. rewrite app_nil_r. exact Hkept.
Qed.

(** An instance: file B during a re-ingestion of file A while the service
    is down. *)
Lemma other_files_keep_their_chunks_witness :
  exists added,
    chunksOf "B"
      (snd (embedAndStoreDocs neverEmbeds [pdfChunk "A" "three"]
              earlierUploads))
    = chunksOf "B" earlierUploads ++ added.
Proof.
  apply (other_files_keep_their_chunks neverEmbeds [pdfChunk "A" "three"]
           earlierUploads "B").
  discriminate.
Defined.

(** X16. The command-line ingestion of chunks that carry no file id (as
    the PDF loader produces them) deletes nothing: the stored forms of the
    batch are appended to the collection, and running it a second time
    appends them once more. *)
Theorem command_line_ingestion_accumulates
  (embedText : string -> result (list float))
  (docs : list Document.t) (c : Collection) :
  docs <> [] ->
  firstFileId docs = None ->
  Forall (fun doc => exists v, embedText (Document.pageContent doc) = Ok v) docs ->
  exists vectors,
    embedDocuments embedText (map Document.pageContent docs) = Ok vectors
    /\ List.length (storedBatch vectors docs) = List.length docs
    /\ CommandLine.ingestAndStorePDF (Ok tt) (Ok docs) embedText c
       = c ++ storedBatch vectors docs
    /\ CommandLine.ingestAndStorePDF (Ok tt) (Ok docs) embedText
         (CommandLine.ingestAndStorePDF (Ok tt) (Ok docs) embedText c)
       = c ++ storedBatch vectors docs ++ storedBatch vectors docs.
Proof.
  intros Hne Hfirst Hembed.
  destruct (ingestion_without_file_id embedText docs c (or_introl Hfirst) Hembed)
    as (vectors & Hvec & Hrun1 & Hrun2 & Hlen).
  assert (Hn : (List.length docs =? 0) = false).
  { destruct docs; [contradiction Hne; reflexivity | reflexivity]. }
  exists vectors. split; [exact Hvec |]. split; [exact Hlen |].
  unfold CommandLine.ingestAndStorePDF. rewrite Hn, Hrun1. cbn [snd].
  split; [reflexivity |]. rewrite Hrun2. reflexivity.
Qed.

(** An instance: two loaded chunks, ingested twice. *)
Lemma command_line_ingestion_accumulates_witness :
  List.length
    (CommandLine.ingestAndStorePDF (Ok tt)
       (Ok [loadedChunk "one"; loadedChunk "two"]) alwaysEmbeds
       (CommandLine.ingestAndStorePDF (Ok tt)
          (Ok [loadedChunk "one"; loadedChunk "two"]) alwaysEmbeds []))
  = 4.
Proof.
  destruct (command_line_ingestion_accumulates alwaysEmbeds
              [loadedChunk "one"; loadedChunk "two"] []
              ltac:(discriminate) ltac:(reflexivity)
              ltac:(repeat constructor; exists [1%float]; reflexivity))
    as (vectors & _ & Hlen & _ & Htwice).
  rewrite Htwice, !length_app, Hlen. reflexivity.
Defined.

(** ** The upload route *)

Lemma docsWithMetadata_fileId id file splitDocs :
  Forall (fun doc => Metadata.fileId (Document.metadata doc) = Some id)
         (UploadRoute.docsWithMetadata id file splitDocs).
Proof. apply Forall_map. apply Forall_forall. reflexivity. Qed.

Lemma docsWithMetadata_first id file splitDocs :
  splitDocs <> [] ->
  firstFileId (UploadRoute.docsWithMetadata id file splitDocs) = Some id.
Proof. destruct splitDocs; [intros H; contradiction H |]; reflexivity. Qed.

Lemma storedBatch_fields id file vectors splitDocs :
  Forall (fun doc => MongoDocument.fileId doc = Some id
                     /\ MongoDocument.fileName doc
                        = Some (UploadRoute.File.name file))
         (storedBatch vectors (UploadRoute.docsWithMetadata id file splitDocs)).
Proof.
  unfold storedBatch. revert vectors.
  induction splitDocs as [| d l IH]; intros [| v vs]; try constructor.
  - split; reflexivity.
  - apply IH.
Qed.

Lemma synthetic_chunkCount st id :
  chunkCount (Synthetic.backend st) id
  = Ok (countDocuments id (Synthetic.collection st)).
Proof. reflexivity. Qed.

Section Uploads.

Variable saveUpload : UploadRoute.File.t -> string -> result unit.
Variable loadAndSplit :
  UploadRoute.File.t -> string -> result (list Document.t).
Variables embedFirst embedRetry : string -> result (list float).

(** X17. The upload route answers with status 400 exactly when the upload
    is not valid (no file, no or an empty file id, a type other than
    application/pdf, or more than 10 * 1024 * 1024 bytes), and then the
    collection is left as it was. *)
Theorem invalid_upload_is_rejected
  (form : UploadRoute.FormData) (c : Collection) :
  ((exists error, fst (UploadRoute.POST saveUpload loadAndSplit embedFirst embedRetry form c) = UploadRoute.Error 400 error)
   <-> ~ validUpload form)
  /\ (~ validUpload form -> snd (UploadRoute.POST saveUpload loadAndSplit embedFirst embedRetry form c) = c).
Proof.
  unfold UploadRoute.POST, validUpload.
  destruct (UploadRoute.pdf form) as [file |] eqn:Hpdf.
  2:{ split; [split |].
      - intros _ (file & id & Hf & _). discriminate Hf.
      - intros _. eexists. reflexivity.
      - reflexivity. }
  destruct (UploadRoute.fileId form) as [id |] eqn:Hid; cbn [orElse].
  2:{ cbn [truthy negb]. split; [split |].
      - intros _ (f & i & _ & Hi & _). discriminate Hi.
      - intros _. eexists. reflexivity.
      - reflexivity. }
  destruct id as [| a id'].
  { cbn [truthy negb]. split; [split |].
    - intros _ (f & i & _ & Hi & Hne & _). injection Hi as <-.
      apply Hne. reflexivity.
    - intros _. eexists. reflexivity.
    - reflexivity. }
  cbn [truthy negb].
  destruct (String.eqb_spec (UploadRoute.File.type file) "application/pdf")
    as [Htype | Htype]; cbn [negb].
  2:{ split; [split |].
      - intros _ (f & i & Hf & _ & _ & Ht & _). injection Hf as <-.
        exact (Htype Ht).
      - intros _. eexists. reflexivity.
      - reflexivity. }
  destruct (N.ltb_spec UploadRoute.maxFileSize (UploadRoute.File.size file))
    as [Hbig | Hsmall].
  { split; [split |].
    - intros _ (f & i & Hf & _ & _ & _ & Hs). injection Hf as <-. lia.
    - intros _. eexists. reflexivity.
    - reflexivity. }
  assert (Hvalid : exists f i,
             Some file = Some f /\ Some (String a id') = Some i /\ i <> ""
             /\ UploadRoute.File.type f = "application/pdf"
             /\ (UploadRoute.File.size f <= UploadRoute.maxFileSize)%N).
  { exists file, (String a id'). repeat split; try assumption. discriminate. }
  split; [split |].
  - intros [error Herr] _.
    destruct (saveUpload file (String a id')); [| discriminate Herr].
    destruct (loadAndSplit file (String a id')); [| discriminate Herr].
    destruct (UploadRoute.storeWithFallback _ _ _ _) as [[u | e] c'];
      discriminate Herr.
  - intros Hnot. contradiction (Hnot Hvalid).
  - intros Hnot. contradiction (Hnot Hvalid).
Qed.

Lemma upload_reaches_store form c file id splitDocs :
  UploadRoute.pdf form = Some file ->
  UploadRoute.fileId form = Some id ->
  id <> "" ->
  UploadRoute.File.type file = "application/pdf" ->
  (UploadRoute.File.size file <= UploadRoute.maxFileSize)%N ->
  saveUpload file id = Ok tt ->
  loadAndSplit file id = Ok splitDocs ->
  UploadRoute.POST saveUpload loadAndSplit embedFirst embedRetry form c
  = match UploadRoute.storeWithFallback embedFirst embedRetry
            (UploadRoute.docsWithMetadata id file splitDocs) c with
    | (Ok _, c') =>
        (UploadRoute.Processed id (UploadRoute.File.name file)
           (List.length splitDocs), c')
    | (Throw _, c') => (UploadRoute.Error 500 "Failed to process PDF", c')
    end.
Proof.
  intros Hpdf Hfid Hid Htype Hsize Hsave Hload.
  unfold UploadRoute.POST. rewrite Hpdf, Hfid. cbn [orElse].
  destruct id as [| a id']; [contradiction Hid; reflexivity |].
  cbn [truthy negb]. rewrite Htype, String.eqb_refl. cbn [negb].
  apply N.ltb_ge in Hsize. rewrite Hsize, Hsave, Hload. reflexivity.
Qed.

(** X18. A valid upload whose file is saved and split into n >= 1 chunks
    that the embedding service accepts is answered with the success object
    for n chunks; afterwards the collection holds exactly n chunks for the
    file id, with the texts of the chunks in order and the name of the file,
    the chunks of other files are untouched, and the count the chat endpoint
    asks for first is n. *)
Theorem upload_stores_chunks
  (form : UploadRoute.FormData) (c : Collection)
  (file : UploadRoute.File.t) (id : string) (splitDocs : list Document.t) :
  UploadRoute.pdf form = Some file ->
  UploadRoute.fileId form = Some id ->
  id <> "" ->
  UploadRoute.File.type file = "application/pdf" ->
  (UploadRoute.File.size file <= UploadRoute.maxFileSize)%N ->
  saveUpload file id = Ok tt ->
  loadAndSplit file id = Ok splitDocs ->
  splitDocs <> [] ->
  Forall (fun doc => exists v, embedFirst (Document.pageContent doc) = Ok v)
         splitDocs ->
  exists c',
    UploadRoute.POST saveUpload loadAndSplit embedFirst embedRetry form c
    = (UploadRoute.Processed id (UploadRoute.File.name file)
         (List.length splitDocs), c')
    /\ countDocuments id c' = List.length splitDocs
    /\ map MongoDocument.text (chunksOf id c')
       = map (fun doc => Some (Document.pageContent doc)) splitDocs
    /\ Forall (fun doc => MongoDocument.fileName doc
                          = Some (UploadRoute.File.name file))
              (chunksOf id c')
    /\ (forall id', id' <> id -> chunksOf id' c' = chunksOf id' c)
    /\ (forall st, Synthetic.collection st = c' ->
                   chunkCount (Synthetic.backend st) id
                   = Ok (List.length splitDocs)).
Proof.
  intros Hpdf Hfid Hid Htype Hsize Hsave Hload Hne Hembed.
  destruct (ingestion_replaces embedFirst id
              (UploadRoute.docsWithMetadata id file splitDocs) c Hid)
    as (vectors & c' & Hvec & Hlen & Hrun & Hchunks & Hothers).
  { apply docsWithMetadata_first. exact Hne. }
  { apply docsWithMetadata_fileId. }
  { apply Forall_map. exact Hembed. }
  assert (Hn : List.length (UploadRoute.docsWithMetadata id file splitDocs)
               = List.length splitDocs).
  { apply length_map. }
  assert (Hcount : countDocuments id c' = List.length splitDocs).
  { unfold countDocuments. fold (chunksOf id c'). rewrite Hchunks.
    rewrite storedBatch_length by exact Hlen. exact Hn. }
  exists c'. split; [| split; [| split; [| split; [| split]]]].
  - unfold UploadRoute.POST. rewrite Hpdf, Hfid. cbn [orElse].
    destruct id as [| a id']; [contradiction Hid; reflexivity |].
    cbn [truthy negb]. rewrite Htype, String.eqb_refl. cbn [negb].
    apply N.ltb_ge in Hsize. rewrite Hsize, Hsave, Hload.
    unfold UploadRoute.storeWithFallback. rewrite Hrun. reflexivity.
  - exact Hcount.
  - rewrite Hchunks, storedBatch_text by exact Hlen.
    unfold UploadRoute.docsWithMetadata. rewrite map_map. reflexivity.
  - rewrite Hchunks. eapply Forall_impl; [| apply storedBatch_fields].
    intros doc [_ Hname]. exact Hname.
  - exact Hothers.
  - intros st Hst. rewrite synthetic_chunkCount, Hst, Hcount. reflexivity.
Qed.

(** X19. A valid upload whose file is saved and split into n >= 1 chunks
    while the embedding service fails on every text is answered with the
    success object for n chunks all the same, whatever the service would do
    on a second attempt: afterwards the collection holds for the file id
    exactly the n chunks of the upload, each stored with its text and an
    empty embedding, and the chunks of the other files are untouched. *)
Theorem upload_during_outage_succeeds
  (form : UploadRoute.FormData) (c : Collection)
  (file : UploadRoute.File.t) (id : string) (splitDocs : list Document.t) :
  UploadRoute.pdf form = Some file ->
  UploadRoute.fileId form = Some id ->
  id <> "" ->
  UploadRoute.File.type file = "application/pdf" ->
  (UploadRoute.File.size file <= UploadRoute.maxFileSize)%N ->
  saveUpload file id = Ok tt ->
  loadAndSplit file id = Ok splitDocs ->
  splitDocs <> [] ->
  Forall (fun doc => exists e, embedFirst (Document.pageContent doc) = Throw e)
         splitDocs ->
  exists c',
    UploadRoute.POST saveUpload loadAndSplit embedFirst embedRetry form c
    = (UploadRoute.Processed id (UploadRoute.File.name file)
         (List.length splitDocs), c')
    /\ chunksOf id c'
       = map (storedChunk []) (UploadRoute.docsWithMetadata id file splitDocs)
    /\ countDocuments id c' = List.length splitDocs
    /\ map MongoDocument.text (chunksOf id c')
       = map (fun doc => Some (Document.pageContent doc)) splitDocs
    /\ Forall (fun doc => MongoDocument.embedding doc = Some [])
              (chunksOf id c')
    /\ (forall id', id' <> id -> chunksOf id' c' = chunksOf id' c).
Proof.
  intros Hpdf Hfid Hid Htype Hsize Hsave Hload Hne Hfail.
  set (docs := UploadRoute.docsWithMetadata id file splitDocs).
  destruct (ingestion_during_outage embedFirst id docs c Hid)
    as (c' & Hrun & Hchunks & Hothers).
  { apply docsWithMetadata_first. exact Hne. }
  { apply docsWithMetadata_fileId. }
  { apply Forall_map. exact Hfail. }
  exists c'. split; [| split; [| split; [| split; [| split]]]].
  - rewrite (upload_reaches_store form c file id splitDocs) by assumption.
    fold docs. unfold UploadRoute.storeWithFallback. rewrite Hrun.
    reflexivity.
  - exact Hchunks.
  - unfold countDocuments. fold (chunksOf id c'). rewrite Hchunks.
    unfold docs, UploadRoute.docsWithMetadata. rewrite !length_map.
    reflexivity.
  - rewrite Hchunks. unfold docs, UploadRoute.docsWithMetadata.
    rewrite !map_map. reflexivity.
  - rewrite Hchunks. apply Forall_map. apply Forall_forall. reflexivity.
  - exact Hothers.
Qed.

End Uploads.

(** An instance: the notes replace an older version of file A. *)
Lemma upload_stores_chunks_witness :
  exists c',
    UploadRoute.POST savesUpload splitsInTwo alwaysEmbeds alwaysEmbeds
      notesForm earlierUploads
    = (UploadRoute.Processed "A" "notes.pdf" 2, c')
    /\ countDocuments "A" c' = 2
    /\ map MongoDocument.text (chunksOf "A" c')
       = [Some "Helium has two electrons."; Some "The ground state."]
    /\ Forall (fun doc => MongoDocument.fileName doc = Some "notes.pdf")
              (chunksOf "A" c')
    /\ (forall id', id' <> "A" ->
          chunksOf id' c' = chunksOf id' earlierUploads)
    /\ (forall st, Synthetic.collection st = c' ->
                   chunkCount (Synthetic.backend st) "A" = Ok 2).
Proof.
  apply (upload_stores_chunks savesUpload splitsInTwo alwaysEmbeds alwaysEmbeds
           notesForm earlierUploads notes "A"
           [loadedChunk "Helium has two electrons.";
            loadedChunk "The ground state."]);
    try reflexivity; try discriminate.
  repeat constructor; exists [1%float]; reflexivity.
Defined.

(** An instance: the notes are uploaded while the service is down. *)
Lemma upload_during_outage_succeeds_witness :
  exists c',
    UploadRoute.POST savesUpload splitsInTwo neverEmbeds neverEmbeds
      notesForm earlierUploads
    = (UploadRoute.Processed "A" "notes.pdf" 2, c')
    /\ chunksOf "A" c'
       = map (storedChunk [])
           (UploadRoute.docsWithMetadata "A" notes
              [loadedChunk "Helium has two electrons.";
               loadedChunk "The ground state."])
    /\ countDocuments "A" c' = 2
    /\ map MongoDocument.text (chunksOf "A" c')
       = [Some "Helium has two electrons."; Some "The ground state."]
    /\ Forall (fun doc => MongoDocument.embedding doc = Some [])
              (chunksOf "A" c')
    /\ (forall id', id' <> "A" ->
          chunksOf id' c' = chunksOf id' earlierUploads).
Proof.
  apply (upload_during_outage_succeeds savesUpload splitsInTwo neverEmbeds
           neverEmbeds notesForm earlierUploads notes "A"
           [loadedChunk "Helium has two electrons.";
            loadedChunk "The ground state."]);
    try reflexivity; try discriminate.
  repeat constructor; exists "quota exceeded"; reflexivity.
Defined.

(** ** The history parser of the chat chain (langchain.ts, lines 18-40) *)

Lemma splitOn_nonempty sep s : splitOn sep s <> [].
Proof.
  destruct s as [| c s]; cbn [splitOn]; [discriminate |].
  destruct (Ascii.eqb c sep); [discriminate |].
  destruct (splitOn sep s); discriminate.
Qed.

Lemma splitOn_app sep a b :
  splitOn sep (String.append a (String sep b)) = splitOn sep a ++ splitOn sep b.
Proof.
  induction a as [| c a IH]; cbn [String.append splitOn].
  - rewrite Ascii.eqb_refl. reflexivity.
  - destruct (Ascii.eqb c sep); [rewrite IH; reflexivity |].
    rewrite IH. pose proof (splitOn_nonempty sep a) as Hne.
    destruct (splitOn sep a) as [| w ws]; [contradiction Hne; reflexivity |].
    reflexivity.
Qed.

Lemma splitOn_single sep s : occurrences sep s = 0 -> splitOn sep s = [s].
Proof.
  induction s as [| c s IH]; cbn [occurrences splitOn]; [reflexivity |].
  destruct (Ascii.eqb c sep); [discriminate |].
  intros H. rewrite (IH H). reflexivity.
Qed.

Lemma trimStart_blank s : blank s = true -> trimStart s = "".
Proof.
  induction s as [| c s IH]; cbn [blank trimStart]; [reflexivity |].
  destruct (Regex.isSpace c); [exact IH | discriminate].
Qed.

Lemma trimEnd_empty s : trimEnd s = "" -> blank s = true.
Proof.
  induction s as [| c s IH]; cbn [blank trimEnd]; [reflexivity |].
  destruct (trimEnd s) as [| a t]; [| discriminate].
  destruct (Regex.isSpace c); [intros _; apply IH; reflexivity | discriminate].
Qed.

Lemma trimStart_head s :
  trimStart s = ""
  \/ exists c t, trimStart s = String c t /\ Regex.isSpace c = false.
Proof.
  induction s as [| c s IH]; cbn [trimStart]; [left; reflexivity |].
  destruct (Regex.isSpace c) eqn:Hc; [exact IH |].
  right. exists c, s. split; [reflexivity | exact Hc].
Qed.

Lemma trimStart_blank_iff s : trimStart s = "" -> blank s = true.
Proof.
  induction s as [| c s IH]; cbn [blank trimStart]; [reflexivity |].
  destruct (Regex.isSpace c); [exact IH | discriminate].
Qed.

Lemma trim_empty_blank s : trim s = "" <-> blank s = true.
Proof.
  unfold trim. split.
  - intros H. destruct (trimStart_head s) as [Hs | (c & t & Hs & Hc)].
    + apply trimStart_blank_iff. exact Hs.
    + rewrite Hs in H. apply trimEnd_empty in H. cbn [blank] in H.
      rewrite Hc in H. discriminate H.
  - intros H. rewrite (trimStart_blank s H). reflexivity.
Qed.

Lemma blank_lines s :
  blank s = true -> Forall (fun line => blank line = true) (splitOn lineBreak s).
Proof.
  induction s as [| c s IH]; cbn [blank splitOn]; [repeat constructor |].
  intros H. apply andb_true_iff in H as [Hc Hs]. specialize (IH Hs).
  destruct (Ascii.eqb c lineBreak).
  - constructor; [reflexivity | exact IH].
  - destruct (splitOn lineBreak s) as [| w ws]; [repeat constructor |].
    + cbn [blank]. rewrite Hc. reflexivity.
    + inversion IH as [| ? ? Hw Hws]; subst. constructor; [| exact Hws].
      cbn [blank]. rewrite Hc, Hw. reflexivity.
Qed.

Lemma parseLine_blank line : blank line = true -> parseLine line = [].
Proof.
  destruct line as [| c line]; [reflexivity |].
  cbn [blank]. intros H. apply andb_true_iff in H as [Hc _].
  unfold parseLine. cbn [startsWith].
  destruct (Ascii.eqb c "U") eqn:HU.
  { apply Ascii.eqb_eq in HU. subst c. discriminate Hc. }
  destruct (Ascii.eqb c "A") eqn:HA.
  { apply Ascii.eqb_eq in HA. subst c. discriminate Hc. }
  reflexivity.
Qed.

Lemma parseChatHistory_lines chatHistory :
  parseChatHistory chatHistory
  = flat_map parseLine (splitOn lineBreak chatHistory).
Proof.
  unfold parseChatHistory. fold lineBreak.
  destruct (negb (truthy chatHistory) || (trim chatHistory =? "")%string) eqn:Hb;
    [| reflexivity].
  assert (Hblank : blank chatHistory = true).
  { apply orb_true_iff in Hb as [Hb | Hb].
    - destruct chatHistory; [reflexivity | discriminate Hb].
    - apply String.eqb_eq in Hb. apply trim_empty_blank. exact Hb. }
  pose proof (blank_lines chatHistory Hblank) as Hlines.
  induction Hlines as [| line lines Hl _ IH]; [reflexivity |].
  cbn [flat_map]. rewrite (parseLine_blank line Hl). exact IH.
Qed.

Lemma occurrences_append c a b :
  occurrences c (String.append a b) = occurrences c a + occurrences c b.
Proof.
  induction a as [| x a IH]; cbn [String.append occurrences]; [reflexivity |].
  rewrite IH. lia.
Qed.

Lemma startsWith_append a b : startsWith (String.append a b) a = true.
Proof.
  induction a as [| c a IH]; cbn [String.append startsWith].
  - destruct b; reflexivity.
  - rewrite Ascii.eqb_refl. exact IH.
Qed.

Lemma substringFrom_append a b :
  substringFrom (String.length a) (String.append a b) = b.
Proof.
  induction a as [| c a IH]; cbn [String.append String.length substringFrom];
    [destruct b; reflexivity | exact IH].
Qed.

Lemma parse_formatLine m :
  occurrences lineBreak (contentOfMessage m) = 0 ->
  parseChatHistory (formatLine m) = [m].
Proof.
  intros Hone. rewrite parseChatHistory_lines.
  assert (Hline : occurrences lineBreak (formatLine m) = 0).
  { destruct m as [c | c]; cbn [formatLine contentOfMessage] in *;
      rewrite occurrences_append, Hone; reflexivity. }
  rewrite (splitOn_single _ _ Hline). cbn [flat_map]. rewrite app_nil_r.
  unfold parseLine. destruct m as [c | c]; cbn [formatLine].
  - rewrite startsWith_append.
    change 6 with (String.length "User: "). rewrite substringFrom_append.
    reflexivity.
  - change (startsWith (String.append "Assistant: " c) "User: ") with false.
    rewrite startsWith_append.
    change 11 with (String.length "Assistant: "). rewrite substringFrom_append.
    reflexivity.
Qed.


(** X21. Parsing a chat history is line by line: the messages of two
    histories joined by a line break are the messages of the first followed
    by the messages of the second. *)
Theorem parseChatHistory_concat (a b : string) :
  parseChatHistory (String.append a (String lineBreak b))
  = parseChatHistory a ++ parseChatHistory b.
Proof.
  rewrite !parseChatHistory_lines, splitOn_app. apply flat_map_app.
Qed.

(** X22. A conversation whose messages contain no line break, written one
    message per line with the prefixes "User: " and "Assistant: ", is parsed
    back to the same messages in the same order. *)
Theorem history_round_trip (ms : list BaseMessage) :
  Forall (fun m => occurrences lineBreak (contentOfMessage m) = 0) ms ->
  parseChatHistory (formatHistory ms) = ms.
Proof.
  unfold formatHistory.
  induction 1 as [| m ms Hm Hms IH]; [reflexivity |].
  destruct ms as [| m' rest].
  - cbn [map join]. apply parse_formatLine. exact Hm.
  - change (join newline (map formatLine (m :: m' :: rest)))
      with (String.append (formatLine m)
              (String lineBreak (join newline (map formatLine (m' :: rest))))).
    rewrite (parseChatHistory_lines (String.append _ _)), splitOn_app,
      flat_map_app, <- !parseChatHistory_lines, IH, (parse_formatLine m Hm). reflexivity.
Qed.

Lemma history_round_trip_witness :
  parseChatHistory
    (formatHistory [HumanMessage "what is helium"; AIMessage "An element."])
  = [HumanMessage "what is helium"; AIMessage "An element."].
Proof.
  apply history_round_trip. repeat constructor.
Defined.

(** X23. A line that starts with neither "User: " nor "Assistant: "
    yields no message, on its own and at the end of any history: the later
    lines of a message that spans several lines are lost. *)
Theorem unprefixed_line_is_dropped (a line : string) :
  occurrences lineBreak line = 0 ->
  startsWith line "User: " = false ->
  startsWith line "Assistant: " = false ->
  parseChatHistory line = []
  /\ parseChatHistory (String.append a (String lineBreak line))
     = parseChatHistory a.
Proof.
  intros Hone Huser Hassistant.
  assert (Hline : parseChatHistory line = []).
  { rewrite parseChatHistory_lines, (splitOn_single _ _ Hone).
    cbn [flat_map]. unfold parseLine. rewrite Huser, Hassistant. reflexivity. }
  split; [exact Hline |].
  rewrite (parseChatHistory_lines (String.append _ _)), splitOn_app,
    flat_map_app, <- !parseChatHistory_lines, Hline. apply app_nil_r.
Qed.

(** An instance: the second line of an answer. *)
Lemma unprefixed_line_is_dropped_witness :
  parseChatHistory "and a nucleus." = []
  /\ parseChatHistory
       (String.append "Assistant: Helium has two electrons"
          (String lineBreak "and a nucleus."))
     = parseChatHistory "Assistant: Helium has two electrons".
Proof.
  apply (unprefixed_line_is_dropped "Assistant: Helium has two electrons"
           "and a nucleus."); reflexivity.
Defined.


(** ** The chat panel *)

Lemma lastElement_snoc {A : Type} (l : list A) (x : A) :
  lastElement (l ++ [x]) = Some x.
Proof.
  induction l as [| y l IH]; [reflexivity |].
  cbn [app lastElement]. destruct (l ++ [x]) eqn:Hl; [| exact IH].
  destruct l; discriminate Hl.
Qed.

Lemma trim_nonempty input : trim input <> "" -> input <> "".
Proof. intros H ->. apply H. reflexivity. Qed.

(** X25. Whenever the chat panel sends a request, the input was not blank
    and no request was pending; the last message of the body is the user
    message with the input as typed; the endpoint runs its handler on that
    input and the selected PDF; and its response is never one of the 400
    errors. *)
Theorem panel_requests_carry_a_question
  (selectedPDFId : string) (messages : list ChatPanel.Message)
  (input : string) (isLoading : bool) (body : Body) :
  ChatPanel.handleSubmit selectedPDFId messages input isLoading = Some body ->
  blank input = false
  /\ isLoading = false
  /\ lastElement (messagesOf body)
     = Some (ChatMessage.mk "user" (Some input))
  /\ (forall backend composeTemplate,
        POST backend composeTemplate body
        = match answerQuestion backend composeTemplate input selectedPDFId with
          | (Ok response, calls) => (response, calls)
          | (Throw _, calls) => (Error 500 "Internal Server Error", calls)
          end)
  /\ (forall backend composeTemplate error,
        fst (POST backend composeTemplate body) <> Error 400 error).
Proof.
  unfold ChatPanel.handleSubmit. intros H.
  destruct (truthy (trim input)) eqn:Htrim; [| discriminate H].
  destruct isLoading; [discriminate H |].
  cbn [negb orb] in H. injection H as <-.
  assert (Hne : trim input <> "").
  { intros Heq. rewrite Heq in Htrim. discriminate Htrim. }
  assert (Hlast : lastElement
                    (messagesOf
                       {| Route.messages :=
                            Some (map ChatPanel.toChatMessage
                                    (messages
                                     ++ [{| ChatPanel.role := "user";
                                            ChatPanel.content := input |}]));
                          Route.pdfId := selectedPDFId |})
                  = Some (ChatMessage.mk "user" (Some input))).
  { cbn [messagesOf Route.messages]. rewrite map_app. cbn [map].
    apply lastElement_snoc. }
  assert (Hpost : forall backend composeTemplate,
             POST backend composeTemplate
               {| Route.messages :=
                    Some (map ChatPanel.toChatMessage
                            (messages
                             ++ [{| ChatPanel.role := "user";
                                    ChatPanel.content := input |}]));
                  Route.pdfId := selectedPDFId |}
             = match answerQuestion backend composeTemplate input selectedPDFId with
               | (Ok response, calls) => (response, calls)
               | (Throw _, calls) => (Error 500 "Internal Server Error", calls)
               end).
  { intros backend composeTemplate. unfold POST. rewrite Hlast.
    unfold questionOf. cbn [ChatMessage.content orElse].
    pose proof (trim_nonempty input Hne) as Hin.
    destruct input as [| c rest]; [contradiction Hin; reflexivity |].
    reflexivity. }
  split.
  { destruct (blank input) eqn:Hb; [| reflexivity].
    apply trim_empty_blank in Hb. contradiction. }
  split; [reflexivity |]. split; [exact Hlast |].
  split; [exact Hpost |].
  intros backend composeTemplate error. rewrite Hpost.
  destruct (answerQuestion backend composeTemplate input selectedPDFId)
    as [[response | e] calls] eqn:Ha; cbn [fst]; [| discriminate].
  apply answerQuestion_answers in Ha as (a & s & ->). discriminate.
Qed.

(** An instance: a first question in an empty conversation. *)
Lemma panel_requests_carry_a_question_witness :
  blank " what is helium" = false
  /\ false = false
  /\ lastElement (messagesOf (ask "A" " what is helium"))
     = Some (ChatMessage.mk "user" (Some " what is helium"))
  /\ (forall backend composeTemplate,
        POST backend composeTemplate (ask "A" " what is helium")
        = match answerQuestion backend composeTemplate " what is helium" "A" with
          | (Ok response, calls) => (response, calls)
          | (Throw _, calls) => (Error 500 "Internal Server Error", calls)
          end)
  /\ (forall backend composeTemplate error,
        fst (POST backend composeTemplate (ask "A" " what is helium"))
        <> Error 400 error).
Proof.
  apply (panel_requests_carry_a_question "A" [] " what is helium" false
           (ask "A" " what is helium")).
  reflexivity.
Defined.

(** ** The simple search *)

Lemma ingestion_keeps_text_only embedText docs (c : Collection) :
  Forall lacksPageContent c ->
  Forall lacksPageContent (snd (embedAndStoreDocs embedText docs c)).
Proof.
  intros Hc. unfold embedAndStoreDocs.
  set (c1 := match _ with Some id => _ | None => c end).
  assert (Hc1 : Forall lacksPageContent c1).
  { unfold c1. destruct (match docs with [] => None | d :: _ => _ end) as [id |];
      [| exact Hc].
    destruct (truthy id); [| exact Hc].
    destruct (0 <? countDocuments id c); [| exact Hc].
    unfold deleteMany. apply Forall_forall. intros doc Hin.
    apply filter_In in Hin as [Hin _]. rewrite Forall_forall in Hc.
    exact (Hc doc Hin). }
  unfold fromDocuments.
  destruct (embedDocuments embedText (map Document.pageContent docs))
    as [vectors | e]; cbn [snd]; [| exact Hc1].
  unfold insertMany. apply Forall_app. split; [exact Hc1 |].
  apply Forall_map. apply Forall_forall. intros vd _. reflexivity.
Qed.

Lemma relevantDocsOf_text_only question allDocs :
  Forall lacksPageContent allDocs ->
  SimpleSearch.relevantDocsOf question allDocs = Ok [].
Proof.
  intros Hall. unfold SimpleSearch.relevantDocsOf.
  assert (Hnone : existsb SimpleSearch.hasPageContent allDocs = false).
  { induction Hall as [| d l Hd _ IH]; [reflexivity |].
    cbn [existsb]. unfold SimpleSearch.hasPageContent at 1.
    rewrite Hd. exact IH. }
  rewrite Hnone. reflexivity.
Qed.

(** X26. On a collection written by the ingestion (on top of documents
    without a [pageContent] field) the simple search never fails and never
    returns a source, whatever the question, also a missing one: the
    ingestion stores the text under [text], the search reads
    [pageContent]. For a non-empty collection it reports zero relevant
    documents. *)
Theorem simple_search_misses_ingested_chunks
  (collectionNamed : string -> list MongoDocument.t)
  (defaultCollectionName : string)
  (embedText : string -> result (list float))
  (docs : list Document.t) (c0 : Collection) (body : SimpleSearch.Body) :
  Forall lacksPageContent c0 ->
  collectionNamed (searchedCollection defaultCollectionName body)
  = snd (embedAndStoreDocs embedText docs c0) ->
  exists answer docCount relevantDocs contextLength,
    SimpleSearch.POST collectionNamed defaultCollectionName body
    = SimpleSearch.Found answer []
        (searchedCollection defaultCollectionName body)
        docCount relevantDocs contextLength
    /\ docCount = List.length (snd (embedAndStoreDocs embedText docs c0))
    /\ (docCount <> 0 -> relevantDocs = Some 0).
Proof.
  intros Hc0 Hdb.
  pose proof (ingestion_keeps_text_only embedText docs c0 Hc0) as Hc.
  unfold SimpleSearch.POST. fold (searchedCollection defaultCollectionName body).
  rewrite Hdb.
  set (c := snd (embedAndStoreDocs embedText docs c0)) in *.
  destruct (List.length c =? 0) eqn:Hn.
  - eexists _, _, _, _. split; [reflexivity |]. split; [reflexivity |].
    intros Hne. apply Nat.eqb_eq in Hn. contradiction.
  - assert (Hten : Forall lacksPageContent (firstn 10 c)).
    { apply Forall_forall. intros doc Hin. rewrite Forall_forall in Hc.
      apply Hc. rewrite <- (firstn_skipn 10 c). apply in_or_app. left.
      exact Hin. }
    rewrite (relevantDocsOf_text_only _ _ Hten).
    eexists _, _, _, _. split; [reflexivity |]. split; [reflexivity |].
    intros _. reflexivity.
Qed.

(** An instance: a search for "helium" right after ingesting a chunk
    about helium. *)
Lemma simple_search_misses_ingested_chunks_witness :
  exists answer docCount relevantDocs contextLength,
    SimpleSearch.POST
      (fun _ => snd (embedAndStoreDocs alwaysEmbeds
                       [pdfChunk "A" "Helium has two electrons."] []))
      "vectors"
      {| SimpleSearch.question := Some "helium"; SimpleSearch.pdfId := None |}
    = SimpleSearch.Found answer [] "vectors" docCount relevantDocs contextLength
    /\ docCount
       = List.length
           (snd (embedAndStoreDocs alwaysEmbeds
                   [pdfChunk "A" "Helium has two electrons."] []))
    /\ (docCount <> 0 -> relevantDocs = Some 0).
Proof.
  apply (simple_search_misses_ingested_chunks
           (fun _ => snd (embedAndStoreDocs alwaysEmbeds
                            [pdfChunk "A" "Helium has two electrons."] []))
           "vectors" alwaysEmbeds [pdfChunk "A" "Helium has two electrons."] []
           {| SimpleSearch.question := Some "helium";
              SimpleSearch.pdfId := None |}).
  - constructor.
  - reflexivity.
Defined.

(** X27. The simple search looks at the first ten documents of the
    collection only: documents after the tenth never change the sources, and
    there are at most ten sources. *)
Theorem simple_search_reads_ten_chunks
  (db db' : string -> list MongoDocument.t)
  (defaultCollectionName : string) (body : SimpleSearch.Body)
  (c extra : list MongoDocument.t) :
  db (searchedCollection defaultCollectionName body) = c ->
  db' (searchedCollection defaultCollectionName body) = c ++ extra ->
  10 <= List.length c ->
  sourcesOf (SimpleSearch.POST db' defaultCollectionName body)
  = sourcesOf (SimpleSearch.POST db defaultCollectionName body)
  /\ List.length (sourcesOf (SimpleSearch.POST db defaultCollectionName body))
     <= 10.
Proof.
  intros Hdb Hdb' Hlen.
  unfold SimpleSearch.POST. fold (searchedCollection defaultCollectionName body).
  rewrite Hdb, Hdb'.
  assert (Hfirst : firstn 10 (c ++ extra) = firstn 10 c).
  { rewrite firstn_app. replace (10 - List.length c) with 0 by lia.
    cbn [firstn]. apply app_nil_r. }
  rewrite Hfirst.
  assert (Hc : (List.length c =? 0) = false) by (apply Nat.eqb_neq; lia).
  assert (Hc' : (List.length (c ++ extra) =? 0) = false).
  { apply Nat.eqb_neq. rewrite length_app. lia. }
  rewrite Hc, Hc'.
  destruct (SimpleSearch.relevantDocsOf (SimpleSearch.question body) (firstn 10 c))
    as [relevantDocs | e] eqn:Hrel; cbn [sourcesOf].
  - split; [reflexivity |]. rewrite length_map.
    unfold SimpleSearch.relevantDocsOf in Hrel.
    destruct (existsb _ _); [| injection Hrel as <-; cbn; lia].
    destruct (SimpleSearch.question body); [| discriminate Hrel].
    injection Hrel as <-.
    etransitivity; [apply filter_length_le | exact (firstn_le_length 10 c)].
  - split; [reflexivity | cbn; lia].
Qed.

(** An instance: the eleventh page is the only one about helium. *)
Lemma simple_search_reads_ten_chunks_witness :
  sourcesOf
    (SimpleSearch.POST (fun _ => tenPages ++ [page "helium at last"]) "vectors"
       {| SimpleSearch.question := Some "helium"; SimpleSearch.pdfId := None |})
  = sourcesOf
      (SimpleSearch.POST (fun _ => tenPages) "vectors"
         {| SimpleSearch.question := Some "helium";
            SimpleSearch.pdfId := None |})
  /\ List.length
       (sourcesOf
          (SimpleSearch.POST (fun _ => tenPages) "vectors"
             {| SimpleSearch.question := Some "helium";
                SimpleSearch.pdfId := None |})) <= 10.
Proof.
  apply (simple_search_reads_ten_chunks (fun _ => tenPages)
           (fun _ => tenPages ++ [page "helium at last"]) "vectors"
           {| SimpleSearch.question := Some "helium";
              SimpleSearch.pdfId := None |}
           tenPages [page "helium at last"]).
  - reflexivity.
  - reflexivity.
  - vm_compute. repeat constructor.
Defined.
